(** * Winky: executor, pattern loop, session logger and replayer

    A shallow embedding of the plan executor ([src/core/executor.py]),
    the pattern-loop action ([src/actions/loop.py]), the extract and wait
    actions, the session logger ([src/session_logging/action_logger.py])
    and the replayer ([src/session_logging/replayer.py]).

    Python values are modelled by [value]; Python exceptions by [exn];
    the browser (Playwright page) is an abstract world [W] whose primitive
    operations are section variables, so every theorem holds for every
    behaviour of the browser. *)

From Stdlib Require Import String Ascii List ZArith Bool Lia.
Import ListNotations.
Open Scope string_scope.
Open Scope list_scope.
Set Warnings "-register-all".

(** ** Python values *)

Inductive value : Type :=
| VNone
| VBool (b : bool)
| VInt (z : Z)
| VFloat (repr : string)
| VStr (s : string)
| VList (l : list value)
| VDict (d : list (string * value)).

(** A Python dict with string keys, in insertion order. *)
Definition dict := list (string * value).

(** Python exceptions the modelled code can raise. *)
Inductive exn : Type :=
| TypeError
| AttributeError
| KeyError
| IndexError
| NameError
| RecursionError
| DriverError (msg : string).

Inductive exc (A : Type) : Type :=
| Ok (a : A)
| Raise (e : exn).
Arguments Ok {A} a.
Arguments Raise {A} e.

(** Python truthiness ([bool(v)]). *)
Definition truthy (v : value) : bool :=
  match v with
  | VNone => false
  | VBool b => b
  | VInt z => negb (Z.eqb z 0)
  | VFloat s => negb (orb (String.eqb s "0.0") (String.eqb s "-0.0"))
  | VStr s => negb (String.eqb s "")
  | VList l => match l with [] => false | _ => true end
  | VDict d => match d with [] => false | _ => true end
  end.

Fixpoint dict_get {A} (d : list (string * A)) (k : string) : option A :=
  match d with
  | [] => None
  | (k', v) :: d' => if String.eqb k k' then Some v else dict_get d' k
  end.

(** [d[k] = v]: an existing key keeps its position, a new key is appended. *)
Fixpoint dict_set {A} (d : list (string * A)) (k : string) (v : A)
  : list (string * A) :=
  match d with
  | [] => [(k, v)]
  | (k', v') :: d' =>
      if String.eqb k k' then (k', v) :: d' else (k', v') :: dict_set d' k v
  end.

(** [o.get(k, default)]: only a dict has [get]. *)
Definition py_get (o : value) (k : string) (default : value) : exc value :=
  match o with
  | VDict d => Ok (match dict_get d k with Some v => v | None => default end)
  | _ => Raise AttributeError
  end.

(** [str(x)] of an optional string ([str(None) = "None"]). *)
Definition py_str_opt (o : option string) : string :=
  match o with Some s => s | None => "None" end.

(** ** String helpers (ASCII) *)

Definition lower_ascii (c : ascii) : ascii :=
  let n := nat_of_ascii c in
  if andb (Nat.leb 65 n) (Nat.leb n 90) then ascii_of_nat (n + 32) else c.

Fixpoint lower (s : string) : string :=
  match s with
  | EmptyString => EmptyString
  | String c s' => String (lower_ascii c) (lower s')
  end.

Fixpoint starts_with (p s : string) : bool :=
  match p, s with
  | EmptyString, _ => true
  | String a p', String b s' => andb (Ascii.eqb a b) (starts_with p' s')
  | _, _ => false
  end.

(** [needle in s] for strings. *)
Fixpoint contains (needle s : string) : bool :=
  orb (starts_with needle s)
      (match s with EmptyString => false | String _ s' => contains needle s' end).

(** [s.split(sep)[0]] for a non-empty separator. *)
Fixpoint split_head (sep s : string) : string :=
  if starts_with sep s then EmptyString
  else match s with
       | EmptyString => EmptyString
       | String c s' => String c (split_head sep s')
       end.

(** ** ActionResult ([src/actions/base.py]) *)

Record ActionResult := mkResult {
  success : bool;
  action_name : option string;
  data : value;              (* [VNone] for [None] *)
  error : option string;
  metadata : dict
}.

(** [ActionResult.to_dict] *)
Definition to_dict (r : ActionResult) : value :=
  VDict [("action", match action_name r with Some n => VStr n | None => VNone end);
         ("success", VBool (success r));
         ("data", data r);
         ("error", match error r with Some e => VStr e | None => VNone end);
         ("metadata", VDict (metadata r))].

Definition opt_str (o : option string) : value :=
  match o with Some s => VStr s | None => VNone end.

(** ** JSON documents ([json.dump] / [json.load])

    A session file holds a JSON document. [json_dump] is the value tree
    [json.dump] writes; [json_load] is the Python value [json.load]
    rebuilds from it: an object is rebuilt pair by pair into a fresh dict,
    so a repeated key keeps its first position and its last value. *)

Inductive json : Type :=
| JNull
| JBool (b : bool)
| JInt (z : Z)
| JFloat (repr : string)
| JStr (s : string)
| JArr (l : list json)
| JObj (l : list (string * json)).

Fixpoint json_dump (v : value) : json :=
  match v with
  | VNone => JNull
  | VBool b => JBool b
  | VInt z => JInt z
  | VFloat s => JFloat s
  | VStr s => JStr s
  | VList l => JArr (map json_dump l)
  | VDict d =>
      JObj ((fix go (d : list (string * value)) : list (string * json) :=
               match d with
               | [] => []
               | (k, x) :: d' => (k, json_dump x) :: go d'
               end) d)
  end.

Fixpoint json_load (j : json) : value :=
  match j with
  | JNull => VNone
  | JBool b => VBool b
  | JInt z => VInt z
  | JFloat s => VFloat s
  | JStr s => VStr s
  | JArr l => VList (map json_load l)
  | JObj l =>
      VDict ((fix go (acc : dict) (l : list (string * json)) : dict :=
                match l with
                | [] => acc
                | (k, x) :: l' => go (dict_set acc k (json_load x)) l'
                end) [] l)
  end.

(** A Python dict never holds a key twice. *)
Fixpoint fresh_key (k : string) (d : dict) : bool :=
  match d with
  | [] => true
  | (k', _) :: d' => andb (negb (String.eqb k k')) (fresh_key k d')
  end.

Fixpoint wf_value (v : value) : bool :=
  match v with
  | VList l =>
      (fix go (l : list value) : bool :=
         match l with [] => true | x :: l' => andb (wf_value x) (go l') end) l
  | VDict d =>
      (fix go (d : dict) : bool :=
         match d with
         | [] => true
         | (k, x) :: d' => andb (andb (fresh_key k d') (wf_value x)) (go d')
         end) d
  | _ => true
  end.

(** ** Session logger ([src/session_logging/action_logger.py])

    [uuid.uuid4().hex[:8]] and [datetime.now().isoformat()] are inputs
    ([sid], [now]); [elapsed start stop] is the repr of
    [(end_time - start_time).total_seconds()]. The file system is the
    association list [files] from path to document. *)

Module Logger.

Record LogEntry := mkEntry {
  le_action : option string;
  le_params : dict;
  le_result : value;
  le_success : bool;
  le_error : option string;
  le_timestamp : string
}.

Record ActionLogger := mkLogger {
  logs_dir : string;
  session_id : option string;
  goal : option string;
  actions : list LogEntry;
  start_time : option string;
  files : list (string * json)
}.

Definition entry_to_value (e : LogEntry) : value :=
  VDict [("action", opt_str (le_action e));
         ("params", VDict (le_params e));
         ("result", le_result e);
         ("success", VBool (le_success e));
         ("error", opt_str (le_error e));
         ("timestamp", VStr (le_timestamp e))].

(** [os.path.join(logs_dir, f"{session_id}.json")] *)
Definition log_path (lg : ActionLogger) (sid : string) : string :=
  (logs_dir lg ++ "/" ++ sid ++ ".json")%string.

Definition init (dir : string) : ActionLogger :=
  mkLogger dir None None [] None [].

Definition start_session (goal : string) (sid now : string)
    (lg : ActionLogger) : string * ActionLogger :=
  let sid' := ("session_" ++ sid)%string in
  (sid', mkLogger (logs_dir lg) (Some sid') (Some goal) [] (Some now) (files lg)).

Definition log_action (action : option string) (params : dict) (result : value)
    (succ : bool) (err : option string) (now : string)
    (lg : ActionLogger) : ActionLogger :=
  mkLogger (logs_dir lg) (session_id lg) (goal lg)
    (actions lg ++ [mkEntry action params result succ err now])
    (start_time lg) (files lg).

Section EndSession.
Variable elapsed : string -> string -> string.

Definition log_data (sid : string) (lg : ActionLogger) (succ : bool)
    (err : option string) (now : string) : value :=
  VDict [("session_id", VStr sid);
         ("goal", opt_str (goal lg));
         ("start_time", opt_str (start_time lg));
         ("end_time", VStr now);
         ("duration_seconds",
            match start_time lg with
            | Some st => VFloat (elapsed st now)
            | None => VInt 0
            end);
         ("success", VBool succ);
         ("error", opt_str err);
         ("action_count", VInt (Z.of_nat (length (actions lg))));
         ("actions", VList (map entry_to_value (actions lg)))].

Definition end_session (succ : bool) (err : option string) (now : string)
    (lg : ActionLogger) : string * ActionLogger :=
  match session_id lg with
  | None => ("", lg)
  | Some sid =>
      let path := log_path lg sid in
      let doc := json_dump (log_data sid lg succ err now) in
      (path, mkLogger (logs_dir lg) None None [] None
                      (dict_set (files lg) path doc))
  end.

End EndSession.

Definition get_log (sid : string) (lg : ActionLogger) : option value :=
  match dict_get (files lg) (log_path lg sid) with
  | None => None
  | Some doc => Some (json_load doc)
  end.

End Logger.

(** ** A state and exception monad

    [M S A] threads a state [S]; a raised exception keeps the state
    reached so far, as Python keeps its side effects. *)

Definition M (S A : Type) := S -> exc A * S.

Definition ret {S A} (a : A) : M S A := fun s => (Ok a, s).

Definition bind {S A B} (m : M S A) (k : A -> M S B) : M S B :=
  fun s => match m s with
           | (Ok a, s') => k a s'
           | (Raise e, s') => (Raise e, s')
           end.

Definition throw {S A} (e : exn) : M S A := fun s => (Raise e, s).

Definition lift {S A} (r : exc A) : M S A := fun s => (r, s).

Definition get_state {S} : M S S := fun s => (Ok s, s).

Definition modify {S} (f : S -> S) : M S unit := fun s => (Ok tt, f s).

Notation "'let*' x ':=' m 'in' k" := (bind m (fun x => k))
  (at level 200, x name, m at level 100, k at level 200).

Fixpoint list_set {A} (l : list A) (i : nat) (x : A) : list A :=
  match l, i with
  | [], _ => []
  | _ :: l', O => x :: l'
  | y :: l', S i' => y :: list_set l' i' x
  end.

Definition name_is (o : option string) (n : string) : bool :=
  match o with Some x => String.eqb x n | None => false end.

(** Python operations used by [execute_task] on action data. *)

(** [key in o] *)
Definition py_contains (key : string) (o : value) : exc bool :=
  match o with
  | VDict d => Ok (match dict_get d key with Some _ => true | None => false end)
  | VList l => Ok (existsb (fun x => match x with
                                    | VStr s => String.eqb s key
                                    | _ => false end) l)
  | VStr s => Ok (contains key s)
  | _ => Raise TypeError
  end.

(** [o[key]] with a string key *)
Definition py_getitem_str (o : value) (key : string) : exc value :=
  match o with
  | VDict d => match dict_get d key with Some v => Ok v | None => Raise KeyError end
  | _ => Raise TypeError
  end.

(** [o[:5]] *)
Definition py_slice5 (o : value) : exc value :=
  match o with
  | VList l => Ok (VList (firstn 5 l))
  | VStr s => Ok (VStr (substring 0 5 s))
  | _ => Raise TypeError
  end.

(** [', '.join(o)] succeeds on an iterable of strings. *)
Definition py_join_ok (o : value) : exc unit :=
  match o with
  | VList l =>
      if forallb (fun x => match x with VStr _ => true | _ => false end) l
      then Ok tt else Raise TypeError
  | VStr _ => Ok tt
  | _ => Raise TypeError
  end.

(** [o[0]] *)
Definition py_index0 (o : value) : exc value :=
  match o with
  | VList (x :: _) => Ok x
  | VList [] => Raise IndexError
  | VStr (String c _) => Ok (VStr (String c EmptyString))
  | VStr EmptyString => Raise IndexError
  | VDict _ => Raise KeyError
  | _ => Raise TypeError
  end.

(** [o.split(sep)[0]] *)
Definition py_split_head (o : value) (sep : string) : exc string :=
  match o with
  | VStr s => Ok (split_head sep s)
  | _ => Raise AttributeError
  end.

(** Lines 115-116 of [execute_task]: printing the suggested selectors of
    an inspect result. *)
Definition inspect_note (d : value) : exc unit :=
  match py_contains "suggested_selectors" d with
  | Raise e => Raise e
  | Ok false => Ok tt
  | Ok true =>
      match py_getitem_str d "suggested_selectors" with
      | Raise e => Raise e
      | Ok l => match py_slice5 l with
                | Raise e => Raise e
                | Ok l5 => py_join_ok l5
                end
      end
  end.

(** ** Plan executor ([src/core/executor.py])

    A task is a Python dict [{action, description, params}] held by
    reference: [execute_plan] receives a list of references into the task
    store [tasks_heap], and [params = task.get("params", {})] aliases the
    task's own params dict when it has one. *)

Module Exec.

Record Task := mkTask {
  t_action : option string;
  t_description : string;
  t_params : option dict
}.

(** Observable effects: console lines the plan loop prints, sleeps, page
    reloads and every action call [action.execute] with its params. *)
Inductive event : Type :=
| EPrintTask (i : nat)        (* print(f"\n[{i+1}/{len(tasks)}]") *)
| EPrintAttempt (n : nat)     (* "Retrying entire plan (attempt n/...)" *)
| ESleep (ms : nat)
| EReload
| EExecute (name : string) (params : dict).

Record FailedTask := mkFailed {
  ft_task : nat;
  ft_error : option string;
  ft_index : nat
}.

(** The execution summary dict; [sm_failed_task] is [None] on success,
    where the key is absent. *)
Record Summary := mkSummary {
  sm_success : bool;
  sm_total_tasks : nat;
  sm_completed_tasks : nat;
  sm_attempts : nat;
  sm_failed_task : option FailedTask;
  sm_collected_data : list value;
  sm_log_path : string
}.

Inductive PlanResult : Type :=
| PlanRejected (err : string)   (* {"success": False, "error": err} *)
| PlanSummary (s : Summary).

Section Executor.

(** The browser world and the registered actions:
    [run_action name params] is [action_class(page).execute] applied to [params]. *)
Variable W : Type.
Variable registry : list string.
Variable max_retries : nat.
Variable run_action : string -> dict -> W -> exc ActionResult * W.
Variable page_reload : W -> exc unit * W.
Variable new_uuid : W -> string.
Variable clock : W -> string.
Variable elapsed : string -> string -> string.

Record ExecState := mkState {
  world : W;
  trace : list event;
  tasks_heap : list Task;
  collected_data : list value;
  last_inspect_result : value;    (* [VNone] for [None] *)
  logger : Logger.ActionLogger
}.

Definition EM := M ExecState.

Definition emit (e : event) : EM unit :=
  modify (fun s => mkState (world s) (trace s ++ [e]) (tasks_heap s)
                           (collected_data s) (last_inspect_result s) (logger s)).

Definition read_task (loc : nat) : EM Task :=
  fun s => match nth_error (tasks_heap s) loc with
           | Some t => (Ok t, s)
           | None => (Raise IndexError, s)
           end.

(** [params["selector"] = ...] on the task's own params dict. *)
Definition write_params (loc : nat) (p : dict) : EM unit :=
  fun s => match nth_error (tasks_heap s) loc with
           | Some t =>
               (Ok tt, mkState (world s) (trace s)
                         (list_set (tasks_heap s) loc
                            (mkTask (t_action t) (t_description t) (Some p)))
                         (collected_data s) (last_inspect_result s) (logger s))
           | None => (Raise IndexError, s)
           end.

Definition set_last_inspect (v : value) : EM unit :=
  modify (fun s => mkState (world s) (trace s) (tasks_heap s)
                           (collected_data s) v (logger s)).

Definition collect (v : value) : EM unit :=
  modify (fun s => mkState (world s) (trace s) (tasks_heap s)
                           (collected_data s ++ [v]) (last_inspect_result s) (logger s)).

Definition reset_collected : EM unit :=
  modify (fun s => mkState (world s) (trace s) (tasks_heap s)
                           [] (last_inspect_result s) (logger s)).

Definition set_logger (lg : Logger.ActionLogger) : EM unit :=
  modify (fun s => mkState (world s) (trace s) (tasks_heap s)
                           (collected_data s) (last_inspect_result s) lg).

Definition execute_action (name : string) (params : dict) : EM ActionResult :=
  let* _ := emit (EExecute name params) in
  fun s => let (r, w') := run_action name params (world s) in
           (r, mkState w' (trace s) (tasks_heap s) (collected_data s)
                       (last_inspect_result s) (logger s)).

Definition reload : EM unit :=
  fun s => let (r, w') := page_reload (world s) in
           (r, mkState w' (trace s) (tasks_heap s) (collected_data s)
                       (last_inspect_result s) (logger s)).

Definition in_registry (n : string) : bool := existsb (String.eqb n) registry.

(** [task.get("params", {})] *)
Definition task_params (t : Task) : dict :=
  match t_params t with Some p => p | None => [] end.

Definition unknown_result (name : option string) : ActionResult :=
  mkResult false name VNone
    (Some ("Unknown action: " ++ py_str_opt name)%string) [].

Definition log_action (name : option string) (params : dict) (result : value)
    (succ : bool) (err : option string) : EM unit :=
  let* s := get_state in
  set_logger (Logger.log_action name params result succ err (clock (world s))
                                (logger s)).

(** The parts of [execute_task(task, retry_count)], in source order. *)

(** Lines 84-116: read the task, run its action (or build the unknown
    action failure) and keep an inspect result. *)
Definition first_run (loc : nat) : EM (Task * ActionResult) :=
  let* task := read_task loc in
  let name := t_action task in
  let params := task_params task in
  let* result :=
    match name with
    | Some n => if in_registry n then execute_action n params
                else ret (unknown_result name)
    | None => ret (unknown_result name)
    end in
  let* _ :=
    (if success result && name_is name "inspect" && truthy (data result) then
       let* _ := set_last_inspect (data result) in
       lift (inspect_note (data result))
     else ret tt) in
  ret (task, result).

(** Lines 118-127: retry a failed extract with the first suggested
    selector, writing it into the params dict. *)
Definition repair (loc : nat) (task : Task) (retry_count : nat)
    (result : ActionResult) : EM (ActionResult * dict) :=
  let name := t_action task in
  let params := task_params task in
  let* s := get_state in
  if negb (success result) && name_is name "extract"
     && truthy (last_inspect_result s) then
    let* suggested :=
      lift (py_get (last_inspect_result s) "suggested_selectors" (VList [])) in
    if truthy suggested && (Nat.ltb retry_count max_retries) then
      let* first := lift (py_index0 suggested) in
      let* selector := lift (py_split_head first " (") in
      let params' := dict_set params "selector" (VStr selector) in
      let* _ := (match t_params task with
                 | Some _ => write_params loc params'
                 | None => ret tt
                 end) in
      let* r := (if in_registry "extract" then execute_action "extract" params'
                 else throw TypeError) in
      ret (r, params')
    else ret (result, params)
  else ret (result, params).

(** Lines 133-140: wait before the retry, reloading on a timeout. *)
Definition retry_wait (result : ActionResult) : EM unit :=
  let* _ := emit (ESleep 1000) in
  if contains "timeout" (lower (py_str_opt (error result))) then
    let* _ := emit EReload in
    let* _ := reload in
    emit (ESleep 1000)
  else ret tt.

(** Lines 145-168: log the action and collect extracted data. *)
Definition finish (name : option string) (params : dict)
    (result : ActionResult) : EM ActionResult :=
  let* _ := log_action name params
              (if truthy (data result) then data result else VDict [])
              (success result) (error result) in
  let* _ :=
    (if success result && truthy (data result)
        && (name_is name "extract" || name_is name "loop") then
       collect (VDict [("action", opt_str name); ("data", data result);
                       ("save_as", match dict_get params "save_as" with
                                   | Some v => v | None => VNone end)])
     else ret tt) in
  ret result.

(** [execute_task(task, retry_count)]; [fuel] bounds the recursive retry
    (started at [max_retries - retry_count + 1], it never runs out). *)
Fixpoint execute_task_go (fuel : nat) (loc retry_count : nat) : EM ActionResult :=
  match fuel with
  | O => throw RecursionError
  | S fuel' =>
    let* tr := first_run loc in
    let* rp := repair loc (fst tr) retry_count (snd tr) in
    if negb (success (fst rp)) && (Nat.ltb retry_count max_retries) then
      let* _ := retry_wait (fst rp) in
      execute_task_go fuel' loc (S retry_count)
    else finish (t_action (fst tr)) (snd rp) (fst rp)
  end.

Definition execute_task (loc retry_count : nat) : EM ActionResult :=
  execute_task_go (S (max_retries - retry_count)) loc retry_count.

Definition start_session (goal : string) : EM unit :=
  let* s := get_state in
  set_logger (snd (Logger.start_session goal (new_uuid (world s)) (clock (world s))
                                        (logger s))).

Definition end_session (succ : bool) (err : option string) : EM string :=
  let* s := get_state in
  let (path, lg) := Logger.end_session elapsed succ err (clock (world s)) (logger s) in
  let* _ := set_logger lg in
  ret path.

(** The [for i, task in enumerate(tasks)] loop of one plan attempt;
    returns [success_count] and [failed_task]. *)
Fixpoint run_tasks (stop_on_error : bool) (ts : list nat) (i sc : nat)
    (failed : option FailedTask) : EM (nat * option FailedTask) :=
  match ts with
  | [] => ret (sc, failed)
  | loc :: ts' =>
      let* _ := emit (EPrintTask i) in
      let* r := execute_task loc 0 in
      if success r then run_tasks stop_on_error ts' (S i) (S sc) failed
      else
        let f := Some (mkFailed loc (error r) i) in
        if stop_on_error then ret (sc, f)
        else run_tasks stop_on_error ts' (S i) sc f
  end.

(** The [while plan_attempts < max_plan_attempts] loop, with
    [max_plan_attempts = self.max_retries]. It returns either the success
    summary ([inl]) or, when it falls out, [plan_attempts] and the last
    attempt's [(success_count, failed_task)] ([None]: never assigned).
    [fuel] is [max_plan_attempts - plan_attempts]. *)
Fixpoint plan_loop (fuel : nat) (tasks : list nat)
    (stop_on_error retry_full_plan : bool) (plan_attempts : nat)
    (last : option (nat * option FailedTask))
    : EM (Summary + (nat * option (nat * option FailedTask))) :=
  match fuel with
  | O => ret (inr (plan_attempts, last))
  | S fuel' =>
    if Nat.ltb plan_attempts max_retries then
      let pa := S plan_attempts in
      let* _ := (if Nat.ltb 1 pa then
                   let* _ := emit (EPrintAttempt pa) in emit (ESleep 2000)
                 else ret tt) in
      let* res := run_tasks stop_on_error tasks 0 0 None in
      let sc := fst res in
      let ft := snd res in
      if Nat.eqb sc (length tasks) then
        let* path := end_session true None in
        let* s := get_state in
        ret (inl (mkSummary true (length tasks) sc pa None (collected_data s) path))
      else if negb retry_full_plan then ret (inr (pa, Some res))
      else if Nat.leb max_retries pa then ret (inr (pa, Some res))
      else
        (* print(f"... {failed_task['index'] + 1}") *)
        let* _ := (match ft with Some _ => ret tt | None => throw TypeError end) in
        plan_loop fuel' tasks stop_on_error retry_full_plan pa (Some res)
    else ret (inr (plan_attempts, last))
  end.

Definition execute_plan (tasks : list nat) (goal : string)
    (stop_on_error retry_full_plan : bool) : EM PlanResult :=
  match tasks with
  | [] => ret (PlanRejected "No tasks to execute")
  | _ =>
    let* _ := start_session goal in
    let* _ := reset_collected in
    let* r := plan_loop max_retries tasks stop_on_error retry_full_plan 0 None in
    match r with
    | inl sm => ret (PlanSummary sm)
    | inr (_, None) => throw NameError     (* failed_task / success_count unbound *)
    | inr (pa, Some (sc, ft)) =>
        let* path := end_session false
                       (match ft with Some f => ft_error f
                                 | None => Some "Unknown error" end) in
        let* s := get_state in
        ret (PlanSummary (mkSummary false (length tasks) sc pa ft
                                    (collected_data s) path))
    end
  end.

End Executor.

Arguments mkState {W}.
Arguments world {W}.
Arguments trace {W}.
Arguments tasks_heap {W}.
Arguments collected_data {W}.
Arguments last_inspect_result {W}.
Arguments logger {W}.

End Exec.

(** ** Pattern loop ([src/actions/loop.py], [LoopAction])

    [max_iterations] and [delay_between] are the [int] parameters of
    [execute]; the other parameters are arbitrary Python values, as they
    arrive from the planner's JSON through the executor. *)

Module Loop.

(** [str(x)] of a hashable scalar. *)
Fixpoint digits_of (fuel : nat) (n : N) (acc : string) : string :=
  match fuel with
  | O => acc
  | S f =>
      let d := N.modulo n 10 in
      let acc' := String (ascii_of_N (48 + d)) acc in
      if N.eqb (N.div n 10) 0 then acc' else digits_of f (N.div n 10) acc'
  end.

Definition z_to_string (z : Z) : string :=
  match z with
  | Z.neg p => String "-" (digits_of 64 (Npos p) EmptyString)
  | _ => digits_of 64 (Z.to_N z) EmptyString
  end.

Definition py_str (v : value) : string :=
  match v with
  | VNone => "None"
  | VBool true => "True"
  | VBool false => "False"
  | VInt z => z_to_string z
  | VFloat s => s
  | VStr s => s
  | VList _ => "[...]"
  | VDict _ => "{...}"
  end.

Definition exn_str (e : exn) : string :=
  match e with
  | TypeError => "TypeError"
  | AttributeError => "AttributeError"
  | KeyError => "KeyError"
  | IndexError => "IndexError"
  | NameError => "NameError"
  | RecursionError => "RecursionError"
  | DriverError m => m
  end.

(** [v == s] for a string literal [s]. *)
Definition eq_str (v : value) (s : string) : bool :=
  match v with VStr x => String.eqb x s | _ => false end.

(** [for x in v] *)
Fixpoint string_chars (s : string) : list value :=
  match s with
  | EmptyString => []
  | String c s' => VStr (String c EmptyString) :: string_chars s'
  end.

Definition py_iter (v : value) : exc (list value) :=
  match v with
  | VList l => Ok l
  | VStr s => Ok (string_chars s)
  | VDict d => Ok (map (fun kv => VStr (fst kv)) d)
  | _ => Raise TypeError
  end.

(** [x / 1000] evaluates for a number only. *)
Definition py_div_ok (v : value) : exc unit :=
  match v with
  | VInt _ | VBool _ | VFloat _ => Ok tt
  | _ => Raise TypeError
  end.

Inductive levent : Type :=
| LStep (step : value)
| LSleep (v : value)          (* asyncio.sleep(v / 1000) *)
| LPaginate (pagination : value).

Section LoopAction.

Variable L : Type.
Variable loop_registry : list string.
(** [action_class(page).execute] on the step params, for a registered step. *)
Variable run_registered : string -> dict -> L -> exc ActionResult * L.
(** [_extract_inline] and [_click_inline] catch every driver fault. *)
Variable extract_inline : value -> L -> ActionResult * L.
Variable click_inline : value -> L -> ActionResult * L.
(** Driver calls of [_paginate]; each may raise. *)
Variable query_selector : value -> L -> exc (option nat) * L.
Variable get_attribute : nat -> string -> L -> exc value * L.
Variable click_element : nat -> L -> exc unit * L.
Variable scroll_to_bottom : L -> exc unit * L.
(** [i >= x] for an int [i] and a float [x] given by its repr. *)
Variable float_ge : Z -> string -> bool.

Record LoopState := mkLS {
  lworld : L;
  ltrace : list levent;
  collected : list value;     (* self.collected_data *)
  iteration : nat
}.

Definition LM := M LoopState.

Definition lemit (e : levent) : LM unit :=
  modify (fun s => mkLS (lworld s) (ltrace s ++ [e]) (collected s) (iteration s)).

Definition driver {A} (f : L -> exc A * L) : LM A :=
  fun s => let (r, w') := f (lworld s) in
           (r, mkLS w' (ltrace s) (collected s) (iteration s)).

Definition driver_total {A} (f : L -> A * L) : LM A :=
  fun s => let (r, w') := f (lworld s) in
           (Ok r, mkLS w' (ltrace s) (collected s) (iteration s)).

(** [try: ... except Exception: return False] *)
Definition try_false (m : LM bool) : LM bool :=
  fun s => match m s with
           | (Ok b, s') => (Ok b, s')
           | (Raise _, s') => (Ok false, s')
           end.

(** [self.action_registry.get(action_name)] *)
Definition registry_get (a : value) : exc (option string) :=
  match a with
  | VStr n => Ok (if existsb (String.eqb n) loop_registry then Some n else None)
  | VList _ | VDict _ => Raise TypeError     (* unhashable *)
  | _ => Ok None
  end.

Definition fail_result (name err : string) : ActionResult :=
  mkResult false (Some name) VNone (Some err) [].

Definition wait_inline (step : value) : LM ActionResult :=
  let* duration := lift (py_get step "duration" (VInt 1000)) in
  let* _ := lift (py_div_ok duration) in
  let* _ := lemit (LSleep duration) in
  ret (mkResult true (Some "wait") VNone None []).

Definition execute_step (step : value) : LM ActionResult :=
  let* _ := lemit (LStep step) in
  let* a := lift (py_get step "action" VNone) in
  if negb (truthy a) then
    ret (fail_result "unknown" "Action name not specified in step")
  else
    let* cls := lift (registry_get a) in
    match cls with
    | Some n =>
        match step with
        | VDict d => driver (run_registered n (filter (fun kv => negb (String.eqb (fst kv) "action")) d))
        | _ => throw AttributeError
        end
    | None =>
        if eq_str a "extract" then driver_total (extract_inline step)
        else if eq_str a "click" then
          let* sel := lift (py_get step "selector" VNone) in
          driver_total (click_inline sel)
        else if eq_str a "wait" then wait_inline step
        else ret (mkResult false (match a with VStr n => Some n | _ => None end)
                    VNone (Some ("Unknown action: " ++ py_str a)%string) [])
    end.

(** The [for step in pattern] loop; returns [iteration_data]. *)
Fixpoint run_steps (steps : list value) (acc : list value) : LM (list value) :=
  match steps with
  | [] => ret acc
  | step :: rest =>
      let* r := execute_step step in
      if negb (success r) then ret acc
      else run_steps rest (if truthy (data r) then acc ++ [data r] else acc)
  end.

(** The [try:] body of the "click" branch of [_paginate]. *)
Definition click_next (selector wait_after : value) : LM bool :=
  let* next_button := driver (query_selector selector) in
  match next_button with
  | None => ret false
  | Some el =>
      let* is_disabled := driver (get_attribute el "disabled") in
      if truthy is_disabled then ret false
      else
        let* _ := driver (click_element el) in
        let* _ := lift (py_div_ok wait_after) in
        let* _ := lemit (LSleep wait_after) in
        ret true
  end.

(** The [try:] body of the "scroll" branch of [_paginate]. *)
Definition scroll_next (wait_after : value) : LM bool :=
  let* _ := driver scroll_to_bottom in
  let* _ := lift (py_div_ok wait_after) in
  let* _ := lemit (LSleep wait_after) in
  ret true.

Definition paginate (pagination : value) : LM bool :=
  let* pagination_type := lift (py_get pagination "type" (VStr "click")) in
  let* selector := lift (py_get pagination "selector" VNone) in
  let* wait_after := lift (py_get pagination "wait_after" (VInt 2000)) in
  if eq_str pagination_type "click" then try_false (click_next selector wait_after)
  else if eq_str pagination_type "scroll" then try_false (scroll_next wait_after)
  else ret false.

(** [int], [bool] and [float]: the values [iteration >= v] accepts. *)
Definition py_number (v : value) : bool :=
  match v with VInt _ | VBool _ | VFloat _ => true | _ => false end.

(** [iteration >= stop_value] *)
Definition py_ge (i : Z) (v : value) : exc bool :=
  match v with
  | VInt z => Ok (Z.geb i z)
  | VBool b => Ok (Z.geb i (if b then 1 else 0))
  | VFloat s => Ok (float_ge i s)
  | _ => Raise TypeError
  end.

Definition set_iteration (n : nat) : LM unit :=
  modify (fun s => mkLS (lworld s) (ltrace s) (collected s) n).

Definition extend (xs : list value) : LM unit :=
  modify (fun s => mkLS (lworld s) (ltrace s) (collected s ++ xs) (iteration s)).

Definition is_nil {A} (l : list A) : bool := match l with [] => true | _ => false end.

Section Body.
Variables (pattern pagination on_empty stop_type stop_value : value).
Variables (max_iterations delay_between : Z).

(** The [while iteration < max_iterations] loop; [fuel] is
    [max_iterations - iteration]. *)
Fixpoint loop_go (fuel : nat) : LM unit :=
  match fuel with
  | O => ret tt
  | S f =>
    let* s := get_state in
    if Z.ltb (Z.of_nat (iteration s)) max_iterations then
      let it := S (iteration s) in
      let* _ := set_iteration it in
      let* steps := lift (py_iter pattern) in
      let* iteration_data := run_steps steps [] in
      if is_nil iteration_data && eq_str on_empty "stop" then ret tt
      else
        let* _ := extend iteration_data in
        let* stop_max :=
          (if eq_str stop_type "max_iterations"
           then lift (py_ge (Z.of_nat it) stop_value) else ret false) in
        if stop_max then ret tt
        else if eq_str stop_type "empty_results" && is_nil iteration_data then ret tt
        else if truthy pagination then
          let* _ := lemit (LPaginate pagination) in
          let* has_next := paginate pagination in
          if negb has_next then ret tt
          else
            let* _ := (if Z.ltb 0 delay_between
                       then lemit (LSleep (VInt delay_between)) else ret tt) in
            loop_go f
        else ret tt
    else ret tt
  end.

End Body.

Definition loop_execute (pattern pagination stop_condition on_empty : value)
    (max_iterations delay_between : Z) : LM ActionResult :=
  if negb (truthy pattern) then ret (fail_result "loop" "Pattern is required")
  else
    let* _ := modify (fun s => mkLS (lworld s) (ltrace s) [] 0) in
    let* st :=
      (if truthy stop_condition then
         let* t := lift (py_get stop_condition "type" (VStr "max_iterations")) in
         let* v := lift (py_get stop_condition "value" (VInt max_iterations)) in
         ret (t, v)
       else ret (VStr "max_iterations", VInt max_iterations)) in
    let stop_type := fst st in
    let stop_value := snd st in
    fun s =>
      match loop_go pattern pagination on_empty stop_type stop_value
                    max_iterations delay_between (Z.to_nat max_iterations) s with
      | (Ok _, s') =>
          (Ok (mkResult true (Some "loop") (VList (collected s')) None
                 [("iterations", VInt (Z.of_nat (iteration s')));
                  ("items_collected", VInt (Z.of_nat (length (collected s'))));
                  ("stop_reason", stop_type)]), s')
      | (Raise e, s') =>
          (Ok (mkResult false (Some "loop") (VList (collected s')) (Some (exn_str e))
                 [("iterations", VInt (Z.of_nat (iteration s')))]), s')
      end.

End LoopAction.

Arguments mkLS {L}.
Arguments lworld {L}.
Arguments ltrace {L}.
Arguments collected {L}.
Arguments iteration {L}.

End Loop.

(** ** Replayer ([src/session_logging/replayer.py]) *)

Module Replay.

Inductive revent : Type :=
| RPrintAction (i : nat) (name : value)   (* print(f"  [{i+1}/{len(actions)}] {action_name}") *)
| RSleep.                                 (* asyncio.sleep(0.5 / speed) *)

Inductive ReplayResult : Type :=
| ReplayError (err : string)    (* {"success": False, "error": err} *)
| ReplayDone (succ : bool) (session_id : string) (total_actions : nat)
             (successful_actions : nat) (results : list value).

Section Replayer.

Variable R : Type.
Variable replay_registry : list string.
(** A method call on the Playwright page, by name and arguments; may raise. *)
Variable page_call : string -> list value -> R -> exc unit * R.
(** [action_class(page).execute] applied to a params dict. *)
Variable run_registered : string -> dict -> R -> exc ActionResult * R.

Record ReplayState := mkRS { rworld : R; rtrace : list revent }.

Definition RM := M ReplayState.

Definition remit (e : revent) : RM unit :=
  modify (fun s => mkRS (rworld s) (rtrace s ++ [e])).

Definition call (meth : string) (args : list value) : RM unit :=
  fun s => let (r, w') := page_call meth args (rworld s) in (r, mkRS w' (rtrace s)).

Definition ok_dict : value := VDict [("success", VBool true)].

(** [try: body; return {"success": True} except Exception as e:
    return {"success": False, "error": str(e)}] *)
Definition guarded (body : RM unit) : RM value :=
  fun s => match body s with
           | (Ok _, s') => (Ok ok_dict, s')
           | (Raise e, s') =>
               (Ok (VDict [("success", VBool false); ("error", VStr (Loop.exn_str e))]), s')
           end.

Definition execute_action (action_name params : value) : RM value :=
  if Loop.eq_str action_name "navigate" then
    guarded (let* url := lift (py_get params "url" VNone) in call "goto" [url])
  else if Loop.eq_str action_name "click" then
    guarded (let* selector := lift (py_get params "selector" VNone) in
             let* text := lift (py_get params "text" VNone) in
             if truthy selector then call "click" [selector]
             else if truthy text then call "click" [VStr ("text=" ++ Loop.py_str text)%string]
             else ret tt)
  else if Loop.eq_str action_name "type_text" then
    guarded (let* selector := lift (py_get params "selector" VNone) in
             let* text := lift (py_get params "text" VNone) in
             let* _ := call "fill" [selector; VStr ""] in
             let* _ := call "type" [selector; text] in
             let* pe := lift (py_get params "press_enter" VNone) in
             if truthy pe then call "press" [selector; VStr "Enter"] else ret tt)
  else if Loop.eq_str action_name "wait" then
    guarded (let* duration := lift (py_get params "duration" (VInt 1000)) in
             let* _ := lift (Loop.py_div_ok duration) in
             call "sleep" [duration])
  else if Loop.eq_str action_name "extract" then
    ret (VDict [("success", VBool true); ("skipped", VBool true)])
  else
    let* cls := lift (match action_name with
                      | VStr n => Ok (if existsb (String.eqb n) replay_registry
                                      then Some n else None)
                      | VList _ | VDict _ => Raise TypeError
                      | _ => Ok None
                      end) in
    match cls with
    | Some n =>
        match params with
        | VDict d =>
            let* r := (fun s => let (r, w') := run_registered n d (rworld s) in
                                (r, mkRS w' (rtrace s))) in
            ret (to_dict r)
        | _ => throw TypeError      (* keyword unpacking of a non-mapping *)
        end
    | None =>
        ret (VDict [("success", VBool false);
                    ("error", VStr ("Unknown action: " ++ Loop.py_str action_name)%string)])
    end.

(** [result.get("success")] is truthy *)
Definition result_ok (r : value) : bool :=
  match py_get r "success" VNone with Ok v => truthy v | Raise _ => false end.

Section Run.
Variables (stop_on_error speed_positive : bool) (n_actions : nat).

(** The [for i, action_log in enumerate(actions)] loop; returns
    [results] and [success_count]. *)
Fixpoint replay_loop (acts : list value) (i : nat) (results : list value)
    (success_count : nat) : RM (list value * nat) :=
  match acts with
  | [] => ret (results, success_count)
  | action_log :: rest =>
      let* action_name := lift (py_get action_log "action" VNone) in
      let* params := lift (py_get action_log "params" (VDict [])) in
      let* _ := remit (RPrintAction i action_name) in
      fun s =>
        let continue_with (results' : list value) (sc : nat) (s' : ReplayState) :=
          (let* _ := (if speed_positive && Nat.ltb i (n_actions - 1)
                      then remit RSleep else ret tt) in
           replay_loop rest (S i) results' sc) s' in
        match execute_action action_name params s with
        | (Ok result, s') =>
            if result_ok result then continue_with (results ++ [result]) (S success_count) s'
            else if stop_on_error then (Ok (results ++ [result], success_count), s')
            else continue_with (results ++ [result]) success_count s'
        | (Raise e, s') =>
            let result := VDict [("success", VBool false); ("error", VStr (Loop.exn_str e))] in
            if stop_on_error then (Ok (results ++ [result], success_count), s')
            else continue_with (results ++ [result]) success_count s'
        end
  end.

End Run.

Definition replay (session_id : string) (log_data : option value)
    (speed_positive stop_on_error : bool) : RM ReplayResult :=
  match log_data with
  | None => ret (ReplayError ("Session not found: " ++ session_id)%string)
  | Some ld =>
    if negb (truthy ld) then ret (ReplayError ("Session not found: " ++ session_id)%string)
    else
      let* actions := lift (py_get ld "actions" (VList [])) in
      if negb (truthy actions) then ret (ReplayError "No actions to replay")
      else
        let* acts := lift (Loop.py_iter actions) in
        let* res := replay_loop stop_on_error speed_positive (length acts) acts 0 [] 0 in
        let results := fst res in
        let success_count := snd res in
        ret (ReplayDone (Nat.eqb success_count (length acts)) session_id (length acts)
                        success_count results)
  end.

End Replayer.

Arguments mkRS {R}.
Arguments rworld {R}.
Arguments rtrace {R}.

End Replay.

(** ** Action plugins ([src/actions/base.py], [navigate.py], [wait.py])

    An action receives the page; [page_call meth args] is a Playwright
    page method by name and arguments, and may raise. As in the replayer,
    ["sleep"] with argument [ms] stands for [asyncio.sleep(ms / 1000)]. *)

Module Actions.

(** [p not in provided or provided[p] is None] *)
Definition is_missing (provided : dict) (p : string) : bool :=
  match dict_get provided p with
  | None | Some VNone => true
  | Some _ => false
  end.

(** [', '.join(names)] *)
Fixpoint join_comma (l : list string) : string :=
  match l with
  | [] => ""
  | [x] => x
  | x :: l' => (x ++ ", " ++ join_comma l')%string
  end.

(** [BaseAction.validate_params] *)
Definition validate_params (required : list string) (provided : dict) : option string :=
  match filter (is_missing provided) required with
  | [] => None
  | missing => Some ("Missing required parameters: " ++ join_comma missing)%string
  end.

Section Page.

Variable A : Type.
Variable page_call : string -> list value -> A -> exc unit * A.
(** [page.goto(url, wait_until=..., timeout=...)]: the response's
    [status], or [None] when there is no response. *)
Variable goto : value -> value -> value -> A -> exc (option value) * A.

Definition AM := M A.

(** [try: body except Exception as e: return handler(e)] *)
Definition catch_result (handler : exn -> ActionResult) (body : AM ActionResult)
    : AM ActionResult :=
  fun s => match body s with
           | (Ok r, s') => (Ok r, s')
           | (Raise e, s') => (Ok (handler e), s')
           end.

(** [NavigateAction.execute(url, wait_until, timeout)] *)
Definition navigate_execute (url wait_until timeout : value) : AM ActionResult :=
  match validate_params ["url"] [("url", url)] with
  | Some err => ret (mkResult false (Some "navigate") VNone (Some err) [])
  | None =>
      catch_result
        (fun e => mkResult false (Some "navigate") VNone (Some (Loop.exn_str e))
                    [("url", url)])
        (let* response := goto url wait_until timeout in
         ret (mkResult true (Some "navigate")
                (VDict [("status_code", match response with
                                        | Some st => st
                                        | None => VNone
                                        end)])
                None [("url", url); ("wait_until", wait_until)]))
  end.

(** [WaitAction.execute(selector, timeout, state, duration, wait_for)] *)
Definition wait_execute (selector timeout state duration wait_for : value)
    : AM ActionResult :=
  catch_result
    (fun e => mkResult false (Some "wait") VNone (Some (Loop.exn_str e))
                [("selector", selector); ("duration", duration)])
    (if negb (truthy duration) && negb (truthy wait_for) && negb (truthy selector) then
       let* _ := page_call "wait_for_load_state" [VStr "domcontentloaded"; timeout] in
       let* _ := page_call "sleep" [VInt 1000] in
       ret (mkResult true (Some "wait") VNone None [("default_wait", VBool true)])
     else if truthy duration then
       let* _ := lift (Loop.py_div_ok duration) in
       let* _ := page_call "sleep" [duration] in
       ret (mkResult true (Some "wait") VNone None [("duration", duration)])
     else if truthy wait_for then
       let* _ := page_call "wait_for_load_state" [wait_for; timeout] in
       ret (mkResult true (Some "wait") VNone None [("wait_for", wait_for)])
     else if truthy selector then
       let* _ := page_call "wait_for_selector" [selector; timeout; state] in
       ret (mkResult true (Some "wait") VNone None
              [("selector", selector); ("state", state)])
     else
       ret (mkResult false (Some "wait") VNone (Some "No wait condition specified") [])).

End Page.

End Actions.

(** ** Concrete instances

    Small browser worlds used to evaluate the model on explicit inputs.
    [demo_run] counts action calls in the world: [click] succeeds from the
    sixth call on, [extract] succeeds on [".job"] and ["article"], and
    [inspect] reports the suggested selector ["article (5)"]. *)

Module Demo.

Definition registry : list string :=
  ["click"; "navigate"; "extract"; "type_text"; "wait"; "loop";
   "reload"; "tab"; "scroll"; "screenshot"; "inspect"].

Definition ok (name : string) (d : value) : ActionResult :=
  mkResult true (Some name) d None [].

Definition ko (name err : string) : ActionResult :=
  mkResult false (Some name) VNone (Some err) [].

Definition inspect_data : value :=
  VDict [("url", VStr "https://jobs.example");
         ("suggested_selectors", VList [VStr "article (5)"])].

Definition run (n : string) (p : dict) (w : nat) : exc ActionResult * nat :=
  (Ok (if String.eqb n "click" then
         (if Nat.leb 5 w then ok "click" VNone else ko "click" "Element is not visible")
       else if String.eqb n "extract" then
         match dict_get p "selector" with
         | Some (VStr s) =>
             if orb (String.eqb s ".job") (String.eqb s "article")
             then ok "extract" (VList [VStr "Engineer"])
             else ko "extract" "No element matches selector"
         | _ => ko "extract" "'selector' parameter is required"
         end
       else if String.eqb n "inspect" then ok "inspect" inspect_data
       else ok n VNone), S w).

Definition reload (w : nat) : exc unit * nat := (Ok tt, w).
Definition uuid (w : nat) : string := "0a1b2c3d".
Definition clock (w : nat) : string := "2026-10-14T09:00:00".
Definition elapsed (a b : string) : string := "1.5".

Definition state (heap : list Exec.Task) (inspect : value) : Exec.ExecState nat :=
  @Exec.mkState nat 0 [] heap [] inspect (Logger.init "./logs").

Definition task (a : string) (p : dict) : Exec.Task :=
  Exec.mkTask (Some a) "" (Some p).

(** A plan whose second task names an action absent from the registry. *)
Definition failing_plan_heap : list Exec.Task :=
  [task "extract" [("selector", VStr ".job")]; task "hover" [];
   task "wait" []; task "wait" []].

(** A plan whose click only succeeds on the second plan attempt. *)
Definition retry_plan_heap : list Exec.Task :=
  [task "extract" [("selector", VStr ".job")]; task "click" []].

(** The [collected_data] entry of a successful [.job] extract. *)
Definition job_entry : value :=
  VDict [("action", VStr "extract"); ("data", VList [VStr "Engineer"]);
         ("save_as", VNone)].

(** Oracles of the pattern loop: inline steps always succeed, and every
    driver call of the pagination step raises (the page has gone away). *)
Definition loop_extract (step : value) (w : nat) : ActionResult * nat :=
  (ok "extract" (VList [VStr "Engineer"]), S w).
Definition loop_click (sel : value) (w : nat) : ActionResult * nat :=
  (ok "click" VNone, S w).
Definition closed_page : exn := DriverError "Target page has been closed".
Definition query_selector (sel : value) (w : nat) : exc (option nat) * nat :=
  (Raise closed_page, w).
Definition get_attribute (el : nat) (a : string) (w : nat) : exc value * nat :=
  (Raise closed_page, w).
Definition click_element (el : nat) (w : nat) : exc unit * nat :=
  (Raise closed_page, w).
Definition scroll_to_bottom (w : nat) : exc unit * nat := (Raise closed_page, w).
Definition float_ge (i : Z) (x : string) : bool := false.
Definition job_pattern : value :=
  VList [VDict [("action", VStr "extract"); ("selector", VStr ".job")]].
Definition next_button : value :=
  VDict [("type", VStr "click"); ("selector", VStr "a.next")].
Definition loop_state : Loop.LoopState nat := @Loop.mkLS nat 0 [] [] 0.

(** The page for the replayer: clicking ["#missing"] times out. *)
Definition page_call (meth : string) (args : list value) (w : nat) : exc unit * nat :=
  if String.eqb meth "click" then
    match args with
    | [VStr "#missing"] => (Raise (DriverError "Timeout 30000ms exceeded"), S w)
    | _ => (Ok tt, S w)
    end
  else (Ok tt, S w).
(** A recorded session: navigate, a click on a missing element, a wait. *)
Definition replay_actions : list value :=
  [VDict [("action", VStr "navigate"); ("params", VDict [("url", VStr "https://jobs.example")])];
   VDict [("action", VStr "click"); ("params", VDict [("selector", VStr "#missing")])];
   VDict [("action", VStr "wait"); ("params", VDict [("duration", VInt 500)])]].
Definition replay_log : dict :=
  [("session_id", VStr "session_0a1b2c3d"); ("goal", VStr "find jobs");
   ("actions", VList replay_actions)].
Definition replay_state : Replay.ReplayState nat := @Replay.mkRS nat 0 [].

Definition open_logger : Logger.ActionLogger :=
  Logger.log_action (Some "extract") [("selector", VStr ".job")]
    (VList [VStr "Engineer"]) true None "2026-10-14T09:00:01"
    (snd (Logger.start_session "find jobs" "0a1b2c3d" "2026-10-14T09:00:00"
            (Logger.init "./logs"))).

(** A page on which every action times out. *)
Definition timeout_run (n : string) (p : dict) (w : nat) : exc ActionResult * nat :=
  (Ok (ko n "Timeout 30000ms exceeded"), S w).

(** A plan whose tasks both succeed on the demo world. *)
Definition ok_plan_heap : list Exec.Task :=
  [task "extract" [("selector", VStr ".job")]; task "wait" []].

(** A page without job listings: every extract finds nothing, whatever
    its selector; the other actions behave as in [run]. *)
Definition no_jobs_run (n : string) (p : dict) (w : nat) : exc ActionResult * nat :=
  if String.eqb n "extract" then (Ok (ko "extract" "No elements found"), S w)
  else run n p w.

(** A page on which every extract succeeds with an empty list. *)
Definition empty_run (n : string) (p : dict) (w : nat) : exc ActionResult * nat :=
  if String.eqb n "extract" then (Ok (ok "extract" (VList [])), S w)
  else run n p w.

(** A plan that inspects the page before extracting with [sel]. *)
Definition jobs_plan (sel : string) : list Exec.Task :=
  [task "navigate" [("url", VStr "https://jobs.example")]; task "wait" [];
   task "inspect" []; task "extract" [("selector", VStr sel)]].

(** A page whose next button is present and enabled, and which scrolls. *)
Definition found_query (sel : value) (w : nat) : exc (option nat) * nat := (Ok (Some 7), S w).
(** A bare [<button disabled>]: [get_attribute("disabled")] is [""]. *)
Definition bare_disabled_attribute (el : nat) (a : string) (w : nat) : exc value * nat :=
  (Ok (VStr ""), S w).
Definition click_ok (el : nat) (w : nat) : exc unit * nat := (Ok tt, S w).
Definition scroll_ok (w : nat) : exc unit * nat := (Ok tt, S w).

End Demo.

(** * Proofs *)

(** Case analysis on the innermost [match] of the goal. *)
Ltac split_match :=
  match goal with
  | |- context [match ?x with _ => _ end] =>
      lazymatch x with
      | context [match _ with _ => _ end] => fail
      | _ => destruct x eqn:?
      end
  end.

(** ** Properties of the executor *)

Module ExecFacts.

Lemma bind_ok {S A B} (m : M S A) (k : A -> M S B) s a s' :
  m s = (Ok a, s') -> bind m k s = k a s'.
Proof. intros H. unfold bind. rewrite H. reflexivity. Qed.

Lemma bind_raise {S A B} (m : M S A) (k : A -> M S B) s e s' :
  m s = (Raise e, s') -> bind m k s = (Raise e, s').
Proof. intros H. unfold bind. rewrite H. reflexivity. Qed.

Lemma dict_set_twice {A} (d : list (string * A)) k v :
  dict_set (dict_set d k v) k v = dict_set d k v.
Proof.
  induction d as [|[k' v'] d IH]; cbn.
  - rewrite String.eqb_refl. reflexivity.
  - destruct (String.eqb k k') eqn:E; cbn; rewrite E; [reflexivity|now rewrite IH].
Qed.

Lemma list_set_twice {A} (l : list A) i x y :
  list_set (list_set l i x) i y = list_set l i y.
Proof.
  revert i; induction l as [|a l IH]; intros [|i]; cbn; try reflexivity.
  now rewrite IH.
Qed.

Lemma nth_error_list_set_same {A} (l : list A) i x y :
  nth_error l i = Some y -> nth_error (list_set l i x) i = Some x.
Proof.
  revert i; induction l as [|a l IH]; intros [|i]; cbn; try discriminate; auto.
Qed.

Import Exec.


Ltac proj_simpl :=
  cbn [Exec.world Exec.trace Exec.tasks_heap Exec.collected_data
       Exec.last_inspect_result Exec.logger fst snd] in *.

Ltac crush := repeat (split_match; proj_simpl).
Section F.
Variable W : Type. Variable registry : list string. Variable max_retries : nat.
Variable run_action : string -> dict -> W -> exc ActionResult * W.
Variable page_reload : W -> exc unit * W.
Variable clock : W -> string.
Local Abbreviation EState := (ExecState W).
Local Abbreviation first_run := (Exec.first_run W registry run_action).
Local Abbreviation repair := (Exec.repair W registry max_retries run_action).
Local Abbreviation retry_wait := (Exec.retry_wait W page_reload).
Local Abbreviation finish := (Exec.finish W clock).
Local Abbreviation execute_task_go := (Exec.execute_task_go W registry max_retries run_action page_reload clock).
Local Abbreviation execute_task := (Exec.execute_task W registry max_retries run_action page_reload clock).
Variable new_uuid : W -> string.
Variable elapsed : string -> string -> string.
Local Abbreviation run_tasks := (Exec.run_tasks W registry max_retries run_action page_reload clock).
Local Abbreviation plan_loop := (Exec.plan_loop W registry max_retries run_action page_reload clock elapsed).
Local Abbreviation execute_plan := (Exec.execute_plan W registry max_retries run_action page_reload new_uuid clock elapsed).
Local Abbreviation emit := (Exec.emit W).
Local Abbreviation in_registry := (Exec.in_registry registry).

Definition unknown_name (o : option string) : bool :=
  match o with Some n => negb (in_registry n) | None => true end.

Lemma first_run_unknown loc task (s : EState) :
  nth_error (tasks_heap s) loc = Some task ->
  unknown_name (t_action task) = true ->
  first_run loc s = (Ok (task, unknown_result (t_action task)), s).
Proof.
  intros Hn Hu. unfold Exec.first_run, bind, read_task. rewrite Hn.
  destruct (t_action task) as [n|]; cbn [unknown_name] in Hu.
  - apply Bool.negb_true_iff in Hu. rewrite Hu. reflexivity.
  - reflexivity.
Qed.

Lemma repair_skip loc task rc result (s : EState) :
  negb (success result) && name_is (t_action task) "extract"
    && truthy (last_inspect_result s) = false ->
  repair loc task rc result s = (Ok (result, task_params task), s).
Proof.
  intros H. unfold Exec.repair, bind, get_state. rewrite H. reflexivity.
Qed.

Lemma retry_wait_plain result (s : EState) :
  contains "timeout" (lower (py_str_opt (error result))) = false ->
  retry_wait result s =
    (Ok tt, mkState (world s) (trace s ++ [ESleep 1000]) (tasks_heap s)
              (collected_data s) (last_inspect_result s) (logger s)).
Proof.
  intros H. unfold Exec.retry_wait, bind, Exec.emit, modify. rewrite H. reflexivity.
Qed.

Lemma finish_failed name params result (s : EState) :
  success result = false -> truthy (data result) = false ->
  finish name params result s =
    (Ok result, mkState (world s) (trace s) (tasks_heap s) (collected_data s)
                  (last_inspect_result s)
                  (Logger.log_action name params (VDict []) false (error result)
                     (clock (world s)) (logger s))).
Proof.
  intros Hs Hd. unfold Exec.finish, Exec.log_action, set_logger, bind, modify, get_state.
  rewrite Hs, Hd. reflexivity.
Qed.

Lemma execute_task_go_S fuel loc rc :
  execute_task_go (S fuel) loc rc =
    (let* tr := first_run loc in
     let* rp := repair loc (fst tr) rc (snd tr) in
     if negb (success (fst rp)) && (Nat.ltb rc max_retries) then
       let* _ := retry_wait (fst rp) in
       execute_task_go fuel loc (S rc)
     else finish (t_action (fst tr)) (snd rp) (fst rp)).
Proof. reflexivity. Qed.

Definition suggested_selector (li : value) : exc string :=
  match py_get li "suggested_selectors" (VList []) with
  | Ok sug => match py_index0 sug with
              | Ok first => py_split_head first " ("
              | Raise e => Raise e
              end
  | Raise e => Raise e
  end.

Definition repaired (t : Task) (p : dict) (sel : string) : Task :=
  mkTask (t_action t) (t_description t) (Some (dict_set p "selector" (VStr sel))).

Lemma repair_heap loc t rc r (s : EState) :
  nth_error (tasks_heap s) loc = Some t ->
  last_inspect_result (snd (repair loc t rc r s)) = last_inspect_result s /\
  (tasks_heap (snd (repair loc t rc r s)) = tasks_heap s \/
   exists p sel, t_action t = Some "extract" /\ t_params t = Some p /\
     suggested_selector (last_inspect_result s) = Ok sel /\
     tasks_heap (snd (repair loc t rc r s)) =
       list_set (tasks_heap s) loc (repaired t p sel)).
Proof.
  intros Hn. unfold Exec.repair, bind, get_state, lift, ret, task_params.
  destruct (negb (success r) && name_is (t_action t) "extract"
            && truthy (last_inspect_result s)) eqn:Hc; [|auto].
  assert (Ha : t_action t = Some "extract").
  { destruct (t_action t) as [a|]; cbn in Hc.
    - destruct (String.eqb a "extract") eqn:Ea.
      + apply String.eqb_eq in Ea. now subst.
      + rewrite Bool.andb_false_r in Hc. discriminate.
    - rewrite Bool.andb_false_r in Hc. discriminate. }
  destruct (py_get (last_inspect_result s) "suggested_selectors" (VList [])) as [sug|e] eqn:Hg;
    [|auto].
  destruct (truthy sug && Nat.ltb rc max_retries); [|auto].
  destruct (py_index0 sug) as [first|e] eqn:Hi; [|auto].
  destruct (py_split_head first " (") as [sel|e] eqn:Hsp; [|auto].
  assert (Hsel : suggested_selector (last_inspect_result s) = Ok sel)
    by (unfold suggested_selector; rewrite Hg, Hi; exact Hsp).
  destruct (t_params t) as [p|] eqn:Hp.
  - unfold write_params. rewrite Hn. cbn [world trace tasks_heap collected_data last_inspect_result logger].
    destruct (in_registry "extract").
    + unfold Exec.execute_action, bind, Exec.emit, modify.
      cbn [world trace tasks_heap collected_data last_inspect_result logger].
      destruct (run_action _ _ _) as [[res|e] w']; cbn; split; auto; right;
        exists p, sel; repeat split; auto.
    + cbn. split; auto; right; exists p, sel; repeat split; auto.
  - destruct (in_registry "extract").
    + unfold Exec.execute_action, bind, Exec.emit, modify.
      destruct (run_action _ _ _) as [[res|e] w']; cbn; auto.
    + cbn. auto.
Qed.

Lemma first_run_heap loc (s : EState) :
  tasks_heap (snd (first_run loc s)) = tasks_heap s /\
  match first_run loc s with
  | (Ok (t, r), s') =>
      nth_error (tasks_heap s) loc = Some t /\
      (name_is (t_action t) "inspect" = false ->
       last_inspect_result s' = last_inspect_result s)
  | (Raise _, _) => True
  end.
Proof.
  unfold Exec.first_run, read_task, Exec.execute_action, Exec.emit,
    set_last_inspect, bind, modify, lift, ret.
  crush; repeat split; auto; try discriminate; intros;
    repeat match goal with H : _ && _ = true |- _ => apply andb_true_iff in H; destruct H end;
    congruence.
Qed.

Lemma bind_unfold {S A B} (m : M S A) (k : A -> M S B) s :
  bind m k s = match m s with
               | (Ok a, s') => k a s'
               | (Raise e, s') => (Raise e, s')
               end.
Proof. reflexivity. Qed.

Lemma retry_wait_heap r (s : EState) :
  tasks_heap (snd (retry_wait r s)) = tasks_heap s /\
  last_inspect_result (snd (retry_wait r s)) = last_inspect_result s.
Proof.
  unfold Exec.retry_wait, Exec.emit, reload, bind, modify, ret. crush; auto.
Qed.

Lemma finish_heap name params r (s : EState) :
  tasks_heap (snd (finish name params r s)) = tasks_heap s /\
  last_inspect_result (snd (finish name params r s)) = last_inspect_result s.
Proof.
  unfold Exec.finish, Exec.log_action, set_logger, collect, get_state,
    bind, modify, ret. crush; auto.
Qed.

Lemma go_heap_other fuel : forall loc rc (s : EState),
  (forall t, nth_error (tasks_heap s) loc = Some t ->
             name_is (t_action t) "extract" = false) ->
  tasks_heap (snd (execute_task_go fuel loc rc s)) = tasks_heap s.
Proof.
  induction fuel as [|fuel IH]; intros loc rc s Hx; [reflexivity|].
  rewrite execute_task_go_S, bind_unfold.
  pose proof (first_run_heap loc s) as [Hh Hr].
  destruct (first_run loc s) as [[[t r]|e] s1]; proj_simpl; [|exact Hh].
  destruct Hr as [Hn _].
  rewrite bind_unfold.
  pose proof (repair_heap loc t rc r s1 ltac:(rewrite Hh; exact Hn)) as [_ Hrep].
  assert (Hh2 : tasks_heap (snd (repair loc t rc r s1)) = tasks_heap s1).
  { destruct Hrep as [Hrep|(p & sel & Ha & _)]; [exact Hrep|].
    specialize (Hx t Hn). rewrite Ha in Hx. discriminate. }
  destruct (repair loc t rc r s1) as [[[r' p']|e] s2]; proj_simpl; [|congruence].
  destruct (negb (success r') && Nat.ltb rc max_retries).
  - rewrite bind_unfold.
    pose proof (retry_wait_heap r' s2) as [Hh3 _].
    destruct (retry_wait r' s2) as [[u|e] s3]; proj_simpl; [|congruence].
    rewrite IH; [congruence|]. rewrite Hh3, Hh2, Hh. exact Hx.
  - pose proof (finish_heap (t_action t) p' r' s2) as [Hh3 _]. congruence.
Qed.

Definition heap_ok (H0 : list Task) (li0 : value) (loc : nat) (h : list Task) : Prop :=
  h = H0 \/
  exists t p sel, nth_error H0 loc = Some t /\ t_action t = Some "extract" /\
    t_params t = Some p /\ suggested_selector li0 = Ok sel /\
    h = list_set H0 loc (repaired t p sel).

Lemma heap_ok_task H0 li0 loc t0 h t :
  nth_error H0 loc = Some t0 -> heap_ok H0 li0 loc h -> nth_error h loc = Some t ->
  t = t0 \/ exists p sel, t_params t0 = Some p /\ suggested_selector li0 = Ok sel /\
                          t = repaired t0 p sel.
Proof.
  intros H0n [->|(t' & p & sel & Hn & _ & Hp & Hs & ->)] Hh.
  - left. congruence.
  - right. rewrite H0n in Hn. injection Hn as <-.
    rewrite (nth_error_list_set_same _ _ _ _ H0n) in Hh. injection Hh as <-.
    eauto.
Qed.

Lemma go_heap_extract fuel H0 li0 loc t0 : forall rc (s : EState),
  nth_error H0 loc = Some t0 -> t_action t0 = Some "extract" ->
  heap_ok H0 li0 loc (tasks_heap s) -> last_inspect_result s = li0 ->
  heap_ok H0 li0 loc (tasks_heap (snd (execute_task_go fuel loc rc s))).
Proof.
  induction fuel as [|fuel IH]; intros rc s H0n Ha Hok Hli; [exact Hok|].
  rewrite execute_task_go_S, bind_unfold.
  pose proof (first_run_heap loc s) as [Hh Hr].
  destruct (first_run loc s) as [[[t r]|e] s1]; proj_simpl; [|congruence].
  destruct Hr as [Hn Hli1].
  assert (Ht : t = t0 \/ exists p sel, t_params t0 = Some p /\
                 suggested_selector li0 = Ok sel /\ t = repaired t0 p sel)
    by (eapply heap_ok_task; eauto).
  assert (Hta : t_action t = Some "extract")
    by (destruct Ht as [->|(p & sel & _ & _ & ->)]; exact Ha).
  specialize (Hli1 ltac:(rewrite Hta; reflexivity)).
  rewrite bind_unfold.
  pose proof (repair_heap loc t rc r s1 ltac:(rewrite Hh; exact Hn)) as [Hli2 Hrep].
  assert (Hok2 : heap_ok H0 li0 loc (tasks_heap (snd (repair loc t rc r s1)))).
  { destruct Hrep as [Hrep|(p' & sel' & _ & Hp' & Hs' & Hrep)]; [congruence|].
    rewrite Hrep, Hh. rewrite Hli1, Hli in Hs'.
    destruct Hok as [Hok|(t1 & p & sel & H1n & Ha1 & Hp & Hs & Hok)].
    - right. rewrite Hok in Hn |- *. rewrite H0n in Hn. injection Hn as <-.
      exists t0, p', sel'. auto.
    - right. exists t1, p, sel. repeat split; auto.
      rewrite Hok in Hn |- *. rewrite list_set_twice. f_equal.
      rewrite (nth_error_list_set_same _ _ _ _ H1n) in Hn. injection Hn as <-.
      unfold repaired in Hp' |- *. cbn in Hp'. injection Hp' as <-.
      rewrite Hs in Hs'. injection Hs' as <-. rewrite dict_set_twice. reflexivity. }
  destruct (repair loc t rc r s1) as [[[r' p']|e] s2]; proj_simpl; [|exact Hok2].
  destruct (negb (success r') && Nat.ltb rc max_retries).
  - rewrite bind_unfold.
    pose proof (retry_wait_heap r' s2) as [Hh3 Hli3].
    destruct (retry_wait r' s2) as [[u|e] s3]; proj_simpl; [|congruence].
    apply IH; auto; [congruence|]. congruence.
  - pose proof (finish_heap (t_action t) p' r' s2) as [Hh3 _]. congruence.
Qed.

(** The selector repair of lines 119-125 for a first result [r]: the
    params dict and the selector it writes into the task, if it writes. *)
Definition repair_target (t : Task) (r : ActionResult) (li : value) (rc : nat)
    : option (dict * string) :=
  if negb (success r) && name_is (t_action t) "extract" && truthy li then
    match py_get li "suggested_selectors" (VList []) with
    | Ok sug =>
        if truthy sug && Nat.ltb rc max_retries then
          match suggested_selector li, t_params t with
          | Ok sel, Some p => Some (p, sel)
          | _, _ => None
          end
        else None
    | Raise _ => None
    end
  else None.

(** The write made by the first call of [execute_task] on task [t]: only
    an extract is repaired, after its first run on the task's own params. *)
Definition first_repair (t : Task) (li : value) (rc : nat) (w : W)
    : option (dict * string) :=
  if name_is (t_action t) "extract" then
    match run_action "extract" (task_params t) w with
    | (Ok r, _) => repair_target t r li rc
    | (Raise _, _) => None
    end
  else None.

(** Heaps on which a further repair of the task at [loc] writes nothing new. *)
Definition stable (h : list Task) (li : value) (loc : nat) : Prop :=
  forall t p sel, nth_error h loc = Some t -> t_action t = Some "extract" ->
    t_params t = Some p -> suggested_selector li = Ok sel ->
    list_set h loc (repaired t p sel) = h.

Lemma py_index0_falsy v : truthy v = false -> exists e, py_index0 v = Raise e.
Proof.
  destruct v as [|b|z|f|str|l|d]; cbn; intros H; try (eexists; reflexivity).
  - destruct str as [|c str]; [eexists; reflexivity|discriminate].
  - destruct l; [eexists; reflexivity|discriminate].
Qed.

Lemma stable_no_selector h li loc :
  (exists e, suggested_selector li = Raise e) -> stable h li loc.
Proof. intros [e He] t p sel _ _ _ Hs. congruence. Qed.

Lemma suggested_selector_falsy_li li :
  truthy li = false -> exists e, suggested_selector li = Raise e.
Proof.
  intros H. unfold suggested_selector.
  destruct li as [| | | | |l|d]; cbn in H |- *; try (eexists; reflexivity).
  destruct d; [cbn; eexists; reflexivity|discriminate].
Qed.

Lemma suggested_selector_falsy_sug li sug :
  py_get li "suggested_selectors" (VList []) = Ok sug -> truthy sug = false ->
  exists e, suggested_selector li = Raise e.
Proof.
  intros G H. unfold suggested_selector. rewrite G.
  destruct (py_index0_falsy sug H) as [e He]. rewrite He. eauto.
Qed.

Lemma stable_no_params h li loc t :
  nth_error h loc = Some t -> t_params t = None -> stable h li loc.
Proof. intros Hn Hp t' p sel Hn' _ Hp' _. congruence. Qed.

Lemma stable_repaired h li loc t p sel :
  nth_error h loc = Some t -> suggested_selector li = Ok sel ->
  stable (list_set h loc (repaired t p sel)) li loc.
Proof.
  intros Hn Hs t' p' sel' Hn' _ Hp' Hs'.
  rewrite (nth_error_list_set_same _ _ _ _ Hn) in Hn'. injection Hn' as <-.
  rewrite Hs in Hs'. injection Hs' as <-.
  unfold repaired in Hp' |- *. cbn in Hp'. injection Hp' as <-.
  rewrite list_set_twice. cbn. rewrite dict_set_twice. reflexivity.
Qed.

Lemma first_run_extract loc t (s : EState) :
  nth_error (tasks_heap s) loc = Some t -> t_action t = Some "extract" ->
  in_registry "extract" = true ->
  first_run loc s =
    match run_action "extract" (task_params t) (world s) with
    | (Ok r, w') =>
        (Ok (t, r), mkState w' (trace s ++ [EExecute "extract" (task_params t)])
                      (tasks_heap s) (collected_data s) (last_inspect_result s) (logger s))
    | (Raise e, w') =>
        (Raise e, mkState w' (trace s ++ [EExecute "extract" (task_params t)])
                    (tasks_heap s) (collected_data s) (last_inspect_result s) (logger s))
    end.
Proof.
  intros Hn Ha He.
  unfold Exec.first_run, read_task, Exec.execute_action, Exec.emit,
    set_last_inspect, bind, modify, lift, ret.
  rewrite Hn. cbv beta iota zeta. rewrite Ha, He. proj_simpl.
  destruct (run_action _ _ _) as [[r|e] w']; [destruct (success r)|]; reflexivity.
Qed.

Lemma repair_cases loc t rc r (s : EState) :
  nth_error (tasks_heap s) loc = Some t -> in_registry "extract" = true ->
  let (o, s2) := repair loc t rc r s in
  last_inspect_result s2 = last_inspect_result s /\
  tasks_heap s2 =
    match repair_target t r (last_inspect_result s) rc with
    | Some (p, sel) => list_set (tasks_heap s) loc (repaired t p sel)
    | None => tasks_heap s
    end /\
  (forall r' p', o = Ok (r', p') -> negb (success r') && Nat.ltb rc max_retries = true ->
   stable (tasks_heap s2) (last_inspect_result s2) loc).
Proof.
  intros Hn He.
  unfold Exec.repair, repair_target, get_state, bind, lift, ret, write_params, throw,
    Exec.execute_action, Exec.emit, modify.
  destruct (negb (success r) && name_is (t_action t) "extract"
            && truthy (last_inspect_result s)) eqn:C.
  2:{ proj_simpl. split; [reflexivity|split; [reflexivity|]].
    intros r' p' E Hc. injection E as <- <-.
    destruct (success r) eqn:Hs; [discriminate|]. cbn [negb andb] in C.
    destruct (name_is (t_action t) "extract") eqn:Hx; cbn [andb] in C.
    - apply stable_no_selector, suggested_selector_falsy_li. exact C.
    - intros t' p sel Hn' Ha' _ _. rewrite Hn in Hn'. injection Hn' as <-.
      rewrite Ha' in Hx. discriminate. }
  apply andb_true_iff in C as [C Hli]. apply andb_true_iff in C as [Hs Hx].
  unfold suggested_selector at 1.
  destruct (py_get (last_inspect_result s) "suggested_selectors" (VList [])) as [sug|e] eqn:G;
    proj_simpl; [|split; [reflexivity|split; [reflexivity|discriminate]]].
  destruct (truthy sug && Nat.ltb rc max_retries) eqn:C2; proj_simpl.
  2:{ split; [reflexivity|split; [reflexivity|]].
      intros r' p' E Hc. injection E as <- <-.
      apply andb_true_iff in Hc as [_ Hrc]. rewrite Hrc, andb_true_r in C2.
      apply stable_no_selector. exact (suggested_selector_falsy_sug _ _ G C2). }
  destruct (py_index0 sug) as [first|e] eqn:I; proj_simpl;
    [|split; [reflexivity|split; [reflexivity|discriminate]]].
  destruct (py_split_head first " (") as [sel|e] eqn:Sp; proj_simpl;
    [|split; [reflexivity|split; [reflexivity|discriminate]]].
  assert (Hsel : suggested_selector (last_inspect_result s) = Ok sel)
    by (unfold suggested_selector; rewrite G, I; exact Sp).
  unfold task_params. destruct (t_params t) as [p|] eqn:P.
  - rewrite Hn. proj_simpl. rewrite He. proj_simpl.
    unfold bind, modify; cbv beta iota zeta; proj_simpl.
    match goal with |- context [run_action ?a ?b ?c] =>
      destruct (run_action a b c) as [[r''|e] w''] end; proj_simpl;
      (split; [reflexivity|split; [reflexivity|]]).
    + intros r' p' _ _. apply stable_repaired; auto.
    + discriminate.
  - rewrite He. proj_simpl.
    unfold bind, modify; cbv beta iota zeta; proj_simpl.
    match goal with |- context [run_action ?a ?b ?c] =>
      destruct (run_action a b c) as [[r''|e] w''] end; proj_simpl;
      (split; [reflexivity|split; [reflexivity|]]).
    + intros r' p' _ _. exact (stable_no_params _ _ _ t Hn P).
    + discriminate.
Qed.

Lemma go_stable loc fuel : forall rc (s : EState),
  stable (tasks_heap s) (last_inspect_result s) loc ->
  tasks_heap (snd (execute_task_go fuel loc rc s)) = tasks_heap s.
Proof.
  induction fuel as [|fuel IH]; intros rc s Hst; [reflexivity|].
  rewrite execute_task_go_S, bind_unfold.
  pose proof (first_run_heap loc s) as [Hh Hr].
  destruct (first_run loc s) as [[[t r]|e] s1]; proj_simpl; [|exact Hh].
  destruct Hr as [Hn Hli1].
  assert (Hst1 : stable (tasks_heap s1) (last_inspect_result s1) loc).
  { intros t' p sel Hn' Ha' Hp' Hs'. rewrite Hh in Hn' |- *. rewrite Hn in Hn'.
    injection Hn' as <-. rewrite Hli1 in Hs' by (rewrite Ha'; reflexivity).
    exact (Hst t p sel Hn Ha' Hp' Hs'). }
  rewrite bind_unfold.
  pose proof (repair_heap loc t rc r s1 ltac:(rewrite Hh; exact Hn)) as [Hli2 Hrep].
  assert (Hh2 : tasks_heap (snd (repair loc t rc r s1)) = tasks_heap s1).
  { destruct Hrep as [Hrep|(p & sel & Ha & Hp & Hs & Hrep)]; [exact Hrep|].
    rewrite Hrep. apply Hst1; auto. rewrite Hh. exact Hn. }
  destruct (repair loc t rc r s1) as [[[r' p']|e] s2]; proj_simpl; [|congruence].
  destruct (negb (success r') && Nat.ltb rc max_retries).
  - rewrite bind_unfold.
    pose proof (retry_wait_heap r' s2) as [Hh3 Hli3].
    destruct (retry_wait r' s2) as [[u|e] s3]; proj_simpl; [|congruence].
    rewrite IH; [congruence|]. rewrite Hh3, Hli3, Hh2, Hli2. exact Hst1.
  - pose proof (finish_heap (t_action t) p' r' s2) as [Hh3 _]. congruence.
Qed.

(** C2 (as the code behaves): [execute_task] changes the stored task in
    exactly one case, and then for good. When the task is an extract whose
    first run returns a failed result while [last_inspect_result] is truthy,
    its [suggested_selectors] are truthy, [retry_count < max_retries], and
    the task has its own params dict [p], that dict is rewritten in place:
    after [execute_task] the task stored at [loc] is the task with
    [p["selector"]] set to the first suggestion cut before " (", whatever the
    retries that follow. In every other case the tasks are unchanged. *)
Theorem execute_task_params loc rc t0 (s : EState) :
  in_registry "extract" = true ->
  nth_error (tasks_heap s) loc = Some t0 ->
  tasks_heap (snd (execute_task loc rc s)) =
    match first_repair t0 (last_inspect_result s) rc (world s) with
    | Some (p, sel) =>
        list_set (tasks_heap s) loc
          (mkTask (t_action t0) (t_description t0) (Some (dict_set p "selector" (VStr sel))))
    | None => tasks_heap s
    end.
Proof.
  intros He Hn. unfold Exec.execute_task, first_repair.
  destruct (name_is (t_action t0) "extract") eqn:Hx.
  2:{ apply go_heap_other. intros t Ht. congruence. }
  assert (Ha : t_action t0 = Some "extract").
  { destruct (t_action t0) as [a|]; [|discriminate]. cbn in Hx.
    apply String.eqb_eq in Hx. now subst. }
  rewrite execute_task_go_S, bind_unfold, (first_run_extract loc t0 s Hn Ha He).
  destruct (run_action "extract" (task_params t0) (world s)) as [[r|e] w1];
    [|reflexivity].
  cbv beta iota. cbn [fst snd]. rewrite bind_unfold.
  pose proof (repair_cases loc t0 rc r
                (mkState w1 (trace s ++ [EExecute "extract" (task_params t0)])
                   (tasks_heap s) (collected_data s) (last_inspect_result s) (logger s))
                Hn He) as RC.
  destruct (repair loc t0 rc r _) as [[[r' p']|e] s2];
    destruct RC as (Hl2 & Hh2 & Hst); proj_simpl; unfold repaired in Hh2.
  - destruct (negb (success r') && Nat.ltb rc max_retries) eqn:Hc.
    + rewrite bind_unfold.
      pose proof (retry_wait_heap r' s2) as [Hh3 Hl3].
      destruct (retry_wait r' s2) as [[u|e] s3]; proj_simpl; [|congruence].
      rewrite go_stable; [congruence|]. rewrite Hh3, Hl3. exact (Hst r' p' eq_refl Hc).
    + rewrite (proj1 (finish_heap _ _ _ _)). exact Hh2.
  - exact Hh2.
Qed.

(** The [[i/n]] line printed before each task of a plan attempt. *)
Definition marks (tr : list event) : list nat :=
  flat_map (fun e => match e with EPrintTask i => [i] | _ => [] end) tr.

Lemma marks_app a b : marks (a ++ b) = marks a ++ marks b.
Proof. apply flat_map_app. Qed.

Ltac frame_tac :=
  repeat split;
  try (unfold marks; rewrite ?flat_map_app; cbn [flat_map app];
       rewrite ?app_nil_r; reflexivity);
  try (exists []; rewrite app_nil_r; reflexivity);
  try (eexists; reflexivity);
  auto.

Lemma first_run_frame loc (s : EState) :
  marks (trace (snd (first_run loc s))) = marks (trace s) /\
  collected_data (snd (first_run loc s)) = collected_data s.
Proof.
  unfold Exec.first_run, read_task, Exec.execute_action, Exec.emit,
    set_last_inspect, bind, modify, lift, ret.
  crush; frame_tac.
Qed.

Lemma repair_frame loc t rc r (s : EState) :
  marks (trace (snd (repair loc t rc r s))) = marks (trace s) /\
  collected_data (snd (repair loc t rc r s)) = collected_data s.
Proof.
  unfold Exec.repair, write_params, Exec.execute_action, Exec.emit,
    get_state, bind, modify, lift, ret, throw.
  crush; frame_tac.
Qed.

Lemma retry_wait_frame r (s : EState) :
  marks (trace (snd (retry_wait r s))) = marks (trace s) /\
  collected_data (snd (retry_wait r s)) = collected_data s.
Proof.
  unfold Exec.retry_wait, Exec.emit, reload, bind, modify, ret. crush; frame_tac.
Qed.

Lemma finish_frame name params r (s : EState) :
  fst (finish name params r s) = Ok r /\
  marks (trace (snd (finish name params r s))) = marks (trace s) /\
  exists extra, collected_data (snd (finish name params r s)) = collected_data s ++ extra.
Proof.
  unfold Exec.finish, Exec.log_action, set_logger, collect, get_state,
    bind, modify, ret. crush; frame_tac.
Qed.

Lemma go_frame fuel : forall loc rc (s : EState),
  marks (trace (snd (execute_task_go fuel loc rc s))) = marks (trace s) /\
  exists extra, collected_data (snd (execute_task_go fuel loc rc s)) =
                collected_data s ++ extra.
Proof.
  induction fuel as [|fuel IH]; intros loc rc s.
  { split; [reflexivity|exists []; symmetry; apply app_nil_r]. }
  rewrite execute_task_go_S, bind_unfold.
  pose proof (first_run_frame loc s) as [M1 C1].
  destruct (first_run loc s) as [[[t r]|e] s1]; proj_simpl;
    [|split; [exact M1|exists []; rewrite C1, app_nil_r; reflexivity]].
  rewrite bind_unfold.
  pose proof (repair_frame loc t rc r s1) as [M2 C2].
  destruct (repair loc t rc r s1) as [[[r' p']|e] s2]; proj_simpl;
    [|split; [congruence|exists []; rewrite C2, C1, app_nil_r; reflexivity]].
  destruct (negb (success r') && Nat.ltb rc max_retries).
  - rewrite bind_unfold.
    pose proof (retry_wait_frame r' s2) as [M3 C3].
    destruct (retry_wait r' s2) as [[u|e] s3]; proj_simpl;
      [|split; [congruence|exists []; rewrite C3, C2, C1, app_nil_r; reflexivity]].
    destruct (IH loc (S rc) s3) as [M4 [extra C4]].
    split; [congruence|exists extra; congruence].
  - destruct (finish_frame (t_action t) p' r' s2) as [_ [M4 [extra C4]]].
    split; [congruence|exists extra; congruence].
Qed.

(** A task whose action, on its own params, always returns a result
    with [success = b] (an unknown action always fails). *)
Definition steady (b : bool) (t : Task) : Prop :=
  match t_action t with
  | Some n =>
      if in_registry n then
        forall w, exists r w', run_action n (task_params t) w = (Ok r, w') /\
                               success r = b
      else b = false
  | None => b = false
  end.

Lemma retry_wait_ok r (s : EState) :
  (forall w, exists w', page_reload w = (Ok tt, w')) ->
  fst (retry_wait r s) = Ok tt /\
  tasks_heap (snd (retry_wait r s)) = tasks_heap s /\
  last_inspect_result (snd (retry_wait r s)) = last_inspect_result s.
Proof.
  intros Hrl. unfold Exec.retry_wait, Exec.emit, reload, bind, modify, ret.
  crush; auto.
  all: match goal with
       | H : page_reload ?w = _ |- _ =>
           destruct (Hrl w) as [w'' Hw]; rewrite Hw in H; discriminate
       end.
Qed.

(** An inspect result the executor can keep: falsy, or a dict whose truthy
    [suggested_selectors] yield a selector (lines 120-123 do not raise). *)
Definition li_ok (li : value) : Prop :=
  truthy li = false \/
  exists sug, py_get li "suggested_selectors" (VList []) = Ok sug /\
    (truthy sug = true -> exists sel, suggested_selector li = Ok sel).

(** Inspect data that lines 113-116 store and print without raising. *)
Definition inspect_ok (d : value) : Prop := li_ok d /\ inspect_note d = Ok tt.

(** A task whose action always succeeds; an inspect also returns data
    the executor can store. *)
Definition succeeds_task (t : Task) : Prop :=
  steady true t /\
  (name_is (t_action t) "inspect" = true ->
   forall w r w', run_action "inspect" (task_params t) w = (Ok r, w') ->
     truthy (data r) = true -> inspect_ok (data r)).

(** A task whose action always fails; an extract also fails with any
    selector the repair may write into its params. *)
Definition fails_task (t : Task) : Prop :=
  steady false t /\
  (name_is (t_action t) "extract" = true ->
   forall sel w, exists r w',
     run_action "extract" (dict_set (task_params t) "selector" (VStr sel)) w = (Ok r, w') /\
     success r = false).

Definition always_succeeds (H : list Task) (loc : nat) : Prop :=
  exists t, nth_error H loc = Some t /\ succeeds_task t.

Definition always_fails (H : list Task) (loc : nat) : Prop :=
  exists t, nth_error H loc = Some t /\ fails_task t.


Lemma emit_eq e (s : EState) :
  emit e s = (Ok tt, mkState (world s) (trace s ++ [e]) (tasks_heap s)
                       (collected_data s) (last_inspect_result s) (logger s)).
Proof. reflexivity. Qed.

Lemma run_tasks_cons soe loc ts i sc failed :
  run_tasks soe (loc :: ts) i sc failed =
    (let* _ := emit (EPrintTask i) in
     let* r := execute_task loc 0 in
     if success r then run_tasks soe ts (S i) (S sc) failed
     else
       let f := Some (mkFailed loc (error r) i) in
       if soe then ret (sc, f) else run_tasks soe ts (S i) sc f).
Proof. reflexivity. Qed.

Lemma first_run_succ loc t (s : EState) :
  nth_error (tasks_heap s) loc = Some t -> succeeds_task t ->
  li_ok (last_inspect_result s) ->
  exists r s1, first_run loc s = (Ok (t, r), s1) /\ success r = true /\
    tasks_heap s1 = tasks_heap s /\ li_ok (last_inspect_result s1).
Proof.
  intros Hn [Hst Hin] Hli. unfold steady in Hst.
  unfold Exec.first_run, read_task, Exec.execute_action, Exec.emit,
    set_last_inspect, bind, modify, lift, ret.
  rewrite Hn. proj_simpl.
  destruct (t_action t) as [n|] eqn:Ha; [|discriminate Hst].
  destruct (in_registry n) eqn:Hr; [|discriminate Hst].
  destruct (Hst (world s)) as (r & w' & Hrun & Hs).
  rewrite Hrun. proj_simpl. rewrite Hs. cbn [andb].
  destruct (name_is (Some n) "inspect") eqn:Hi; cbn [andb].
  - destruct (truthy (data r)) eqn:Ht.
    + assert (Hn' : n = "inspect") by (cbn in Hi; apply String.eqb_eq; exact Hi). subst n.
      destruct (Hin eq_refl (world s) r w' Hrun Ht) as [Hok Hnote].
      rewrite Hnote. eexists; eexists; split; [reflexivity|]. proj_simpl. auto.
    + eexists; eexists; split; [reflexivity|]. proj_simpl. auto.
  - eexists; eexists; split; [reflexivity|]. proj_simpl. auto.
Qed.

Lemma go_succ loc t k rc (s : EState) :
  nth_error (tasks_heap s) loc = Some t -> succeeds_task t ->
  li_ok (last_inspect_result s) ->
  exists r s', execute_task_go (S k) loc rc s = (Ok r, s') /\ success r = true /\
    tasks_heap s' = tasks_heap s /\ li_ok (last_inspect_result s').
Proof.
  intros Hn Hsu Hli. rewrite execute_task_go_S, bind_unfold.
  destruct (first_run_succ loc t s Hn Hsu Hli) as (r & s1 & E1 & Hs & Hh1 & Hl1).
  rewrite E1. cbn [fst snd].
  rewrite bind_unfold, repair_skip by (rewrite Hs; reflexivity).
  cbn [fst snd]. rewrite Hs. cbn [negb andb].
  pose proof (finish_frame (t_action t) (task_params t) r s1) as [F _].
  pose proof (finish_heap (t_action t) (task_params t) r s1) as [Fh Fl].
  destruct (finish (t_action t) (task_params t) r s1) as [o s2]. cbn in F, Fh, Fl. subst o.
  exists r, s2. split; [reflexivity|]. split; [exact Hs|]. split; [congruence|].
  rewrite Fl. exact Hl1.
Qed.

Lemma first_run_fail_task loc t (s : EState) :
  nth_error (tasks_heap s) loc = Some t -> fails_task t ->
  exists r s1, first_run loc s = (Ok (t, r), s1) /\ success r = false /\
    tasks_heap s1 = tasks_heap s /\ last_inspect_result s1 = last_inspect_result s.
Proof.
  intros Hn [Hst _]. unfold steady in Hst.
  unfold Exec.first_run, read_task, Exec.execute_action, Exec.emit,
    set_last_inspect, bind, modify, lift, ret.
  rewrite Hn. proj_simpl.
  destruct (t_action t) as [n|] eqn:Ha.
  - destruct (in_registry n) eqn:Hr.
    + destruct (Hst (world s)) as (r & w' & Hrun & Hs).
      rewrite Hrun. proj_simpl. rewrite Hs. cbn [andb].
      eexists; eexists; split; [reflexivity|auto].
    + eexists; eexists; split; [reflexivity|auto].
  - eexists; eexists; split; [reflexivity|auto].
Qed.

Lemma dict_set_set {A} (d : list (string * A)) k v v' :
  dict_set (dict_set d k v) k v' = dict_set d k v'.
Proof.
  induction d as [|[k' x] d IH]; cbn.
  - rewrite String.eqb_refl. reflexivity.
  - destruct (String.eqb k k') eqn:E; cbn; rewrite E; [reflexivity|now rewrite IH].
Qed.

Lemma nth_error_list_set_other {A} (l : list A) i j x :
  j <> i -> nth_error (list_set l i x) j = nth_error l j.
Proof.
  revert i j; induction l as [|a l IH]; intros [|i] [|j] H; cbn;
    try reflexivity; try contradiction; apply IH; congruence.
Qed.

Lemma fails_repaired t p sel :
  in_registry "extract" = true -> name_is (t_action t) "extract" = true ->
  t_params t = Some p -> fails_task t -> fails_task (repaired t p sel).
Proof.
  intros He Hx P [Hst Hcl]. unfold task_params in Hcl. rewrite P in Hcl.
  split.
  - unfold steady, repaired. cbn [t_action t_params task_params].
    destruct (t_action t) as [n|]; [|discriminate Hx]. cbn in Hx.
    apply String.eqb_eq in Hx. subst n. rewrite He.
    intros w. exact (Hcl eq_refl sel w).
  - intros _ sel' w. unfold repaired, task_params. cbn [t_params].
    rewrite dict_set_set. exact (Hcl Hx sel' w).
Qed.

Lemma repair_fails loc t rc r (s : EState) :
  nth_error (tasks_heap s) loc = Some t -> fails_task t -> success r = false ->
  li_ok (last_inspect_result s) -> in_registry "extract" = true ->
  exists r' p' s2, repair loc t rc r s = (Ok (r', p'), s2) /\ success r' = false /\
    last_inspect_result s2 = last_inspect_result s /\
    (forall l, l <> loc -> nth_error (tasks_heap s2) l = nth_error (tasks_heap s) l) /\
    exists t', nth_error (tasks_heap s2) loc = Some t' /\ fails_task t'.
Proof.
  intros Hn Hf Hs Hli He. pose proof Hf as [Hst Hcl].
  unfold Exec.repair, get_state, bind, lift, ret, write_params, throw,
    Exec.execute_action, Exec.emit, modify.
  rewrite Hs. cbn [negb andb].
  destruct (name_is (t_action t) "extract") eqn:Hx; cbn [andb];
    [|eexists _, _, _; split; [reflexivity|];
      split; [exact Hs|]; split; [reflexivity|]; split; [reflexivity|eauto]].
  destruct (truthy (last_inspect_result s)) eqn:Ht;
    [|eexists _, _, _; split; [reflexivity|];
      split; [exact Hs|]; split; [reflexivity|]; split; [reflexivity|eauto]].
  destruct Hli as [Hfl|(sug & G & Hsug)]; [congruence|]. rewrite G.
  destruct (truthy sug && Nat.ltb rc max_retries) eqn:C2;
    [|eexists _, _, _; split; [reflexivity|];
      split; [exact Hs|]; split; [reflexivity|]; split; [reflexivity|eauto]].
  apply andb_true_iff in C2 as [Hts _].
  destruct (Hsug Hts) as [sel Hsel]. unfold suggested_selector in Hsel. rewrite G in Hsel.
  destruct (py_index0 sug) as [first|e] eqn:I; [|discriminate].
  rewrite Hsel. unfold task_params in Hcl |- *.
  destruct (t_params t) as [p|] eqn:P.
  - rewrite Hn. rewrite He. unfold bind, modify. cbv beta iota zeta. proj_simpl.
    destruct (Hcl eq_refl sel (world s)) as (r' & w' & Hrun & Hs'). rewrite Hrun.
    eexists _, _, _. split; [reflexivity|]. split; [exact Hs'|]. split; [reflexivity|].
    proj_simpl. split.
    + intros l Hl. apply nth_error_list_set_other. exact Hl.
    + exists (repaired t p sel). split; [exact (nth_error_list_set_same _ _ _ _ Hn)|].
      apply fails_repaired; auto.
  - rewrite He. unfold bind, modify. cbv beta iota zeta. proj_simpl.
    destruct (Hcl eq_refl sel (world s)) as (r' & w' & Hrun & Hs'). rewrite Hrun.
    eexists _, _, _. split; [reflexivity|]. split; [exact Hs'|]. split; [reflexivity|].
    proj_simpl. split; [reflexivity|eauto].
Qed.

Lemma go_fail loc k : forall rc t (s : EState),
  nth_error (tasks_heap s) loc = Some t -> fails_task t ->
  li_ok (last_inspect_result s) -> in_registry "extract" = true ->
  (forall w, exists w', page_reload w = (Ok tt, w')) ->
  max_retries - rc = k ->
  exists r s', execute_task_go (S k) loc rc s = (Ok r, s') /\ success r = false /\
    last_inspect_result s' = last_inspect_result s /\
    (forall l, l <> loc -> nth_error (tasks_heap s') l = nth_error (tasks_heap s) l) /\
    exists t', nth_error (tasks_heap s') loc = Some t' /\ fails_task t'.
Proof.
  induction k as [|k IH]; intros rc t s Hn Hf Hli He Hrl Hk;
    rewrite execute_task_go_S, bind_unfold;
    destruct (first_run_fail_task loc t s Hn Hf) as (r & s1 & E1 & Hs & Hh1 & Hl1);
    rewrite E1; cbn [fst snd]; rewrite bind_unfold;
    destruct (repair_fails loc t rc r s1 ltac:(rewrite Hh1; exact Hn) Hf Hs
                ltac:(rewrite Hl1; exact Hli) He)
      as (r' & p' & s2 & E2 & Hs' & Hl2 & Ho2 & t' & Hn2 & Hf2);
    rewrite E2; cbn [fst snd]; rewrite Hs'; cbn [negb andb].
  - replace (Nat.ltb rc max_retries) with false by (symmetry; apply Nat.ltb_ge; lia).
    pose proof (finish_frame (t_action t) p' r' s2) as [F _].
    pose proof (finish_heap (t_action t) p' r' s2) as [Fh Fl].
    destruct (finish (t_action t) p' r' s2) as [o s3]. cbn in F, Fh, Fl. subst o.
    exists r', s3. split; [reflexivity|]. split; [exact Hs'|]. split; [congruence|].
    split; [intros l Hl; rewrite Fh, (Ho2 l Hl), Hh1; reflexivity|].
    exists t'. rewrite Fh. auto.
  - replace (Nat.ltb rc max_retries) with true by (symmetry; apply Nat.ltb_lt; lia).
    rewrite bind_unfold.
    destruct (retry_wait_ok r' s2 Hrl) as (F & Fh & Fl).
    destruct (retry_wait r' s2) as [o s3]. cbn in F, Fh, Fl. subst o.
    destruct (IH (S rc) t' s3) as (r'' & s4 & E4 & Hs4 & Hl4 & Ho4 & t'' & Hn4 & Hf4);
      [rewrite Fh; exact Hn2|exact Hf2|rewrite Fl, Hl2, Hl1; exact Hli|exact He|exact Hrl|lia|].
    exists r'', s4. split; [exact E4|]. split; [exact Hs4|]. split; [congruence|].
    split; [intros l Hl; rewrite (Ho4 l Hl), Fh, (Ho2 l Hl), Hh1; reflexivity|eauto].
Qed.

Lemma execute_task_succ loc t (s : EState) :
  nth_error (tasks_heap s) loc = Some t -> succeeds_task t ->
  li_ok (last_inspect_result s) ->
  exists r s', execute_task loc 0 s = (Ok r, s') /\ success r = true /\
    tasks_heap s' = tasks_heap s /\ li_ok (last_inspect_result s') /\
    marks (trace s') = marks (trace s).
Proof.
  intros Hn Hsu Hli.
  destruct (go_succ loc t (max_retries - 0) 0 s Hn Hsu Hli) as (r & s' & E & Hs & Hh & Hl).
  pose proof (go_frame (S (max_retries - 0)) loc 0 s) as [Mg _].
  unfold Exec.execute_task. rewrite E in Mg |- *. cbn [snd] in Mg.
  exists r, s'. auto.
Qed.

Lemma execute_task_fail loc t (s : EState) :
  nth_error (tasks_heap s) loc = Some t -> fails_task t ->
  li_ok (last_inspect_result s) -> in_registry "extract" = true ->
  (forall w, exists w', page_reload w = (Ok tt, w')) ->
  exists r s', execute_task loc 0 s = (Ok r, s') /\ success r = false /\
    li_ok (last_inspect_result s') /\
    (forall l, l <> loc -> nth_error (tasks_heap s') l = nth_error (tasks_heap s) l) /\
    always_fails (tasks_heap s') loc /\ marks (trace s') = marks (trace s).
Proof.
  intros Hn Hf Hli He Hrl.
  destruct (go_fail loc (max_retries - 0) 0 t s Hn Hf Hli He Hrl eq_refl)
    as (r & s' & E & Hs & Hl & Ho & t' & Hn' & Hf').
  pose proof (go_frame (S (max_retries - 0)) loc 0 s) as [Mg _].
  unfold Exec.execute_task. rewrite E in Mg |- *. cbn [snd] in Mg.
  exists r, s'. split; [reflexivity|]. split; [exact Hs|]. split; [rewrite Hl; exact Hli|].
  split; [exact Ho|]. split; [exists t'; auto|exact Mg].
Qed.

Lemma steady_excl t (w : W) : steady true t -> steady false t -> False.
Proof.
  unfold steady. destruct (t_action t) as [n|]; [|discriminate].
  destruct (in_registry n); [|discriminate].
  intros H1 H2. destruct (H1 w) as (r1 & w1 & E1 & S1). destruct (H2 w) as (r2 & w2 & E2 & S2).
  rewrite E1 in E2. injection E2 as <- <-. congruence.
Qed.

Lemma succeeds_other H H' pre bad (w : W) :
  Forall (always_succeeds H) pre -> always_fails H bad ->
  (forall l, l <> bad -> nth_error H' l = nth_error H l) ->
  Forall (always_succeeds H') pre.
Proof.
  intros Hg (tb & Hb & Hsb & _) Ho.
  induction Hg as [|l pre' (t & Ht & Hst) _ IH]; constructor; auto.
  exists t. split; [|exact Hst]. rewrite Ho; [exact Ht|].
  intros ->. rewrite Hb in Ht. injection Ht as <-.
  exact (steady_excl tb w (proj1 Hst) Hsb).
Qed.

Lemma run_tasks_fail pre bad post : forall i sc (s : EState),
  Forall (always_succeeds (tasks_heap s)) pre -> always_fails (tasks_heap s) bad ->
  li_ok (last_inspect_result s) -> in_registry "extract" = true ->
  (forall w, exists w', page_reload w = (Ok tt, w')) ->
  exists err s',
    run_tasks true (pre ++ bad :: post) i sc None s =
      (Ok (sc + length pre, Some (mkFailed bad err (i + length pre))), s') /\
    (forall l, l <> bad -> nth_error (tasks_heap s') l = nth_error (tasks_heap s) l) /\
    always_fails (tasks_heap s') bad /\ li_ok (last_inspect_result s') /\
    marks (trace s') = marks (trace s) ++ seq i (S (length pre)).
Proof.
  induction pre as [|loc pre IH]; intros i sc s Hg Hb Hli He Hrl;
    cbn [app]; rewrite run_tasks_cons, bind_unfold, emit_eq; proj_simpl;
    rewrite bind_unfold.
  - destruct Hb as (t & Hn & Hf).
    destruct (execute_task_fail bad t
                (mkState (world s) (trace s ++ [EPrintTask i]) (tasks_heap s)
                   (collected_data s) (last_inspect_result s) (logger s)) Hn Hf Hli He Hrl)
      as (r & s1 & E & Hs & Hl1 & Ho1 & Hb1 & Hm).
    rewrite E, Hs. proj_simpl. exists (error r), s1.
    rewrite !Nat.add_0_r. split; [reflexivity|].
    split; [exact Ho1|]. split; [exact Hb1|]. split; [exact Hl1|].
    rewrite Hm, marks_app. reflexivity.
  - inversion Hg as [|? ? Hl Hg']; subst. destruct Hl as (t & Hn & Hsu).
    destruct (execute_task_succ loc t
                (mkState (world s) (trace s ++ [EPrintTask i]) (tasks_heap s)
                   (collected_data s) (last_inspect_result s) (logger s)) Hn Hsu Hli)
      as (r & s1 & E & Hs & Hh & Hl1 & Hm).
    rewrite E, Hs. proj_simpl.
    destruct (IH (S i) (S sc) s1) as (err & s2 & E2 & Ho2 & Hb2 & Hl2 & Hm2);
      [rewrite Hh; exact Hg'|rewrite Hh; exact Hb|exact Hl1|exact He|exact Hrl|].
    exists err, s2. rewrite E2. cbn [length].
    rewrite <- !plus_n_Sm. cbn [Nat.add]. split; [reflexivity|].
    split; [intros l Hl; rewrite (Ho2 l Hl), Hh; reflexivity|].
    split; [exact Hb2|]. split; [exact Hl2|].
    rewrite Hm2, Hm, marks_app, <- app_assoc. reflexivity.
Qed.


Lemma plan_loop_S fuel tasks soe rfp pa last :
  plan_loop (S fuel) tasks soe rfp pa last =
    (if Nat.ltb pa max_retries then
      let pa' := S pa in
      let* _ := (if Nat.ltb 1 pa' then
                   let* _ := emit (EPrintAttempt pa') in emit (ESleep 2000)
                 else ret tt) in
      let* res := run_tasks soe tasks 0 0 None in
      let sc := fst res in
      let ft := snd res in
      if Nat.eqb sc (length tasks) then
        let* path := Exec.end_session W clock elapsed true None in
        let* s := get_state in
        ret (inl (mkSummary true (length tasks) sc pa' None (collected_data s) path))
      else if negb rfp then ret (inr (pa', Some res))
      else if Nat.leb max_retries pa' then ret (inr (pa', Some res))
      else
        let* _ := (match ft with Some _ => ret tt | None => throw TypeError end) in
        plan_loop fuel tasks soe rfp pa' (Some res)
    else ret (inr (pa, last))).
Proof. reflexivity. Qed.

Lemma plan_loop_fail pre bad post fuel : forall pa last (s : EState),
  Forall (always_succeeds (tasks_heap s)) pre -> always_fails (tasks_heap s) bad ->
  li_ok (last_inspect_result s) -> in_registry "extract" = true ->
  (forall w, exists w', page_reload w = (Ok tt, w')) ->
  pa < max_retries -> max_retries - pa <= fuel ->
  exists err s',
    plan_loop fuel (pre ++ bad :: post) true true pa last s =
      (Ok (inr (max_retries,
                Some (length pre, Some (mkFailed bad err (length pre))))), s') /\
    marks (trace s') =
      marks (trace s) ++ concat (repeat (seq 0 (S (length pre))) (max_retries - pa)).
Proof.
  induction fuel as [|fuel IH]; intros pa last s Hg Hb Hli He Hrl Hpa Hf; [lia|].
  rewrite plan_loop_S.
  replace (Nat.ltb pa max_retries) with true by (symmetry; apply Nat.ltb_lt; lia).
  cbv zeta.
  assert (Hpre : exists s0,
            (if Nat.ltb 1 (S pa) then
               let* _ := emit (EPrintAttempt (S pa)) in emit (ESleep 2000)
             else ret tt) s = (Ok tt, s0) /\
            tasks_heap s0 = tasks_heap s /\ last_inspect_result s0 = last_inspect_result s /\
            marks (trace s0) = marks (trace s)).
  { destruct (Nat.ltb 1 (S pa)).
    - rewrite bind_unfold, emit_eq. proj_simpl. rewrite emit_eq. eexists; split; [reflexivity|].
      proj_simpl. split; [reflexivity|]. split; [reflexivity|].
      rewrite <- app_assoc, marks_app. cbn. rewrite app_nil_r. reflexivity.
    - exists s. auto. }
  destruct Hpre as (s0 & E0 & Hh0 & Hl0 & Hm0).
  rewrite bind_unfold, E0, bind_unfold.
  destruct (run_tasks_fail pre bad post 0 0 s0) as (err & s1 & E1 & Ho1 & Hb1 & Hl1 & Hm1);
    [rewrite Hh0; exact Hg|rewrite Hh0; exact Hb|rewrite Hl0; exact Hli|exact He|exact Hrl|].
  rewrite E1. cbn [fst snd Nat.add].
  replace (Nat.eqb (length pre) (length (pre ++ bad :: post))) with false
    by (symmetry; apply Nat.eqb_neq; rewrite length_app; cbn; lia).
  cbn [negb].
  destruct (Nat.leb max_retries (S pa)) eqn:Hle.
  - apply Nat.leb_le in Hle. replace max_retries with (S pa) by lia.
    exists err, s1. split; [reflexivity|].
    replace (S pa - pa) with 1 by lia. cbn [repeat concat]. rewrite app_nil_r.
    rewrite Hm1, Hm0. reflexivity.
  - apply Nat.leb_gt in Hle. rewrite bind_unfold. cbn [ret].
    destruct (IH (S pa) (Some (length pre, Some (mkFailed bad err (length pre)))) s1)
      as (err' & s2 & E2 & Hm2);
      [apply (succeeds_other (tasks_heap s0) _ pre bad (world s));
         [rewrite Hh0; exact Hg|rewrite Hh0; exact Hb|exact Ho1]
      |exact Hb1|exact Hl1|exact He|exact Hrl|lia|lia|].
    exists err', s2. split; [exact E2|].
    rewrite Hm2, Hm1, Hm0.
    replace (max_retries - pa) with (S (max_retries - S pa)) by lia.
    cbn [repeat concat]. rewrite app_assoc. reflexivity.
Qed.

Lemma start_session_frame goal (s : EState) :
  exists s1, Exec.start_session W new_uuid clock goal s = (Ok tt, s1) /\
    tasks_heap s1 = tasks_heap s /\ trace s1 = trace s /\
    last_inspect_result s1 = last_inspect_result s.
Proof.
  unfold Exec.start_session, set_logger, get_state, bind, modify.
  eexists. split; [reflexivity|auto].
Qed.

Lemma end_session_frame succ err (s : EState) :
  exists path s1, Exec.end_session W clock elapsed succ err s = (Ok path, s1) /\
    tasks_heap s1 = tasks_heap s /\ trace s1 = trace s.
Proof.
  unfold Exec.end_session, set_logger, get_state, bind, modify, ret.
  destruct (Logger.end_session _ _ _ _ _). eexists _, _. split; [reflexivity|auto].
Qed.

(** C3: with [stop_on_error] and [retry_full_plan], a plan whose tasks
    before [bad] always succeed (an inspect among them returning data the
    executor can store) and whose task [bad] always fails (an extract also
    with any selector the repair writes) is run in full [max_retries] times,
    each attempt starting again from task 0 and stopping at [bad]; the
    summary says [success = false], [attempts = max_retries] and
    [failed_task.index = length pre], the 0-based position of [bad]. *)
Theorem plan_reports_failed_task pre bad post goal (s : EState) :
  0 < max_retries -> in_registry "extract" = true ->
  Forall (always_succeeds (tasks_heap s)) pre -> always_fails (tasks_heap s) bad ->
  li_ok (last_inspect_result s) ->
  (forall w, exists w', page_reload w = (Ok tt, w')) ->
  exists sm s',
    execute_plan (pre ++ bad :: post) goal true true s = (Ok (PlanSummary sm), s') /\
    sm_success sm = false /\ sm_total_tasks sm = length (pre ++ bad :: post) /\
    sm_attempts sm = max_retries /\ sm_completed_tasks sm = length pre /\
    (exists err, sm_failed_task sm = Some (mkFailed bad err (length pre))) /\
    marks (trace s') =
      marks (trace s) ++ concat (repeat (seq 0 (S (length pre))) max_retries).
Proof.
  intros Hm He Hg Hb Hli Hrl.
  unfold Exec.execute_plan.
  destruct (pre ++ bad :: post) as [|l0 ls] eqn:Et; [destruct pre; discriminate|].
  rewrite <- Et.
  rewrite bind_unfold.
  destruct (start_session_frame goal s) as (s1 & E1 & Hh1 & Ht1 & Hl1).
  rewrite E1, bind_unfold. unfold reset_collected at 1, modify at 1.
  rewrite bind_unfold.
  destruct (plan_loop_fail pre bad post max_retries 0 None
              (mkState (world s1) (trace s1) (tasks_heap s1) []
                       (last_inspect_result s1) (logger s1)))
    as (err & s2 & E2 & Hm2); proj_simpl;
    [rewrite Hh1; exact Hg|rewrite Hh1; exact Hb|rewrite Hl1; exact Hli
    |exact He|exact Hrl|exact Hm|lia|].
  rewrite E2, bind_unfold.
  destruct (end_session_frame false (ft_error (mkFailed bad err (length pre))) s2)
    as (path & s3 & E3 & Hh3 & Ht3).
  rewrite E3. unfold get_state, bind, ret.
  eexists _, s3. split; [reflexivity|].
  cbn [sm_success sm_total_tasks sm_attempts sm_completed_tasks sm_failed_task].
  repeat split; eauto.
  rewrite Ht3, Hm2, Ht1, Nat.sub_0_r. reflexivity.
Qed.


Lemma end_session_collected succ err (s : EState) :
  exists path s1, Exec.end_session W clock elapsed succ err s = (Ok path, s1) /\
    collected_data s1 = collected_data s.
Proof.
  unfold Exec.end_session, set_logger, get_state, bind, modify, ret.
  destruct (Logger.end_session _ _ _ _ _). eexists _, _. split; [reflexivity|auto].
Qed.

Lemma run_tasks_grows soe ts : forall i sc failed (s : EState),
  exists extra, collected_data (snd (run_tasks soe ts i sc failed s)) =
                collected_data s ++ extra.
Proof.
  induction ts as [|loc ts IH]; intros i sc failed s.
  - exists []. symmetry. apply app_nil_r.
  - rewrite run_tasks_cons, bind_unfold, emit_eq. proj_simpl.
    rewrite bind_unfold. unfold Exec.execute_task.
    pose proof (go_frame (S (max_retries - 0)) loc 0
                  (mkState (world s) (trace s ++ [EPrintTask i]) (tasks_heap s)
                     (collected_data s) (last_inspect_result s) (logger s)))
      as [_ [e1 C1]].
    destruct (execute_task_go (S (max_retries - 0)) loc 0 _) as [[r|e] s2];
      proj_simpl; [|exists e1; exact C1].
    destruct (success r).
    + destruct (IH (S i) (S sc) failed s2) as [e2 C2].
      exists (e1 ++ e2). rewrite C2, C1, app_assoc. reflexivity.
    + destruct soe.
      * exists e1. exact C1.
      * destruct (IH (S i) sc (Some (mkFailed loc (error r) i)) s2) as [e2 C2].
        exists (e1 ++ e2). rewrite C2, C1, app_assoc. reflexivity.
Qed.

Lemma plan_loop_grows fuel : forall tasks soe rfp pa last (s : EState) r s',
  plan_loop fuel tasks soe rfp pa last s = (r, s') ->
  (exists extra, collected_data s' = collected_data s ++ extra) /\
  match r with
  | Ok (inl sm) => sm_collected_data sm = collected_data s'
  | _ => True
  end.
Proof.
  induction fuel as [|fuel IH]; intros tasks soe rfp pa last s r s' E.
  { injection E as <- <-. split; [exists []; symmetry; apply app_nil_r|exact I]. }
  rewrite plan_loop_S in E.
  destruct (Nat.ltb pa max_retries);
    [|injection E as <- <-; split; [exists []; symmetry; apply app_nil_r|exact I]].
  cbv zeta in E. rewrite bind_unfold in E.
  assert (Hpre : exists s0,
            (if Nat.ltb 1 (S pa) then
               let* _ := emit (EPrintAttempt (S pa)) in emit (ESleep 2000)
             else ret tt) s = (Ok tt, s0) /\ collected_data s0 = collected_data s).
  { destruct (Nat.ltb 1 (S pa)); [eexists; split; reflexivity|exists s; split; reflexivity]. }
  destruct Hpre as (s0 & E0 & C0). rewrite E0, bind_unfold in E.
  pose proof (run_tasks_grows soe tasks 0 0 None s0) as [e1 C1].
  destruct (run_tasks soe tasks 0 0 None s0) as [[res|e] s1]; proj_simpl;
    [|injection E as <- <-; split; [exists e1; congruence|exact I]].
  destruct (Nat.eqb (fst res) (length tasks)).
  - rewrite bind_unfold in E.
    destruct (end_session_collected true None s1) as (path & s2 & E2 & C2).
    rewrite E2 in E. unfold get_state, bind, ret in E. injection E as <- <-.
    split; [exists e1; congruence|reflexivity].
  - destruct (negb rfp); [injection E as <- <-; split; [exists e1; congruence|exact I]|].
    destruct (Nat.leb max_retries (S pa));
      [injection E as <- <-; split; [exists e1; congruence|exact I]|].
    rewrite bind_unfold in E.
    destruct (snd res); cbn [ret throw] in E.
    + destruct (IH _ _ _ _ _ _ _ _ E) as [[e2 C2] Hm].
      split; [exists (e1 ++ e2); rewrite C2, C1, C0, app_assoc; reflexivity|exact Hm].
    + injection E as <- <-. split; [exists e1; congruence|exact I].
Qed.

(** C10: on the empty task list [execute_plan] returns
    [{success: False, error: "No tasks to execute"}] and leaves the whole
    state as it was: no logging session is started, no task runs, the
    trace and the collected data are untouched. *)
Theorem execute_plan_empty goal soe rfp (s : EState) :
  execute_plan [] goal soe rfp s = (Ok (PlanRejected "No tasks to execute"), s).
Proof. reflexivity. Qed.

(** *** Further properties of the executor *)

Lemma first_run_logger loc (s : EState) : logger (snd (first_run loc s)) = logger s.
Proof.
  unfold Exec.first_run, read_task, Exec.execute_action, Exec.emit,
    set_last_inspect, bind, modify, lift, ret.
  crush; reflexivity.
Qed.

Lemma repair_logger loc t rc r (s : EState) : logger (snd (repair loc t rc r s)) = logger s.
Proof.
  unfold Exec.repair, write_params, Exec.execute_action, Exec.emit,
    get_state, bind, modify, lift, ret, throw.
  crush; reflexivity.
Qed.

Lemma retry_wait_logger r (s : EState) : logger (snd (retry_wait r s)) = logger s.
Proof. unfold Exec.retry_wait, Exec.emit, reload, bind, modify, ret. crush; reflexivity. Qed.

Lemma finish_logger name params r (s : EState) :
  logger (snd (finish name params r s)) =
    Logger.log_action name params (if truthy (data r) then data r else VDict [])
      (success r) (error r) (clock (world s)) (logger s).
Proof.
  unfold Exec.finish, Exec.log_action, set_logger, collect, get_state,
    bind, modify, ret. crush; reflexivity.
Qed.

Lemma go_logger fuel : forall loc rc (s : EState),
  match execute_task_go fuel loc rc s with
  | (Ok r, s') => exists name params res now,
      logger s' = Logger.log_action name params res (success r) (error r) now (logger s)
  | (Raise _, s') => logger s' = logger s
  end.
Proof.
  induction fuel as [|fuel IH]; intros loc rc s; [reflexivity|].
  rewrite execute_task_go_S, bind_unfold.
  pose proof (first_run_logger loc s) as L1.
  destruct (first_run loc s) as [[[t r]|e] s1]; proj_simpl; [|exact L1].
  rewrite bind_unfold.
  pose proof (repair_logger loc t rc r s1) as L2.
  destruct (repair loc t rc r s1) as [[[r' p']|e] s2]; proj_simpl; [|congruence].
  destruct (negb (success r') && Nat.ltb rc max_retries).
  - rewrite bind_unfold.
    pose proof (retry_wait_logger r' s2) as L3.
    destruct (retry_wait r' s2) as [[u|e] s3]; proj_simpl; [|congruence].
    specialize (IH loc (S rc) s3).
    destruct (execute_task_go fuel loc (S rc) s3) as [[r''|e] s4];
      [destruct IH as (n & pp & res & now & IH); exists n, pp, res, now|]; congruence.
  - destruct (finish_frame (t_action t) p' r' s2) as [F _].
    pose proof (finish_logger (t_action t) p' r' s2) as L4.
    destruct (finish (t_action t) p' r' s2) as [o s3]. cbn in F, L4. subst o.
    do 4 eexists. rewrite L4, L2, L1. reflexivity.
Qed.

(** The events of one retry: a one-second sleep, and a page reload
    followed by a second sleep when the error mentions "timeout". *)
Definition retry_events (r : ActionResult) : list event :=
  ESleep 1000 :: (if contains "timeout" (lower (py_str_opt (error r)))
                  then [EReload; ESleep 1000] else []).

Lemma first_run_fails loc t n r0 w' (s : EState) :
  nth_error (tasks_heap s) loc = Some t -> t_action t = Some n -> in_registry n = true ->
  run_action n (task_params t) (world s) = (Ok r0, w') -> success r0 = false ->
  first_run loc s =
    (Ok (t, r0), mkState w' (trace s ++ [EExecute n (task_params t)]) (tasks_heap s)
                   (collected_data s) (last_inspect_result s) (logger s)).
Proof.
  intros Hn Ha Hr Hrun Hs.
  unfold Exec.first_run, read_task, Exec.execute_action, Exec.emit, bind, modify, ret.
  rewrite Hn. cbv beta iota zeta. rewrite Ha, Hr. proj_simpl. rewrite Hrun, Hs.
  reflexivity.
Qed.

Lemma retry_wait_events r (s : EState) :
  (forall w, exists w', page_reload w = (Ok tt, w')) ->
  exists w', retry_wait r s =
    (Ok tt, mkState w' (trace s ++ retry_events r) (tasks_heap s)
              (collected_data s) (last_inspect_result s) (logger s)).
Proof.
  intros Hrl. unfold Exec.retry_wait, retry_events, Exec.emit, reload, bind, modify, ret.
  proj_simpl. destruct (contains _ _).
  - match goal with |- context [page_reload ?x] =>
      destruct (Hrl x) as [w' Hw]; rewrite Hw end. proj_simpl.
    exists w'. rewrite <- !app_assoc. reflexivity.
  - exists (world s). reflexivity.
Qed.

Lemma retry_wait_exact r (s : EState) :
  (forall w, exists w', page_reload w = (Ok tt, w')) ->
  exists w', retry_wait r s =
    (Ok tt, mkState w' (trace s ++ retry_events r) (tasks_heap s)
              (collected_data s) (last_inspect_result s) (logger s)) /\
    (contains "timeout" (lower (py_str_opt (error r))) = false -> w' = world s).
Proof.
  intros Hrl. unfold Exec.retry_wait, retry_events, Exec.emit, reload, bind, modify, ret.
  proj_simpl. destruct (contains _ _).
  - match goal with |- context [page_reload ?x] =>
      destruct (Hrl x) as [w' Hw]; rewrite Hw end. proj_simpl.
    exists w'. rewrite <- !app_assoc. split; [reflexivity|discriminate].
  - exists (world s). split; reflexivity.
Qed.

Lemma unknown_not_extract o :
  in_registry "extract" = true -> unknown_name o = true -> name_is o "extract" = false.
Proof.
  intros He Hu. destruct o as [n|]; [|reflexivity]. cbn in Hu |- *.
  destruct (String.eqb n "extract") eqn:En; [|reflexivity].
  apply String.eqb_eq in En. subst n. rewrite He in Hu. discriminate.
Qed.

Lemma unknown_go loc task k : forall rc (s : EState),
  in_registry "extract" = true ->
  nth_error (tasks_heap s) loc = Some task ->
  unknown_name (t_action task) = true ->
  (forall w, exists w', page_reload w = (Ok tt, w')) ->
  max_retries - rc = k ->
  exists w', execute_task_go (S k) loc rc s =
    (Ok (unknown_result (t_action task)),
     mkState w' (trace s ++ concat (repeat (retry_events (unknown_result (t_action task))) k))
       (tasks_heap s) (collected_data s) (last_inspect_result s)
       (Logger.log_action (t_action task) (task_params task) (VDict []) false
          (error (unknown_result (t_action task))) (clock w') (logger s))) /\
    (contains "timeout" (lower (py_str_opt (error (unknown_result (t_action task))))) = false ->
     w' = world s).
Proof.
  induction k as [|k IH]; intros rc s He Hn Hu Hrl Hk;
    pose proof (unknown_not_extract _ He Hu) as Hx;
    rewrite execute_task_go_S;
    rewrite (bind_ok _ _ _ _ _ (first_run_unknown loc task s Hn Hu));
    rewrite (bind_ok _ _ _ _ _ (repair_skip loc task rc _ s ltac:(rewrite Hx, Bool.andb_false_r; reflexivity)));
    cbn [fst snd].
  - replace (Nat.ltb rc max_retries) with false by (symmetry; apply Nat.ltb_ge; lia).
    rewrite Bool.andb_false_r; cbv iota beta. rewrite finish_failed by reflexivity.
    cbn [repeat concat]. rewrite app_nil_r.
    exists (world s). split; [destruct s; reflexivity|reflexivity].
  - replace (Nat.ltb rc max_retries) with true by (symmetry; apply Nat.ltb_lt; lia).
    cbn [andb negb success]. change (success (unknown_result (t_action task))) with false.
    cbn [negb andb].
    destruct (retry_wait_exact (unknown_result (t_action task)) s Hrl) as (w1 & E1 & W1).
    rewrite (bind_ok _ _ _ _ _ E1).
    destruct (IH (S rc) (mkState w1 (trace s ++ retry_events (unknown_result (t_action task)))
                           (tasks_heap s) (collected_data s) (last_inspect_result s) (logger s)))
      as (w' & E & W'); proj_simpl; auto; [lia|].
    exists w'. rewrite E. split.
    + cbn [repeat concat]. rewrite <- app_assoc. reflexivity.
    + intros Hc. rewrite (W' Hc). exact (W1 Hc).
Qed.

(** C1 (as the code behaves): a task whose action is not registered is
    not failed at once. Exactly like any failure it is re-run until
    [retry_count] reaches [max_retries]: each of these
    [max_retries - retry_count] retries is preceded by a one-second sleep
    and, when the error text ["Unknown action: name"] contains "timeout"
    (as for a name like ["wait_timeout"]), by a page reload and a second
    sleep; the page is left as it was otherwise. It ends with the
    ["Unknown action: name"] failure, one log entry stamped at the end,
    and the tasks, the inspect result and the collected data unchanged. *)
Theorem unknown_action_retried loc task rc (s : EState) :
  in_registry "extract" = true ->
  nth_error (tasks_heap s) loc = Some task ->
  unknown_name (t_action task) = true ->
  (forall w, exists w', page_reload w = (Ok tt, w')) ->
  exists w', execute_task loc rc s =
    (Ok (unknown_result (t_action task)),
     mkState w' (trace s ++ concat (repeat (retry_events (unknown_result (t_action task)))
                                           (max_retries - rc)))
       (tasks_heap s) (collected_data s) (last_inspect_result s)
       (Logger.log_action (t_action task) (task_params task) (VDict []) false
          (error (unknown_result (t_action task))) (clock w') (logger s))) /\
    (contains "timeout" (lower (py_str_opt (error (unknown_result (t_action task))))) = false ->
     w' = world s).
Proof.
  intros He Hn Hu Hrl. unfold Exec.execute_task. apply unknown_go; auto.
Qed.

Lemma finish_trace name params r (s : EState) :
  trace (snd (finish name params r s)) = trace s.
Proof.
  unfold Exec.finish, Exec.log_action, set_logger, collect, get_state,
    bind, modify, ret. crush; reflexivity.
Qed.

Lemma go_fails loc t n r0 k : forall rc (s : EState),
  nth_error (tasks_heap s) loc = Some t -> t_action t = Some n ->
  in_registry n = true -> n <> "extract" ->
  (forall w, exists w', run_action n (task_params t) w = (Ok r0, w')) ->
  success r0 = false ->
  (forall w, exists w', page_reload w = (Ok tt, w')) ->
  max_retries - rc = k ->
  exists s', execute_task_go (S k) loc rc s = (Ok r0, s') /\
    trace s' = trace s ++ concat (repeat (EExecute n (task_params t) :: retry_events r0) k)
               ++ [EExecute n (task_params t)].
Proof.
  assert (Hx : forall n, n <> "extract" -> name_is (Some n) "extract" = false)
    by (intros m Hm; cbn; apply String.eqb_neq; exact Hm).
  induction k as [|k IH]; intros rc s Hn Ha Hr Hne Hrun Hs Hrl Hk;
    rewrite execute_task_go_S;
    destruct (Hrun (world s)) as [w1 Hw1];
    rewrite (bind_ok _ _ _ _ _ (first_run_fails loc t n r0 w1 s Hn Ha Hr Hw1 Hs));
    rewrite (bind_ok _ _ _ _ _ (repair_skip loc t rc r0 _
               ltac:(rewrite Ha, (Hx n Hne), andb_false_r; reflexivity)));
    cbn [fst snd]; rewrite Hs; cbn [negb andb].
  - replace (Nat.ltb rc max_retries) with false by (symmetry; apply Nat.ltb_ge; lia).
    destruct (finish_frame (t_action t) (task_params t) r0
                (mkState w1 (trace s ++ [EExecute n (task_params t)]) (tasks_heap s)
                   (collected_data s) (last_inspect_result s) (logger s))) as [F _].
    pose proof (finish_trace (t_action t) (task_params t) r0
                (mkState w1 (trace s ++ [EExecute n (task_params t)]) (tasks_heap s)
                   (collected_data s) (last_inspect_result s) (logger s))) as T.
    destruct (finish _ _ _ _) as [o s']. cbn in F, T. subst o.
    exists s'. split; [reflexivity|]. rewrite T. reflexivity.
  - replace (Nat.ltb rc max_retries) with true by (symmetry; apply Nat.ltb_lt; lia).
    destruct (retry_wait_events r0
                (mkState w1 (trace s ++ [EExecute n (task_params t)]) (tasks_heap s)
                   (collected_data s) (last_inspect_result s) (logger s)) Hrl) as [w2 E2].
    rewrite (bind_ok _ _ _ _ _ E2). proj_simpl.
    destruct (IH (S rc) (mkState w2 ((trace s ++ [EExecute n (task_params t)]) ++
                                     retry_events r0) (tasks_heap s) (collected_data s)
                          (last_inspect_result s) (logger s)))
      as (s' & E & T); proj_simpl; auto; [lia|].
    exists s'. split; [exact E|]. rewrite T. cbn [repeat concat].
    rewrite <- !app_assoc. reflexivity.
Qed.

(** [execute_task] writes exactly one log entry, however many retries it
    makes: when it returns a result, the logger is the one it started
    with plus one [log_action] carrying that result's [success] and
    [error]; when it raises, nothing is logged. *)
Theorem execute_task_logs_once loc rc (s : EState) :
  match execute_task loc rc s with
  | (Ok r, s') => exists name params res now,
      logger s' = Logger.log_action name params res (success r) (error r) now (logger s)
  | (Raise _, s') => logger s' = logger s
  end.
Proof. unfold Exec.execute_task. apply go_logger. Qed.

(** A registered action (other than extract) that always fails with the
    same result is executed [1 + (max_retries - retry_count)] times with
    the same params; before each retry the executor sleeps one second and,
    when the error mentions "timeout", reloads the page and sleeps again.
    The last failure is returned. *)
Theorem failing_task_retry_trace loc rc t n r0 (s : EState) :
  nth_error (tasks_heap s) loc = Some t -> t_action t = Some n ->
  in_registry n = true -> n <> "extract" ->
  (forall w, exists w', run_action n (task_params t) w = (Ok r0, w')) ->
  success r0 = false ->
  (forall w, exists w', page_reload w = (Ok tt, w')) ->
  exists s', execute_task loc rc s = (Ok r0, s') /\
    trace s' = trace s ++
      concat (repeat (EExecute n (task_params t) :: retry_events r0) (max_retries - rc))
      ++ [EExecute n (task_params t)].
Proof.
  intros Hn Ha Hr Hne Hrun Hs Hrl. unfold Exec.execute_task.
  apply go_fails; auto.
Qed.

(** With [max_retries = 0] the [while] loop of [execute_plan] never runs,
    so a non-empty plan ends in an unbound-local error (Python's
    [UnboundLocalError], a [NameError]) on [failed_task]: the logging
    session it started stays open and no log file is written. *)
Theorem plan_without_attempts_raises tasks goal soe rfp (s : EState) :
  max_retries = 0 -> tasks <> [] ->
  fst (execute_plan tasks goal soe rfp s) = Raise NameError /\
  Logger.files (logger (snd (execute_plan tasks goal soe rfp s))) = Logger.files (logger s) /\
  Logger.session_id (logger (snd (execute_plan tasks goal soe rfp s))) <> None.
Proof.
  intros Hm Hne. destruct tasks as [|l ts]; [contradiction|].
  unfold Exec.execute_plan. rewrite Hm.
  unfold Exec.start_session, set_logger, get_state, bind, modify, reset_collected, ret, throw.
  cbn. split; [reflexivity|split; [reflexivity|discriminate]].
Qed.


Lemma go_session fuel loc rc (s : EState) :
  Logger.logs_dir (logger (snd (execute_task_go fuel loc rc s))) = Logger.logs_dir (logger s) /\
  Logger.session_id (logger (snd (execute_task_go fuel loc rc s))) =
    Logger.session_id (logger s).
Proof.
  pose proof (go_logger fuel loc rc s) as G.
  destruct (execute_task_go fuel loc rc s) as [[r|e] s']; cbn [snd].
  - destruct G as (n & p & res & now & G). rewrite G. split; reflexivity.
  - rewrite G. split; reflexivity.
Qed.

Lemma run_tasks_ok soe ts : forall i sc failed (s : EState),
  Forall (always_succeeds (tasks_heap s)) ts -> li_ok (last_inspect_result s) ->
  exists s', run_tasks soe ts i sc failed s = (Ok (sc + length ts, failed), s') /\
    tasks_heap s' = tasks_heap s /\ li_ok (last_inspect_result s') /\
    marks (trace s') = marks (trace s) ++ seq i (length ts) /\
    Logger.logs_dir (logger s') = Logger.logs_dir (logger s) /\
    Logger.session_id (logger s') = Logger.session_id (logger s).
Proof.
  induction ts as [|loc ts IH]; intros i sc failed s Hg Hli.
  - exists s. rewrite Nat.add_0_r, app_nil_r. repeat split; auto.
  - rewrite run_tasks_cons, bind_unfold, emit_eq; proj_simpl; rewrite bind_unfold.
    inversion Hg as [|? ? Hl Hg']; subst. destruct Hl as (t & Hn & Hsu).
    destruct (execute_task_succ loc t
                (mkState (world s) (trace s ++ [EPrintTask i]) (tasks_heap s)
                   (collected_data s) (last_inspect_result s) (logger s)) Hn Hsu Hli)
      as (r & s1 & E & Hs & Hh & Hl1 & Hm).
    pose proof (go_session (S (max_retries - 0)) loc 0
                (mkState (world s) (trace s ++ [EPrintTask i]) (tasks_heap s)
                   (collected_data s) (last_inspect_result s) (logger s))) as [D1 S1].
    rewrite E, Hs. proj_simpl.
    unfold Exec.execute_task in E. rewrite E in D1, S1. cbn [snd] in D1, S1.
    destruct (IH (S i) (S sc) failed s1) as (s2 & E2 & Hh2 & Hl2 & Hm2 & D2 & S2);
      [rewrite Hh; exact Hg'|exact Hl1|].
    exists s2. rewrite E2. cbn [length].
    replace (S sc + length ts) with (sc + S (length ts)) by lia.
    split; [reflexivity|]. split; [congruence|]. split; [exact Hl2|].
    split; [|split; congruence].
    rewrite Hm2, Hm, marks_app, <- app_assoc. reflexivity.
Qed.

Lemma plan_loop_all_ok fuel tasks soe rfp sid (s : EState) :
  0 < fuel -> 0 < max_retries ->
  Forall (always_succeeds (tasks_heap s)) tasks -> li_ok (last_inspect_result s) ->
  Logger.session_id (logger s) = Some sid ->
  exists sm s', plan_loop fuel tasks soe rfp 0 None s = (Ok (inl sm), s') /\
    sm_success sm = true /\ sm_attempts sm = 1 /\
    sm_total_tasks sm = length tasks /\ sm_completed_tasks sm = length tasks /\
    sm_failed_task sm = None /\ sm_log_path sm = Logger.log_path (logger s) sid /\
    marks (trace s') = marks (trace s) ++ seq 0 (length tasks).
Proof.
  intros Hf Hm Hg Hli Hsid. destruct fuel as [|fuel]; [lia|].
  rewrite plan_loop_S.
  replace (Nat.ltb 0 max_retries) with true by (symmetry; apply Nat.ltb_lt; lia).
  cbv zeta. cbn [Nat.ltb Nat.leb]. rewrite bind_unfold. cbn [ret fst snd].
  rewrite bind_unfold.
  destruct (run_tasks_ok soe tasks 0 0 None s Hg Hli) as (s1 & E1 & Hh1 & Hl1 & Hm1 & D1 & S1).
  rewrite E1. cbn [fst snd]. rewrite Nat.add_0_l, Nat.eqb_refl.
  unfold Exec.end_session, set_logger, get_state, bind, modify, ret.
  unfold Logger.end_session. rewrite S1, Hsid.
  eexists _, _. split; [reflexivity|]. cbn [sm_success sm_attempts sm_total_tasks
    sm_completed_tasks sm_failed_task sm_log_path trace].
  repeat split; auto. unfold Logger.log_path. rewrite D1. reflexivity.
Qed.

(** When every task of a non-empty plan always succeeds (an inspect
    among them returning data the executor can store, and a stored inspect
    result [li_ok]) and [max_retries > 0], [execute_plan] returns a success summary after a
    single attempt: every task is run once in order, [completed_tasks]
    and [total_tasks] are the number of tasks, there is no [failed_task],
    and [log_path] is the session file ["<logs_dir>/session_<uuid>.json"]. *)
Theorem plan_all_succeed tasks goal soe rfp (s : EState) :
  0 < max_retries -> tasks <> [] ->
  Forall (always_succeeds (tasks_heap s)) tasks -> li_ok (last_inspect_result s) ->
  exists sm s', execute_plan tasks goal soe rfp s = (Ok (PlanSummary sm), s') /\
    sm_success sm = true /\ sm_attempts sm = 1 /\
    sm_total_tasks sm = length tasks /\ sm_completed_tasks sm = length tasks /\
    sm_failed_task sm = None /\
    sm_log_path sm = Logger.log_path (logger s) ("session_" ++ new_uuid (world s)) /\
    marks (trace s') = marks (trace s) ++ seq 0 (length tasks).
Proof.
  intros Hm Hne Hg Hli. unfold Exec.execute_plan.
  destruct tasks as [|l0 ls] eqn:Et; [contradiction|]. rewrite <- Et.
  rewrite bind_unfold.
  change (Exec.start_session W new_uuid clock goal s) with
    (Ok tt, mkState (world s) (trace s) (tasks_heap s) (collected_data s)
              (last_inspect_result s)
              (snd (Logger.start_session goal (new_uuid (world s)) (clock (world s))
                      (logger s)))).
  cbv beta iota. rewrite bind_unfold. unfold reset_collected at 1, modify at 1.
  proj_simpl. rewrite bind_unfold.
  destruct (plan_loop_all_ok max_retries tasks soe rfp ("session_" ++ new_uuid (world s))
              (mkState (world s) (trace s) (tasks_heap s) []
                 (last_inspect_result s)
                 (snd (Logger.start_session goal (new_uuid (world s)) (clock (world s))
                         (logger s)))))
    as (sm & s' & E & H1 & H2 & H3 & H4 & H5 & H6 & H7); proj_simpl;
    [exact Hm|exact Hm|rewrite Et; exact Hg|exact Hli|reflexivity|].
  rewrite E. cbn [ret]. exists sm, s'. repeat split; auto.
Qed.

Lemma plan_loop_once pre bad post fuel (s : EState) :
  0 < fuel -> 0 < max_retries -> in_registry "extract" = true ->
  Forall (always_succeeds (tasks_heap s)) pre -> always_fails (tasks_heap s) bad ->
  li_ok (last_inspect_result s) ->
  (forall w, exists w', page_reload w = (Ok tt, w')) ->
  exists err s',
    plan_loop fuel (pre ++ bad :: post) true false 0 None s =
      (Ok (inr (1, Some (length pre, Some (mkFailed bad err (length pre))))), s') /\
    marks (trace s') = marks (trace s) ++ seq 0 (S (length pre)).
Proof.
  intros Hf Hm He Hg Hb Hli Hrl. destruct fuel as [|fuel]; [lia|].
  rewrite plan_loop_S.
  replace (Nat.ltb 0 max_retries) with true by (symmetry; apply Nat.ltb_lt; lia).
  cbv zeta. cbn [Nat.ltb Nat.leb]. rewrite bind_unfold. cbn [ret fst snd].
  rewrite bind_unfold.
  destruct (run_tasks_fail pre bad post 0 0 s Hg Hb Hli He Hrl)
    as (err & s1 & E1 & Ho1 & Hb1 & Hl1 & Hm1).
  rewrite E1. cbn [fst snd Nat.add].
  replace (Nat.eqb (length pre) (length (pre ++ bad :: post))) with false
    by (symmetry; apply Nat.eqb_neq; rewrite length_app; cbn; lia).
  cbn [negb]. exists err, s1. split; [reflexivity|exact Hm1].
Qed.

(** With [retry_full_plan = false] (and [stop_on_error]), a plan whose
    task [bad] always fails (an extract also with any selector the repair
    writes) after tasks that always succeed (an inspect among them
    returning data the executor can store) is attempted
    only once: [attempts = 1], the tasks up to [bad] are run once, and
    [failed_task] points to [bad]. *)
Theorem plan_no_full_retry pre bad post goal (s : EState) :
  0 < max_retries -> in_registry "extract" = true ->
  Forall (always_succeeds (tasks_heap s)) pre -> always_fails (tasks_heap s) bad ->
  li_ok (last_inspect_result s) ->
  (forall w, exists w', page_reload w = (Ok tt, w')) ->
  exists sm s',
    execute_plan (pre ++ bad :: post) goal true false s = (Ok (PlanSummary sm), s') /\
    sm_success sm = false /\ sm_attempts sm = 1 /\ sm_completed_tasks sm = length pre /\
    (exists err, sm_failed_task sm = Some (mkFailed bad err (length pre))) /\
    marks (trace s') = marks (trace s) ++ seq 0 (S (length pre)).
Proof.
  intros Hm He Hg Hb Hli Hrl. unfold Exec.execute_plan.
  destruct (pre ++ bad :: post) as [|l0 ls] eqn:Et; [destruct pre; discriminate|].
  rewrite <- Et, bind_unfold.
  destruct (start_session_frame goal s) as (s1 & E1 & Hh1 & Ht1 & Hl1).
  rewrite E1, bind_unfold. unfold reset_collected at 1, modify at 1.
  rewrite bind_unfold.
  destruct (plan_loop_once pre bad post max_retries
              (mkState (world s1) (trace s1) (tasks_heap s1) []
                       (last_inspect_result s1) (logger s1)))
    as (err & s2 & E2 & Hm2); proj_simpl;
    [exact Hm|exact Hm|exact He|rewrite Hh1; exact Hg|rewrite Hh1; exact Hb
    |rewrite Hl1; exact Hli|exact Hrl|].
  rewrite E2, bind_unfold.
  destruct (end_session_frame false (ft_error (mkFailed bad err (length pre))) s2)
    as (path & s3 & E3 & Hh3 & Ht3).
  rewrite E3. unfold get_state, bind, ret.
  eexists _, s3. split; [reflexivity|].
  cbn [sm_success sm_attempts sm_completed_tasks sm_failed_task].
  repeat split; eauto.
  rewrite Ht3, Hm2, Ht1. reflexivity.
Qed.

(** The entry lines 155-160 append for a final [result] (none when it
    failed, has falsy data, or is not an extract or loop). *)
Definition collect_entry (name : option string) (params : dict) (r : ActionResult)
  : list value :=
  if success r && truthy (data r) && (name_is name "extract" || name_is name "loop") then
    [VDict [("action", opt_str name); ("data", data r);
            ("save_as", match dict_get params "save_as" with Some v => v | None => VNone end)]]
  else [].

Lemma finish_collect name params r (s : EState) :
  fst (finish name params r s) = Ok r /\
  collected_data (snd (finish name params r s)) =
    collected_data s ++ collect_entry name params r.
Proof.
  unfold Exec.finish, Exec.log_action, set_logger, collect, get_state,
    bind, modify, ret, collect_entry.
  destruct (success r && truthy (data r) && (name_is name "extract" || name_is name "loop"));
    cbn; split; [reflexivity| |reflexivity|symmetry; apply app_nil_r]; reflexivity.
Qed.

Lemma dict_get_set_other {A} (d : list (string * A)) k k' v :
  k' <> k -> dict_get (dict_set d k v) k' = dict_get d k'.
Proof.
  intros Hk. assert (E : String.eqb k' k = false) by (apply String.eqb_neq; exact Hk).
  induction d as [|[k0 v0] d IH]; cbn.
  - rewrite E. reflexivity.
  - destruct (String.eqb k k0) eqn:E0; cbn.
    + apply String.eqb_eq in E0. subst k0. rewrite E. reflexivity.
    + destruct (String.eqb k' k0); [reflexivity|exact IH].
Qed.

Lemma repair_collect loc t rc r (s : EState) :
  nth_error (tasks_heap s) loc = Some t ->
  match fst (repair loc t rc r s) with
  | Ok (_, p') => dict_get p' "save_as" = dict_get (task_params t) "save_as"
  | Raise _ => True
  end /\
  exists t', nth_error (tasks_heap (snd (repair loc t rc r s))) loc = Some t' /\
    t_action t' = t_action t /\
    dict_get (task_params t') "save_as" = dict_get (task_params t) "save_as".
Proof.
  intros Hn. split.
  - unfold Exec.repair, write_params, Exec.execute_action, Exec.emit,
      get_state, bind, modify, lift, ret, throw.
    crush; auto; apply dict_get_set_other; discriminate.
  - destruct (repair_heap loc t rc r s Hn) as [_ [Hh|(p & sel & Ha & Hp & _ & Hh)]].
    + exists t. rewrite Hh. auto.
    + exists (repaired t p sel). rewrite Hh. split; [exact (nth_error_list_set_same _ _ _ _ Hn)|].
      split; [reflexivity|]. unfold repaired, task_params. cbn [t_params].
      rewrite Hp. apply dict_get_set_other. discriminate.
Qed.

Lemma go_collect fuel loc t0 : forall rc (s : EState) t,
  nth_error (tasks_heap s) loc = Some t -> t_action t = t_action t0 ->
  dict_get (task_params t) "save_as" = dict_get (task_params t0) "save_as" ->
  match execute_task_go fuel loc rc s with
  | (Ok r, s') => collected_data s' =
                   collected_data s ++ collect_entry (t_action t0) (task_params t0) r
  | (Raise _, s') => collected_data s' = collected_data s
  end.
Proof.
  induction fuel as [|fuel IH]; intros rc s t Hn Ha Hsv; [reflexivity|].
  rewrite execute_task_go_S, bind_unfold.
  pose proof (first_run_heap loc s) as [Hh1 Hm1].
  pose proof (first_run_frame loc s) as [_ C1].
  destruct (first_run loc s) as [[[t1 r]|e] s1]; proj_simpl; [|exact C1].
  destruct Hm1 as [Hn1 _]. rewrite Hn in Hn1. injection Hn1 as <-.
  rewrite bind_unfold.
  destruct (repair_collect loc t rc r s1 ltac:(rewrite Hh1; exact Hn))
    as [P1 (t' & Hn2 & Ha2 & Hs2)].
  pose proof (repair_frame loc t rc r s1) as [_ C2].
  destruct (repair loc t rc r s1) as [[[r' p']|e] s2]; proj_simpl; [|congruence].
  destruct (negb (success r') && Nat.ltb rc max_retries).
  - rewrite bind_unfold.
    pose proof (retry_wait_heap r' s2) as [Hh3 _].
    pose proof (retry_wait_frame r' s2) as [_ C3].
    destruct (retry_wait r' s2) as [[u|e] s3]; proj_simpl; [|congruence].
    pose proof (IH (S rc) s3 t' ltac:(rewrite Hh3; exact Hn2) ltac:(congruence)
                  ltac:(congruence)) as G.
    destruct (execute_task_go fuel loc (S rc) s3) as [[r''|e] s4]; congruence.
  - destruct (finish_collect (t_action t) p' r' s2) as [F Cf].
    destruct (finish (t_action t) p' r' s2) as [o s3]. cbn in F, Cf. subst o.
    rewrite Cf, C2, C1. unfold collect_entry. rewrite P1, Ha, Hsv. reflexivity.
Qed.

Lemma execute_task_collect loc rc t (s : EState) :
  nth_error (tasks_heap s) loc = Some t ->
  match execute_task loc rc s with
  | (Ok r, s') => collected_data s' =
                   collected_data s ++ collect_entry (t_action t) (task_params t) r
  | (Raise _, s') => collected_data s' = collected_data s
  end.
Proof. intros Hn. exact (go_collect _ loc t rc s t Hn eq_refl eq_refl). Qed.

Lemma execute_plan_reset tasks goal soe rfp (s : EState) cd :
  tasks <> [] ->
  execute_plan tasks goal soe rfp s =
    execute_plan tasks goal soe rfp
      (mkState (world s) (trace s) (tasks_heap s) cd (last_inspect_result s) (logger s)).
Proof.
  intros Hne. destruct tasks as [|l ls]; [contradiction|].
  unfold Exec.execute_plan, Exec.start_session, reset_collected, set_logger,
    get_state, bind, modify.
  reflexivity.
Qed.
End F.


(** ** The executor on the demo world *)

Lemma unknown_action_retried_witness :
  exists w', Exec.execute_task nat Demo.registry 3 Demo.run Demo.reload Demo.clock 0 0
    (Demo.state [Demo.task "wait_timeout" []] VNone) =
  (Ok (unknown_result (Some "wait_timeout")),
   mkState w' (trace (Demo.state [Demo.task "wait_timeout" []] VNone) ++
               concat (repeat (retry_events (unknown_result (Some "wait_timeout"))) (3 - 0)))
     [Demo.task "wait_timeout" []] [] VNone
     (Logger.log_action (Some "wait_timeout") [] (VDict []) false
        (error (unknown_result (Some "wait_timeout"))) (Demo.clock w') (Logger.init "./logs"))) /\
  (contains "timeout" (lower (py_str_opt (error (unknown_result (Some "wait_timeout"))))) = false ->
   w' = world (Demo.state [Demo.task "wait_timeout" []] VNone)).
Proof.
  apply (unknown_action_retried nat Demo.registry 3 Demo.run Demo.reload Demo.clock
           0 (Demo.task "wait_timeout" []) 0 (Demo.state [Demo.task "wait_timeout" []] VNone));
    [reflexivity|reflexivity|reflexivity|].
  intros w. exists w. reflexivity.
Defined.

(** An unregistered action is re-run: three one-second waits precede the
    final failure when [max_retries = 3]. *)
Lemma unknown_action_sleeps :
  trace (snd (Exec.execute_task nat Demo.registry 3 Demo.run Demo.reload Demo.clock 0 0
                (Demo.state [Demo.task "hover" []] VNone))) =
    [ESleep 1000; ESleep 1000; ESleep 1000].
Proof. vm_compute. reflexivity. Qed.

(** The suggested-selector repair writes the new selector into the task. *)
Lemma extract_repair_rewrites_task :
  tasks_heap (snd (Exec.execute_task nat Demo.registry 3 Demo.run Demo.reload Demo.clock 0 0
                     (Demo.state [Demo.task "extract" [("selector", VStr ".job-card")]]
                                 Demo.inspect_data))) =
    [Demo.task "extract" [("selector", VStr "article")]].
Proof. vm_compute. reflexivity. Qed.

Lemma execute_task_params_witness :
  Exec.in_registry Demo.registry "extract" = true /\
  nth_error (tasks_heap (Demo.state [Demo.task "extract" [("selector", VStr ".job-card")]]
                                    Demo.inspect_data)) 0 =
    Some (Demo.task "extract" [("selector", VStr ".job-card")]) /\
  tasks_heap (snd (Exec.execute_task nat Demo.registry 3 Demo.run Demo.reload Demo.clock 0 0
                     (Demo.state [Demo.task "extract" [("selector", VStr ".job-card")]]
                                 Demo.inspect_data))) =
    [Demo.task "extract" [("selector", VStr "article")]].
Proof.
  split; [reflexivity|split; [reflexivity|]].
  rewrite (execute_task_params nat Demo.registry 3 Demo.run Demo.reload Demo.clock 0 0
             (Demo.task "extract" [("selector", VStr ".job-card")])
             (Demo.state [Demo.task "extract" [("selector", VStr ".job-card")]]
                         Demo.inspect_data) eq_refl eq_refl).
  vm_compute. reflexivity.
Defined.

Ltac demo_succeeds :=
  split; [intros w; eexists; eexists; split; reflexivity|];
  first [ discriminate
        | intros _ w r w' E _; injection E as <- _;
          split; [right; exists (VList [VStr "article (5)"]);
                  split; [reflexivity|intros _; exists "article"; reflexivity]
                 |reflexivity] ].

Ltac demo_fails :=
  split; [intros w; eexists; eexists; split; reflexivity|];
  intros _ sel w; eexists; eexists; split; reflexivity.

Lemma plan_reports_failed_task_witness :
  exists sm s',
    Exec.execute_plan nat Demo.registry 3 Demo.no_jobs_run Demo.reload Demo.uuid Demo.clock
      Demo.elapsed ([0; 1; 2] ++ 3 :: []) "goal" true true
      (Demo.state (Demo.jobs_plan ".job-card") VNone) = (Ok (PlanSummary sm), s') /\
    sm_success sm = false /\ sm_total_tasks sm = length ([0; 1; 2] ++ 3 :: []) /\
    sm_attempts sm = 3 /\ sm_completed_tasks sm = length [0; 1; 2] /\
    (exists err, sm_failed_task sm = Some (mkFailed 3 err (length [0; 1; 2]))) /\
    marks (trace s') =
      marks (trace (Demo.state (Demo.jobs_plan ".job-card") VNone)) ++
      concat (repeat (seq 0 (S (length [0; 1; 2]))) 3).
Proof.
  apply (plan_reports_failed_task nat Demo.registry 3 Demo.no_jobs_run Demo.reload Demo.clock
           Demo.uuid Demo.elapsed [0; 1; 2] 3 [] "goal"
           (Demo.state (Demo.jobs_plan ".job-card") VNone)).
  - lia.
  - reflexivity.
  - repeat constructor; eexists; (split; [reflexivity|demo_succeeds]).
  - eexists; split; [reflexivity|demo_fails].
  - left; reflexivity.
  - intros w. exists w. reflexivity.
Defined.

(** C9: [collected_data] is reset once, when [execute_plan] starts (its
    result does not depend on the data collected before), and never
    cleared afterwards. A run of [execute_task] on the task at [loc]
    appends exactly [collect_entry] of its final result: one entry when
    that result succeeded, has truthy data and the action is extract or
    loop, nothing otherwise (and nothing when it raises). Every call of
    [plan_loop] (the first attempt and each whole-plan retry) ends with
    the data it started from followed by new entries, and a successful
    summary returns exactly the data collected over all attempts. On the
    demo world, a plan whose click only succeeds on attempt 2 returns the
    extract entry of the failed first attempt and that of the second. *)
Theorem collected_data_accumulates :
  (forall W registry max_retries run_action page_reload new_uuid clock elapsed
          tasks goal soe rfp (s : ExecState W) cd,
     tasks <> [] ->
     Exec.execute_plan W registry max_retries run_action page_reload new_uuid clock
       elapsed tasks goal soe rfp s =
     Exec.execute_plan W registry max_retries run_action page_reload new_uuid clock
       elapsed tasks goal soe rfp
       (mkState (world s) (trace s) (tasks_heap s) cd (last_inspect_result s) (logger s))) /\
  (forall W registry max_retries run_action page_reload clock loc rc t (s : ExecState W),
     nth_error (tasks_heap s) loc = Some t ->
     match Exec.execute_task W registry max_retries run_action page_reload clock loc rc s with
     | (Ok r, s') => collected_data s' =
                      collected_data s ++ collect_entry (t_action t) (task_params t) r
     | (Raise _, s') => collected_data s' = collected_data s
     end) /\
  (forall W registry max_retries run_action page_reload clock elapsed
          fuel tasks soe rfp pa last (s : ExecState W),
     let res := Exec.plan_loop W registry max_retries run_action page_reload clock
                  elapsed fuel tasks soe rfp pa last s in
     (exists extra, collected_data (snd res) = collected_data s ++ extra) /\
     match fst res with
     | Ok (inl sm) => sm_collected_data sm = collected_data (snd res)
     | _ => True
     end) /\
  (let res := Exec.execute_plan nat Demo.registry 3 Demo.run Demo.reload Demo.uuid
                Demo.clock Demo.elapsed [0; 1] "goal" true true
                (Demo.state Demo.retry_plan_heap VNone) in
   match fst res with
   | Ok (PlanSummary sm) =>
       sm_success sm = true /\ sm_attempts sm = 2 /\
       sm_collected_data sm = [Demo.job_entry; Demo.job_entry]
   | _ => False
   end).
Proof.
  split; [|split; [|split]].
  - intros W registry max_retries run_action page_reload new_uuid clock elapsed
      tasks goal soe rfp s cd Hne.
    exact (execute_plan_reset W registry max_retries run_action page_reload clock
             new_uuid elapsed tasks goal soe rfp s cd Hne).
  - intros W registry max_retries run_action page_reload clock loc rc t s Hn.
    exact (execute_task_collect W registry max_retries run_action page_reload clock
             loc rc t s Hn).
  - intros W registry max_retries run_action page_reload clock elapsed
      fuel tasks soe rfp pa last s. cbv zeta.
    destruct (Exec.plan_loop _ _ _ _ _ _ _ _ _ _ _ _ _ s) as [r s'] eqn:E.
    exact (plan_loop_grows W registry max_retries run_action page_reload clock elapsed
             fuel tasks soe rfp pa last s r s' E).
  - vm_compute. repeat split.
Qed.

Lemma collected_data_accumulates_witness :
  Exec.execute_plan nat Demo.registry 3 Demo.run Demo.reload Demo.uuid Demo.clock
    Demo.elapsed [0; 1] "goal" true true (Demo.state Demo.retry_plan_heap VNone) =
  Exec.execute_plan nat Demo.registry 3 Demo.run Demo.reload Demo.uuid Demo.clock
    Demo.elapsed [0; 1] "goal" true true
    (mkState 0 [] Demo.retry_plan_heap [Demo.job_entry] VNone (Logger.init "./logs")) /\
  match Exec.execute_task nat Demo.registry 3 Demo.run Demo.reload Demo.clock 0 0
          (Demo.state Demo.retry_plan_heap VNone) with
  | (Ok r, s') => collected_data s' =
      [] ++ collect_entry (Some "extract") [("selector", VStr ".job")] r
  | (Raise _, s') => collected_data s' = []
  end.
Proof.
  split.
  - apply (proj1 collected_data_accumulates nat Demo.registry 3 Demo.run Demo.reload
             Demo.uuid Demo.clock Demo.elapsed [0; 1] "goal" true true
             (Demo.state Demo.retry_plan_heap VNone) [Demo.job_entry]).
    discriminate.
  - apply (proj1 (proj2 collected_data_accumulates) nat Demo.registry 3 Demo.run
             Demo.reload Demo.clock 0 0 (Demo.task "extract" [("selector", VStr ".job")])
             (Demo.state Demo.retry_plan_heap VNone)).
    reflexivity.
Defined.

(** A successful extract whose data is falsy (an empty list) appends
    nothing: the plan succeeds and [collected_data] stays empty. *)
Lemma successful_extract_collects_nothing :
  match fst (Exec.execute_plan nat Demo.registry 3 Demo.empty_run Demo.reload Demo.uuid
               Demo.clock Demo.elapsed [0] "goal" true true
               (Demo.state [Demo.task "extract" [("selector", VStr ".job")]] VNone)) with
  | Ok (PlanSummary sm) =>
      sm_success sm = true /\ sm_completed_tasks sm = 1 /\ sm_collected_data sm = []
  | _ => False
  end.
Proof. vm_compute. repeat split. Qed.


Lemma failing_task_retry_trace_witness :
  exists s', Exec.execute_task nat Demo.registry 2 Demo.timeout_run Demo.reload Demo.clock
               0 0 (Demo.state [Demo.task "click" []] VNone) =
             (Ok (Demo.ko "click" "Timeout 30000ms exceeded"), s') /\
    trace s' = trace (Demo.state [Demo.task "click" []] VNone) ++
      concat (repeat (EExecute "click" (task_params (Demo.task "click" [])) ::
                      retry_events (Demo.ko "click" "Timeout 30000ms exceeded")) (2 - 0))
      ++ [EExecute "click" (task_params (Demo.task "click" []))].
Proof.
  apply (failing_task_retry_trace nat Demo.registry 2 Demo.timeout_run Demo.reload
           Demo.clock 0 0 (Demo.task "click" []) "click"
           (Demo.ko "click" "Timeout 30000ms exceeded")
           (Demo.state [Demo.task "click" []] VNone));
    try reflexivity.
  - discriminate.
  - intros w. eexists. reflexivity.
  - intros w. eexists. reflexivity.
Defined.

Lemma plan_without_attempts_raises_witness :
  fst (Exec.execute_plan nat Demo.registry 0 Demo.run Demo.reload Demo.uuid Demo.clock
         Demo.elapsed [0] "goal" true true (Demo.state [Demo.task "click" []] VNone))
    = Raise NameError /\
  Logger.files (logger (snd (Exec.execute_plan nat Demo.registry 0 Demo.run Demo.reload
      Demo.uuid Demo.clock Demo.elapsed [0] "goal" true true
      (Demo.state [Demo.task "click" []] VNone)))) =
    Logger.files (logger (Demo.state [Demo.task "click" []] VNone)) /\
  Logger.session_id (logger (snd (Exec.execute_plan nat Demo.registry 0 Demo.run
      Demo.reload Demo.uuid Demo.clock Demo.elapsed [0] "goal" true true
      (Demo.state [Demo.task "click" []] VNone)))) <> None.
Proof.
  apply (plan_without_attempts_raises nat Demo.registry 0 Demo.run Demo.reload Demo.clock
           Demo.uuid Demo.elapsed [0] "goal" true true
           (Demo.state [Demo.task "click" []] VNone)).
  - reflexivity.
  - discriminate.
Defined.

Lemma plan_all_succeed_witness :
  exists sm s',
    Exec.execute_plan nat Demo.registry 3 Demo.run Demo.reload Demo.uuid Demo.clock
      Demo.elapsed [0; 1; 2; 3] "goal" true true (Demo.state (Demo.jobs_plan ".job") VNone) =
      (Ok (PlanSummary sm), s') /\
    sm_success sm = true /\ sm_attempts sm = 1 /\
    sm_total_tasks sm = length [0; 1; 2; 3] /\ sm_completed_tasks sm = length [0; 1; 2; 3] /\
    sm_failed_task sm = None /\
    sm_log_path sm = Logger.log_path (logger (Demo.state (Demo.jobs_plan ".job") VNone))
                       ("session_" ++ Demo.uuid (world (Demo.state (Demo.jobs_plan ".job") VNone))) /\
    marks (trace s') =
      marks (trace (Demo.state (Demo.jobs_plan ".job") VNone)) ++ seq 0 (length [0; 1; 2; 3]).
Proof.
  apply (plan_all_succeed nat Demo.registry 3 Demo.run Demo.reload Demo.clock Demo.uuid
           Demo.elapsed [0; 1; 2; 3] "goal" true true (Demo.state (Demo.jobs_plan ".job") VNone)).
  - lia.
  - discriminate.
  - repeat constructor; eexists; (split; [reflexivity|demo_succeeds]).
  - left; reflexivity.
Defined.

Lemma plan_no_full_retry_witness :
  exists sm s',
    Exec.execute_plan nat Demo.registry 3 Demo.no_jobs_run Demo.reload Demo.uuid Demo.clock
      Demo.elapsed ([0; 1; 2] ++ 3 :: []) "goal" true false
      (Demo.state (Demo.jobs_plan ".job-card") VNone) = (Ok (PlanSummary sm), s') /\
    sm_success sm = false /\ sm_attempts sm = 1 /\ sm_completed_tasks sm = length [0; 1; 2] /\
    (exists err, sm_failed_task sm = Some (mkFailed 3 err (length [0; 1; 2]))) /\
    marks (trace s') =
      marks (trace (Demo.state (Demo.jobs_plan ".job-card") VNone)) ++
      seq 0 (S (length [0; 1; 2])).
Proof.
  apply (plan_no_full_retry nat Demo.registry 3 Demo.no_jobs_run Demo.reload Demo.clock
           Demo.uuid Demo.elapsed [0; 1; 2] 3 [] "goal"
           (Demo.state (Demo.jobs_plan ".job-card") VNone)).
  - lia.
  - reflexivity.
  - repeat constructor; eexists; (split; [reflexivity|demo_succeeds]).
  - eexists; split; [reflexivity|demo_fails].
  - left; reflexivity.
  - intros w. exists w. reflexivity.
Defined.

End ExecFacts.

(** ** Properties of the pattern loop *)

Module LoopFacts.

Import Loop.

Ltac lsimpl := cbn [lworld ltrace collected iteration fst snd] in *.
Ltac lcrush := repeat (split_match; lsimpl).

Section G.
Variable L : Type.
Variable loop_registry : list string.
Variable run_registered : string -> dict -> L -> exc ActionResult * L.
Variable extract_inline : value -> L -> ActionResult * L.
Variable click_inline : value -> L -> ActionResult * L.
Variable query_selector : value -> L -> exc (option nat) * L.
Variable get_attribute : nat -> string -> L -> exc value * L.
Variable click_element : nat -> L -> exc unit * L.
Variable scroll_to_bottom : L -> exc unit * L.
Variable float_ge : Z -> string -> bool.
Local Abbreviation LState := (LoopState L).
Local Abbreviation execute_step :=
  (Loop.execute_step L loop_registry run_registered extract_inline click_inline).
Local Abbreviation run_steps :=
  (Loop.run_steps L loop_registry run_registered extract_inline click_inline).
Local Abbreviation paginate :=
  (Loop.paginate L query_selector get_attribute click_element scroll_to_bottom).
Local Abbreviation click_next := (Loop.click_next L query_selector get_attribute click_element).
Local Abbreviation scroll_next := (Loop.scroll_next L scroll_to_bottom).
Local Abbreviation loop_go :=
  (Loop.loop_go L loop_registry run_registered extract_inline click_inline
     query_selector get_attribute click_element scroll_to_bottom float_ge).
Local Abbreviation loop_execute :=
  (Loop.loop_execute L loop_registry run_registered extract_inline click_inline
     query_selector get_attribute click_element scroll_to_bottom float_ge).

Lemma execute_step_frame step (s : LState) :
  iteration (snd (execute_step step s)) = iteration s /\
  collected (snd (execute_step step s)) = collected s.
Proof.
  unfold Loop.execute_step, wait_inline, lemit, driver, driver_total,
    bind, modify, lift, ret, throw.
  lcrush; auto.
Qed.

Lemma run_steps_frame steps : forall acc (s : LState),
  iteration (snd (run_steps steps acc s)) = iteration s /\
  collected (snd (run_steps steps acc s)) = collected s.
Proof.
  induction steps as [|st steps IH]; intros acc s; [split; reflexivity|].
  cbn [Loop.run_steps]. rewrite ExecFacts.bind_unfold.
  pose proof (execute_step_frame st s) as [I1 C1].
  destruct (execute_step st s) as [[r|e] s1]; lsimpl; [|auto].
  destruct (negb (success r)); [cbn; auto|].
  destruct (IH (if truthy (data r) then acc ++ [data r] else acc) s1). split; congruence.
Qed.

Lemma paginate_frame p (s : LState) :
  iteration (snd (paginate p s)) = iteration s.
Proof.
  unfold Loop.paginate, click_next, scroll_next, try_false, driver, lemit, bind, modify, lift, ret.
  lcrush; auto.
Qed.

(** The [try:] body that the pagination spec [d] selects raises, from
    every state; a type other than "click" and "scroll" has no [try:]. *)
Definition pagination_raises (d : dict) : Prop :=
  let t := match dict_get d "type" with Some v => v | None => VStr "click" end in
  let sel := match dict_get d "selector" with Some v => v | None => VNone end in
  let wa := match dict_get d "wait_after" with Some v => v | None => VInt 2000 end in
  if eq_str t "click" then forall s0 : LState, exists e s1, click_next sel wa s0 = (Raise e, s1)
  else if eq_str t "scroll" then
    forall s0 : LState, exists e s1, scroll_next wa s0 = (Raise e, s1)
  else True.

Lemma paginate_raises_false d (s : LState) :
  pagination_raises d -> fst (paginate (VDict d) s) = Ok false.
Proof.
  unfold pagination_raises. intros H.
  unfold Loop.paginate, try_false, bind, lift, ret. cbn [py_get].
  destruct (eq_str _ "click").
  - destruct (H s) as (e & s1 & ->). reflexivity.
  - destruct (eq_str _ "scroll"); [|reflexivity].
    destruct (H s) as (e & s1 & ->). reflexivity.
Qed.

Lemma loop_go_no_pagination pattern pagination on_empty stop_type stop_value
    max_iterations delay_between f (s : LState) :
  truthy pagination = false ->
  iteration (snd (loop_go pattern pagination on_empty stop_type stop_value
                    max_iterations delay_between (S f) s)) =
    if Z.ltb (Z.of_nat (iteration s)) max_iterations then S (iteration s) else iteration s.
Proof.
  intros Hp. cbn [Loop.loop_go].
  unfold set_iteration, extend, lemit, modify, lift, ret, bind, get_state.
  rewrite Hp.
  destruct (Z.ltb (Z.of_nat (iteration s)) max_iterations); [|reflexivity].
  destruct (py_iter pattern) as [steps|e]; [|reflexivity].
  pose proof (run_steps_frame steps [] (mkLS (lworld s) (ltrace s) (collected s) (S (iteration s))))
    as [I1 _].
  destruct (run_steps steps [] _) as [[acc|e] s2]; lsimpl; [|exact I1].
  lcrush; auto.
Qed.
Lemma loop_go_pagination_fails pattern d on_empty stop_type stop_value
    max_iterations delay_between f steps (s : LState) :
  py_iter pattern = Ok steps ->
  (forall s0, exists acc s1, run_steps steps [] s0 = (Ok acc, s1)) ->
  (forall s0, fst (paginate (VDict d) s0) = Ok false) ->
  (eq_str stop_type "max_iterations" = false \/ py_number stop_value = true) ->
  iteration s = 0 -> Z.lt 0 max_iterations ->
  exists s', loop_go pattern (VDict d) on_empty stop_type stop_value
               max_iterations delay_between (S f) s = (Ok tt, s') /\ iteration s' = 1.
Proof.
  intros Hit Hrun Hp Hst H0 Hm. cbn [Loop.loop_go].
  unfold set_iteration, extend, lemit, modify, lift, ret, bind, get_state.
  rewrite H0. replace (Z.ltb (Z.of_nat 0) max_iterations) with true
    by (symmetry; apply Z.ltb_lt; lia).
  rewrite Hit.
  destruct (Hrun (mkLS (lworld s) (ltrace s) (collected s) 1)) as (acc & s2 & E2).
  pose proof (run_steps_frame steps [] (mkLS (lworld s) (ltrace s) (collected s) 1))
    as [I2 _].
  rewrite E2 in I2 |- *. lsimpl.
  destruct (is_nil acc && eq_str on_empty "stop"); [eexists; split; [reflexivity|exact I2]|].
  destruct (eq_str stop_type "max_iterations");
    [destruct Hst as [Hf|Hn]; [discriminate|];
     destruct stop_value; try discriminate Hn; cbn [py_ge]|].
  all: lcrush; try (eexists; split; [reflexivity|lsimpl; congruence]).
  all: match goal with
       | H : Loop.paginate _ _ _ _ _ (VDict ?dd) ?st = _ |- _ =>
           pose proof (paginate_frame (VDict dd) st) as Fp;
           pose proof (Hp st) as Vp;
           rewrite H in Fp, Vp; cbn [fst snd] in Fp, Vp
       end.
  all: try discriminate; injection Vp as ->; cbn [negb] in *; try discriminate.
  all: eexists; split; [reflexivity|lsimpl; congruence].
Qed.

Lemma loop_execute_unfold pattern pagination stop_condition on_empty
    max_iterations delay_between (s : LState) :
  truthy pattern = true ->
  loop_execute pattern pagination stop_condition on_empty max_iterations delay_between s =
    match (if truthy stop_condition then
             match py_get stop_condition "type" (VStr "max_iterations") with
             | Ok t => match py_get stop_condition "value" (VInt max_iterations) with
                       | Ok v => Ok (t, v)
                       | Raise e => Raise e
                       end
             | Raise e => Raise e
             end
           else Ok (VStr "max_iterations", VInt max_iterations)) with
    | Raise e => (Raise e, mkLS (lworld s) (ltrace s) [] 0)
    | Ok st =>
      match loop_go pattern pagination on_empty (fst st) (snd st)
              max_iterations delay_between (Z.to_nat max_iterations)
              (mkLS (lworld s) (ltrace s) [] 0) with
      | (Ok _, s') =>
          (Ok (mkResult true (Some "loop") (VList (collected s')) None
                 [("iterations", VInt (Z.of_nat (iteration s')));
                  ("items_collected", VInt (Z.of_nat (length (collected s'))));
                  ("stop_reason", fst st)]), s')
      | (Raise e, s') =>
          (Ok (mkResult false (Some "loop") (VList (collected s')) (Some (exn_str e))
                 [("iterations", VInt (Z.of_nat (iteration s')))]), s')
      end
    end.
Proof.
  intros Hp. unfold Loop.loop_execute. rewrite Hp. cbn [negb].
  unfold bind at 1, modify at 1. cbv beta iota.
  destruct (truthy stop_condition).
  - unfold bind at 1, lift at 1.
    destruct (py_get stop_condition "type" _); [|reflexivity].
    unfold bind at 1, lift at 1.
    destruct (py_get stop_condition "value" _); reflexivity.
  - reflexivity.
Qed.

(** C4 (as the code behaves): for a truthy pattern, no pagination spec
    and a stop condition that is absent or a dict, [loop_execute] returns a
    result whose [metadata.iterations] is 1 when [max_iterations] is at least
    1, and 0 when [max_iterations <= 0]: then the while loop never runs and
    the result is still a success with empty data. *)
Theorem loop_iterations_without_pagination pattern pagination stop_condition
    on_empty max_iterations delay_between (s : LState) :
  truthy pattern = true -> truthy pagination = false ->
  (truthy stop_condition = false \/ exists d, stop_condition = VDict d) ->
  exists r s',
    loop_execute pattern pagination stop_condition on_empty max_iterations
      delay_between s = (Ok r, s') /\
    dict_get (metadata r) "iterations" =
      Some (VInt (if Z.ltb 0 max_iterations then 1 else 0)) /\
    (Z.le max_iterations 0 -> success r = true /\ data r = VList []).
Proof.
  intros Hpat Hpag Hsc. rewrite loop_execute_unfold by exact Hpat.
  assert (Hst : exists st,
            (if truthy stop_condition then
               match py_get stop_condition "type" (VStr "max_iterations") with
               | Ok t => match py_get stop_condition "value" (VInt max_iterations) with
                         | Ok v => Ok (t, v)
                         | Raise e => Raise e
                         end
               | Raise e => Raise e
               end
             else Ok (VStr "max_iterations", VInt max_iterations)) = Ok st).
  { destruct (truthy stop_condition) eqn:T; [|eauto].
    destruct Hsc as [Hf|[d ->]]; [congruence|]. cbn. eauto. }
  destruct Hst as [st ->].
  assert (Hit : iteration (snd (loop_go pattern pagination on_empty (fst st) (snd st)
                   max_iterations delay_between (Z.to_nat max_iterations)
                   (mkLS (lworld s) (ltrace s) [] 0))) =
                if Z.ltb 0 max_iterations then 1 else 0).
  { destruct (Z.to_nat max_iterations) as [|f] eqn:Ez.
    - replace (Z.ltb 0 max_iterations) with false by (symmetry; apply Z.ltb_ge; lia).
      reflexivity.
    - rewrite loop_go_no_pagination by exact Hpag. reflexivity. }
  destruct (Z.le_gt_cases max_iterations 0) as [Hle|Hgt].
  - replace (Z.to_nat max_iterations) with 0%nat in * by lia. cbn [Loop.loop_go ret].
    replace (Z.ltb 0 max_iterations) with false by (symmetry; apply Z.ltb_ge; lia).
    eexists _, _. split; [reflexivity|]. cbn. split; [reflexivity|auto].
  - destruct (loop_go _ _ _ _ _ _ _ _ _) as [[u|e] s']; cbn [snd] in Hit;
      eexists _, _; (split; [reflexivity|]); cbn; rewrite Hit;
      (split; [destruct (Z.ltb 0 max_iterations); reflexivity|intros; lia]).
Qed.

(** C5: for a truthy pattern whose steps run, a pagination spec given as
    a dict whose [try:] body raises (any fault of the selector query, the
    [disabled] read, the click, the scroll or the [wait_after] division),
    and a stop condition that is absent or any dict (with a number as its
    value when its type is "max_iterations"), [_paginate] reports no next
    page, the loop stops after its first iteration, and [loop_execute]
    returns a successful result carrying the data collected so far. *)
Theorem pagination_failure_ends_loop pattern d stop_condition on_empty
    max_iterations delay_between steps (s : LState) :
  truthy pattern = true -> py_iter pattern = Ok steps ->
  (forall s0, exists acc s1, run_steps steps [] s0 = (Ok acc, s1)) ->
  pagination_raises d ->
  (truthy stop_condition = false \/
   exists sd, stop_condition = VDict sd /\
     (eq_str (match dict_get sd "type" with Some v => v | None => VStr "max_iterations" end)
        "max_iterations" = false \/
      py_number (match dict_get sd "value" with Some v => v | None => VInt max_iterations end)
        = true)) ->
  (forall s0, fst (paginate (VDict d) s0) = Ok false) /\
  exists r s',
    loop_execute pattern (VDict d) stop_condition on_empty max_iterations
      delay_between s = (Ok r, s') /\
    success r = true /\ data r = VList (collected s') /\
    dict_get (metadata r) "iterations" =
      Some (VInt (if Z.ltb 0 max_iterations then 1 else 0)).
Proof.
  intros Hpat Hit Hrun Hpr Hsc.
  assert (Hp : forall s0, fst (paginate (VDict d) s0) = Ok false)
    by (intros s0; apply paginate_raises_false; exact Hpr).
  split; [exact Hp|].
  rewrite loop_execute_unfold by exact Hpat.
  assert (Hst : exists st,
            (if truthy stop_condition then
               match py_get stop_condition "type" (VStr "max_iterations") with
               | Ok t => match py_get stop_condition "value" (VInt max_iterations) with
                         | Ok v => Ok (t, v)
                         | Raise e => Raise e
                         end
               | Raise e => Raise e
               end
             else Ok (VStr "max_iterations", VInt max_iterations)) = Ok st /\
            (eq_str (fst st) "max_iterations" = false \/ py_number (snd st) = true)).
  { destruct (truthy stop_condition) eqn:T.
    - destruct Hsc as [Hf|(sd & -> & Ht)]; [congruence|]. cbn [py_get].
      eexists; split; [reflexivity|exact Ht].
    - eexists; split; [reflexivity|right; reflexivity]. }
  destruct Hst as (st & -> & Hst).
  destruct (Z.le_gt_cases max_iterations 0) as [Hle|Hgt].
  - replace (Z.to_nat max_iterations) with 0%nat by lia. cbn [Loop.loop_go ret].
    replace (Z.ltb 0 max_iterations) with false by (symmetry; apply Z.ltb_ge; lia).
    eexists _, _. split; [reflexivity|]. cbn. auto.
  - destruct (Z.to_nat max_iterations) as [|f] eqn:Ez; [lia|].
    destruct (loop_go_pagination_fails pattern d on_empty (fst st) (snd st)
                max_iterations delay_between f steps (mkLS (lworld s) (ltrace s) [] 0)
                Hit Hrun Hp Hst eq_refl Hgt) as (s' & E & I).
    rewrite E. eexists _, _. split; [reflexivity|]. cbn. rewrite I.
    replace (Z.ltb 0 max_iterations) with true by (symmetry; apply Z.ltb_lt; lia). auto.
Qed.

(** *** Further properties of the pattern loop *)

(** [_paginate] on a dict never raises: every driver fault is caught
    and reported as "no next page". A [True] answer always ends with the
    [wait_after] sleep and a [False] one never sleeps; a pagination type
    other than "click" and "scroll" is answered [False] without touching
    the page. *)
Theorem paginate_dict_total d (s : LState) :
  let wait_after := match dict_get d "wait_after" with Some v => v | None => VInt 2000 end in
  exists b s', paginate (VDict d) s = (Ok b, s') /\
    iteration s' = iteration s /\ collected s' = collected s /\
    ltrace s' = (if b then ltrace s ++ [LSleep wait_after] else ltrace s) /\
    (eq_str (match dict_get d "type" with Some v => v | None => VStr "click" end) "click"
       = false ->
     eq_str (match dict_get d "type" with Some v => v | None => VStr "click" end) "scroll"
       = false ->
     b = false /\ s' = s).
Proof.
  cbv zeta.
  unfold Loop.paginate, click_next, scroll_next, try_false, driver, lemit, bind, modify, lift, ret.
  cbn [py_get].
  destruct (eq_str _ "click") eqn:Ec.
  - lcrush; eexists _, _; (split; [reflexivity|]); lsimpl;
      repeat split; try reflexivity; discriminate.
  - destruct (eq_str _ "scroll") eqn:Es.
    + lcrush; eexists _, _; (split; [reflexivity|]); lsimpl;
        repeat split; try reflexivity; discriminate.
    + eexists _, _. split; [reflexivity|]. repeat split; reflexivity.
Qed.


Lemma paginate_scroll_ok d (s : LState) :
  dict_get d "type" = Some (VStr "scroll") ->
  py_div_ok (match dict_get d "wait_after" with Some v => v | None => VInt 2000 end) = Ok tt ->
  (forall w, exists w', scroll_to_bottom w = (Ok tt, w')) ->
  exists s', paginate (VDict d) s = (Ok true, s') /\ iteration s' = iteration s.
Proof.
  intros Ht Hw Hs. unfold Loop.paginate, click_next, scroll_next, try_false, driver, lemit, bind, modify, lift, ret.
  cbn [py_get]. rewrite Ht. cbn [eq_str String.eqb Ascii.eqb Bool.eqb].
  destruct (Hs (lworld s)) as [w' E]. rewrite E. lsimpl. rewrite Hw.
  eexists. split; reflexivity.
Qed.

Lemma loop_go_count pattern d on_empty v max_iterations delay_between steps :
  py_iter pattern = Ok steps ->
  (forall s0, exists acc s1, run_steps steps [] s0 = (Ok acc, s1) /\
                             (is_nil acc && eq_str on_empty "stop") = false) ->
  dict_get d "type" = Some (VStr "scroll") ->
  py_div_ok (match dict_get d "wait_after" with Some v => v | None => VInt 2000 end) = Ok tt ->
  (forall w, exists w', scroll_to_bottom w = (Ok tt, w')) ->
  forall fuel (s : LState), (Z.to_nat max_iterations - iteration s <= fuel)%nat ->
  exists s', loop_go pattern (VDict d) on_empty (VStr "max_iterations") (VInt v)
               max_iterations delay_between fuel s = (Ok tt, s') /\
    Z.of_nat (iteration s') =
      (if Z.ltb (Z.of_nat (iteration s)) max_iterations
       then Z.min max_iterations (Z.max (Z.of_nat (iteration s) + 1) v)
       else Z.of_nat (iteration s)).
Proof.
  intros Hit Hrun Ht Hw Hs.
  induction fuel as [|fuel IH]; intros s Hf.
  - replace (Z.ltb (Z.of_nat (iteration s)) max_iterations) with false
      by (symmetry; apply Z.ltb_ge; lia).
    exists s. split; reflexivity.
  - cbn [Loop.loop_go].
    unfold get_state at 1, bind at 1. cbv beta iota.
    destruct (Z.ltb (Z.of_nat (iteration s)) max_iterations) eqn:Hlt;
      [|exists s; split; reflexivity].
    apply Z.ltb_lt in Hlt.
    unfold set_iteration, modify, bind at 1. cbv beta iota.
    unfold lift at 1, bind at 1. rewrite Hit. cbv beta iota.
    rewrite ExecFacts.bind_unfold.
    destruct (Hrun (mkLS (lworld s) (ltrace s) (collected s) (S (iteration s))))
      as (acc & s2 & E2 & Hne).
    pose proof (run_steps_frame steps [] (mkLS (lworld s) (ltrace s) (collected s)
                                               (S (iteration s)))) as [I2 _].
    rewrite E2 in I2 |- *. lsimpl. rewrite Hne.
    unfold extend, modify, bind at 1. cbv beta iota.
    cbn [eq_str String.eqb Ascii.eqb Bool.eqb].
    unfold lift at 1, bind at 1. cbn [py_ge]. cbv beta iota.
    destruct (Z.geb (Z.of_nat (S (iteration s))) v) eqn:Hge.
    + unfold ret. eexists. split; [reflexivity|]. lsimpl. rewrite I2.
      apply Z.geb_le in Hge. lia.
    + rewrite Z.geb_leb in Hge. apply Z.leb_gt in Hge.
      cbn [andb truthy].
      destruct d as [|kv d']; [discriminate|].
      unfold lemit at 1, modify, bind at 1. cbv beta iota.
      rewrite ExecFacts.bind_unfold.
      destruct (paginate_scroll_ok (kv :: d')
                  (mkLS (lworld s2) (ltrace s2 ++ [LPaginate (VDict (kv :: d'))])
                        (collected s2 ++ acc) (iteration s2)) Ht Hw Hs)
        as (s3 & E3 & I3).
      lsimpl. rewrite E3. cbv beta iota. cbn [negb]. cbv beta iota.
      rewrite ExecFacts.bind_unfold.
      destruct (Z.ltb 0 delay_between);
        [unfold Loop.lemit at 1, modify at 1|unfold ret at 1]; cbv beta iota;
        match goal with
        | |- context [loop_go _ _ _ _ _ _ _ fuel ?st] =>
            destruct (IH st) as (s' & E & I); [lsimpl; lia|]
        end;
        exists s'; (split; [exact E|]); rewrite I; lsimpl; rewrite I3, I2;
        (destruct (Z.ltb (Z.of_nat (S (iteration s))) max_iterations) eqn:Hlt2;
         [apply Z.ltb_lt in Hlt2|apply Z.ltb_ge in Hlt2]; lia).
Qed.

(** With a "max_iterations" stop condition of value [v], a scroll
    pagination that always succeeds and a pattern that always yields data
    (or [on_empty] other than "stop"), the loop runs
    [min(max_iterations, max(1, v))] iterations (none when
    [max_iterations <= 0]) and succeeds. *)
Theorem loop_max_iterations_count pattern d sd on_empty v max_iterations
    delay_between steps (s : LState) :
  truthy pattern = true -> py_iter pattern = Ok steps ->
  (forall s0, exists acc s1, run_steps steps [] s0 = (Ok acc, s1) /\
                             (is_nil acc && eq_str on_empty "stop") = false) ->
  dict_get d "type" = Some (VStr "scroll") ->
  py_div_ok (match dict_get d "wait_after" with Some v => v | None => VInt 2000 end) = Ok tt ->
  (forall w, exists w', scroll_to_bottom w = (Ok tt, w')) ->
  dict_get sd "type" = Some (VStr "max_iterations") -> dict_get sd "value" = Some (VInt v) ->
  exists r s',
    loop_execute pattern (VDict d) (VDict sd) on_empty max_iterations delay_between s =
      (Ok r, s') /\ success r = true /\
    dict_get (metadata r) "iterations" =
      Some (VInt (if Z.ltb 0 max_iterations then Z.min max_iterations (Z.max 1 v) else 0)).
Proof.
  intros Hpat Hit Hrun Ht Hw Hs Hst Hsv. rewrite loop_execute_unfold by exact Hpat.
  destruct sd as [|kv sd']; [discriminate|]. cbn [truthy py_get].
  rewrite Hst, Hsv. cbn [fst snd].
  destruct (loop_go_count pattern d on_empty v max_iterations delay_between steps
              Hit Hrun Ht Hw Hs (Z.to_nat max_iterations) (mkLS (lworld s) (ltrace s) [] 0))
    as (s' & E & I); [lsimpl; lia|].
  rewrite E. eexists _, _. split; [reflexivity|]. split; [reflexivity|].
  cbn. rewrite I. lsimpl. reflexivity.
Qed.

(** A pattern whose first iteration collects nothing, with
    [on_empty = "stop"], ends the loop at once: the action succeeds with
    empty data after one iteration. *)
Theorem loop_stops_on_empty pattern pagination stop_condition max_iterations
    delay_between steps (s : LState) :
  truthy pattern = true -> py_iter pattern = Ok steps ->
  (forall s0, exists s1, run_steps steps [] s0 = (Ok [], s1)) ->
  (truthy stop_condition = false \/ exists sd, stop_condition = VDict sd) ->
  Z.lt 0 max_iterations ->
  exists r s',
    loop_execute pattern pagination stop_condition (VStr "stop") max_iterations
      delay_between s = (Ok r, s') /\
    success r = true /\ data r = VList [] /\
    dict_get (metadata r) "iterations" = Some (VInt 1).
Proof.
  intros Hpat Hit Hrun Hsc Hm. rewrite loop_execute_unfold by exact Hpat.
  assert (Hst : exists st,
            (if truthy stop_condition then
               match py_get stop_condition "type" (VStr "max_iterations") with
               | Ok t => match py_get stop_condition "value" (VInt max_iterations) with
                         | Ok v => Ok (t, v)
                         | Raise e => Raise e
                         end
               | Raise e => Raise e
               end
             else Ok (VStr "max_iterations", VInt max_iterations)) = Ok st).
  { destruct (truthy stop_condition) eqn:T; [|eauto].
    destruct Hsc as [Hf|[d ->]]; [congruence|]. cbn. eauto. }
  destruct Hst as [st ->].
  destruct (Z.to_nat max_iterations) as [|f] eqn:Ez; [lia|].
  cbn [Loop.loop_go].
  unfold get_state at 1, bind at 1. cbv beta iota. lsimpl.
  replace (Z.ltb (Z.of_nat 0) max_iterations) with true by (symmetry; apply Z.ltb_lt; lia).
  unfold set_iteration, modify, bind at 1. cbv beta iota.
  unfold lift at 1, bind at 1. rewrite Hit. cbv beta iota.
  rewrite ExecFacts.bind_unfold.
  lsimpl.
  match goal with
  | |- context [run_steps steps [] ?st] =>
      destruct (Hrun st) as (s1 & E1);
      pose proof (run_steps_frame steps [] st) as [I1 C1];
      rewrite E1 in I1, C1 |- *
  end. lsimpl. cbn [is_nil eq_str String.eqb Ascii.eqb Bool.eqb andb].
  unfold ret. eexists _, _. split; [reflexivity|]. cbn. rewrite I1, C1. auto.
Qed.

(** For a truthy pattern and a stop condition that is absent or a dict,
    [loop_execute] never raises: a fault inside the loop becomes a failed
    result with an error message, and the result data is always the list
    collected so far (partial data on failure). A falsy pattern is
    refused without touching the page. *)
Theorem loop_execute_total pattern pagination stop_condition on_empty
    max_iterations delay_between (s : LState) :
  (truthy stop_condition = false \/ exists sd, stop_condition = VDict sd) ->
  exists r s',
    loop_execute pattern pagination stop_condition on_empty max_iterations
      delay_between s = (Ok r, s') /\
    (truthy pattern = false -> r = fail_result "loop" "Pattern is required" /\ s' = s) /\
    (truthy pattern = true -> data r = VList (collected s') /\
                              (success r = false -> exists msg, error r = Some msg)).
Proof.
  intros Hsc. destruct (truthy pattern) eqn:Hpat.
  - rewrite loop_execute_unfold by exact Hpat.
    assert (Hst : exists st,
              (if truthy stop_condition then
                 match py_get stop_condition "type" (VStr "max_iterations") with
                 | Ok t => match py_get stop_condition "value" (VInt max_iterations) with
                           | Ok v => Ok (t, v)
                           | Raise e => Raise e
                           end
                 | Raise e => Raise e
                 end
               else Ok (VStr "max_iterations", VInt max_iterations)) = Ok st).
    { destruct (truthy stop_condition) eqn:T; [|eauto].
      destruct Hsc as [Hf|[d ->]]; [congruence|]. cbn. eauto. }
    destruct Hst as [st ->].
    destruct (loop_go _ _ _ _ _ _ _ _ _) as [[u|e] s'];
      eexists _, _; (split; [reflexivity|]); (split; [discriminate|]);
      intros _; cbn; (split; [reflexivity|]); [discriminate|eauto].
  - unfold Loop.loop_execute. rewrite Hpat. cbn [negb]. unfold ret.
    eexists _, _. split; [reflexivity|]. split; [auto|discriminate].
Qed.

End G.

(** ** The pattern loop on the demo world *)

Local Abbreviation demo_loop :=
  (Loop.loop_execute nat Demo.registry Demo.run Demo.loop_extract Demo.loop_click
     Demo.query_selector Demo.get_attribute Demo.click_element Demo.scroll_to_bottom
     Demo.float_ge).

Lemma loop_iterations_without_pagination_witness :
  exists r s',
    demo_loop Demo.job_pattern VNone VNone (VStr "stop") 5 1000 Demo.loop_state = (Ok r, s') /\
    dict_get (metadata r) "iterations" = Some (VInt (if Z.ltb 0 5 then 1 else 0)) /\
    (Z.le 5 0 -> success r = true /\ data r = VList []).
Proof.
  apply (loop_iterations_without_pagination nat Demo.registry Demo.run Demo.loop_extract
           Demo.loop_click Demo.query_selector Demo.get_attribute Demo.click_element
           Demo.scroll_to_bottom Demo.float_ge Demo.job_pattern VNone VNone (VStr "stop")
           5 1000 Demo.loop_state).
  - reflexivity.
  - reflexivity.
  - left. reflexivity.
Defined.

(** With [max_iterations = 0] the [while] body never runs: no iteration. *)
Lemma loop_zero_iterations :
  match fst (demo_loop Demo.job_pattern VNone VNone (VStr "stop") 0 1000 Demo.loop_state) with
  | Ok r => success r = true /\ dict_get (metadata r) "iterations" = Some (VInt 0)
  | Raise _ => False
  end.
Proof. vm_compute. split; reflexivity. Qed.

Lemma pagination_failure_ends_loop_witness :
  (forall s0, fst (Loop.paginate nat Demo.query_selector Demo.get_attribute
                     Demo.click_element Demo.scroll_to_bottom Demo.next_button s0) = Ok false) /\
  exists r s',
    demo_loop Demo.job_pattern Demo.next_button
      (VDict [("type", VStr "max_iterations"); ("value", VInt 3)])
      (VStr "stop") 5 1000 Demo.loop_state = (Ok r, s') /\
    success r = true /\ data r = VList (collected s') /\
    dict_get (metadata r) "iterations" = Some (VInt (if Z.ltb 0 5 then 1 else 0)).
Proof.
  apply (pagination_failure_ends_loop nat Demo.registry Demo.run Demo.loop_extract
           Demo.loop_click Demo.query_selector Demo.get_attribute Demo.click_element
           Demo.scroll_to_bottom Demo.float_ge Demo.job_pattern
           [("type", VStr "click"); ("selector", VStr "a.next")]
           (VDict [("type", VStr "max_iterations"); ("value", VInt 3)]) (VStr "stop") 5 1000
           [VDict [("action", VStr "extract"); ("selector", VStr ".job")]] Demo.loop_state).
  - reflexivity.
  - reflexivity.
  - intros s0. eexists; eexists; reflexivity.
  - intros s0. exists Demo.closed_page. eexists. reflexivity.
  - right. eexists; split; [reflexivity|right; reflexivity].
Defined.

(** A [stop_condition] given as a string (not a dict) makes
    [stop_condition.get] raise before the [try:]: the action raises
    [AttributeError] to its caller instead of returning a result. *)
Lemma loop_stop_condition_string_raises :
  fst (demo_loop (VList [VDict [("action", VStr "wait")]]) VNone (VStr "no_next_button")
         (VStr "stop") 100 1000 Demo.loop_state) = Raise AttributeError.
Proof. vm_compute. reflexivity. Qed.



Lemma loop_max_iterations_count_witness :
  exists r s',
    Loop.loop_execute nat Demo.registry Demo.run Demo.loop_extract Demo.loop_click
      Demo.query_selector Demo.get_attribute Demo.click_element Demo.scroll_ok Demo.float_ge
      Demo.job_pattern (VDict [("type", VStr "scroll"); ("wait_after", VInt 500)])
      (VDict [("type", VStr "max_iterations"); ("value", VInt 3)]) (VStr "stop") 10 1000
      Demo.loop_state = (Ok r, s') /\ success r = true /\
    dict_get (metadata r) "iterations" =
      Some (VInt (if Z.ltb 0 10 then Z.min 10 (Z.max 1 3) else 0)).
Proof.
  apply (loop_max_iterations_count nat Demo.registry Demo.run Demo.loop_extract
           Demo.loop_click Demo.query_selector Demo.get_attribute Demo.click_element
           Demo.scroll_ok Demo.float_ge Demo.job_pattern
           [("type", VStr "scroll"); ("wait_after", VInt 500)]
           [("type", VStr "max_iterations"); ("value", VInt 3)] (VStr "stop") 3 10 1000
           [VDict [("action", VStr "extract"); ("selector", VStr ".job")]] Demo.loop_state).
  - reflexivity.
  - reflexivity.
  - intros s0. eexists; eexists; split; reflexivity.
  - reflexivity.
  - reflexivity.
  - intros w. eexists. reflexivity.
  - reflexivity.
  - reflexivity.
Defined.

Lemma loop_stops_on_empty_witness :
  exists r s',
    demo_loop (VList [VDict [("selector", VStr ".job")]]) Demo.next_button VNone
      (VStr "stop") 5 1000 Demo.loop_state = (Ok r, s') /\
    success r = true /\ data r = VList [] /\
    dict_get (metadata r) "iterations" = Some (VInt 1).
Proof.
  apply (loop_stops_on_empty nat Demo.registry Demo.run Demo.loop_extract
           Demo.loop_click Demo.query_selector Demo.get_attribute Demo.click_element
           Demo.scroll_to_bottom Demo.float_ge (VList [VDict [("selector", VStr ".job")]])
           Demo.next_button VNone 5 1000 [VDict [("selector", VStr ".job")]]
           Demo.loop_state).
  - reflexivity.
  - reflexivity.
  - intros s0. eexists. reflexivity.
  - left. reflexivity.
  - reflexivity.
Defined.

Lemma loop_execute_total_witness :
  exists r s',
    demo_loop Demo.job_pattern Demo.next_button VNone (VStr "stop") 5 1000 Demo.loop_state =
      (Ok r, s') /\
    (truthy Demo.job_pattern = false ->
     r = fail_result "loop" "Pattern is required" /\ s' = Demo.loop_state) /\
    (truthy Demo.job_pattern = true -> data r = VList (collected s') /\
                                       (success r = false -> exists msg, error r = Some msg)).
Proof.
  apply (loop_execute_total nat Demo.registry Demo.run Demo.loop_extract
           Demo.loop_click Demo.query_selector Demo.get_attribute Demo.click_element
           Demo.scroll_to_bottom Demo.float_ge Demo.job_pattern Demo.next_button VNone
           (VStr "stop") 5 1000 Demo.loop_state).
  left. reflexivity.
Defined.

End LoopFacts.

(** ** Properties of the replayer *)

Module ReplayFacts.

Import Replay.

Definition is_dict (v : value) : Prop := exists d, v = VDict d.

Definition count_ok (l : list value) : nat := length (filter result_ok l).

Lemma count_ok_cons r l :
  count_ok (r :: l) = (if result_ok r then 1 else 0) + count_ok l.
Proof. unfold count_ok. cbn. destruct (result_ok r); reflexivity. Qed.

Lemma count_ok_le l : count_ok l <= length l.
Proof.
  induction l as [|r l IH]; [reflexivity|].
  rewrite count_ok_cons. cbn [length]. destruct (result_ok r); cbn; lia.
Qed.

Lemma count_ok_full l : count_ok l = length l -> Forall (fun r => result_ok r = true) l.
Proof.
  induction l as [|r l IH]; intros H; [constructor|].
  rewrite count_ok_cons in H. cbn [length] in H.
  pose proof (count_ok_le l).
  destruct (result_ok r) eqn:Ho; cbn in H; [constructor; auto|lia].
Qed.

Lemma count_ok_all l : Forall (fun r => result_ok r = true) l -> count_ok l = length l.
Proof.
  induction 1 as [|r l Hr _ IH]; [reflexivity|].
  rewrite count_ok_cons, Hr. cbn. lia.
Qed.

Section H.
Variable R : Type.
Variable replay_registry : list string.
Variable page_call : string -> list value -> R -> exc unit * R.
Variable run_registered : string -> dict -> R -> exc ActionResult * R.
Local Abbreviation RState := (ReplayState R).
Local Abbreviation replay_loop := (Replay.replay_loop R replay_registry page_call run_registered).
Local Abbreviation replay := (Replay.replay R replay_registry page_call run_registered).

Lemma replay_loop_spec soe sp n acts : forall i results sc (s : RState),
  Forall is_dict acts ->
  exists res s',
    replay_loop soe sp n acts i results sc s = (Ok (results ++ res, sc + count_ok res), s') /\
    length res <= length acts /\
    (soe = false -> length res = length acts) /\
    (soe = true ->
       (Forall (fun r => result_ok r = true) res /\ length res = length acts) \/
       exists pre bad, res = pre ++ [bad] /\ Forall (fun r => result_ok r = true) pre /\
                       result_ok bad = false).
Proof.
  induction acts as [|a acts IH]; intros i results sc s Hall.
  - exists [], s. rewrite app_nil_r, Nat.add_0_r. split; [reflexivity|].
    cbn. split; [lia|split; [auto|intros; left; auto]].
  - inversion Hall as [|? ? [da ->] Hall']; subst.
    cbn [Replay.replay_loop]. unfold bind, lift, remit, modify, ret. cbn [py_get]. cbv zeta.
    destruct (Replay.execute_action _ _ _ _ _ _ _) as [[result|e] s1];
      [destruct (result_ok result) eqn:Ho|];
      [| destruct soe | destruct soe];
      try (exists [result]; eexists;
           split; [rewrite count_ok_cons, Ho; cbn; rewrite Nat.add_0_r; reflexivity|];
           cbn; split; [lia|split; [discriminate|intros _; right; exists [], result; auto]]);
      try (exists [VDict [("success", VBool false); ("error", VStr (Loop.exn_str e))]]; eexists;
           split; [unfold count_ok; cbn; rewrite Nat.add_0_r; reflexivity|];
           cbn; split; [lia|split; [discriminate|intros _; right; eexists [], _; split; [reflexivity|auto]]]);
      destruct (sp && Nat.ltb i (n - 1)); cbv beta iota;
      lazymatch goal with
      | |- context [Replay.replay_loop _ _ _ _ _ _ _ acts (S i) ?r ?c ?st] =>
          destruct (IH (S i) r c st Hall') as (res & s' & E & H1 & H2 & H3); rewrite E
      end.
    all: first
      [ solve [exists (result :: res), s'; split;
          [ assert (Hc : S sc + count_ok res = sc + (1 + count_ok res)) by lia;
            rewrite count_ok_cons, Ho, Hc, <- app_assoc; reflexivity
          | cbn [length]; split; [lia|split; [intros Hs; rewrite (H2 Hs); reflexivity|]];
            intros Hs; destruct (H3 Hs) as [[Hf Hl]|(pre & bad & -> & Hp & Hb)];
            [ left; split; [constructor; auto|rewrite Hl; reflexivity]
            | right; exists (result :: pre), bad;
              split; [reflexivity|split; [constructor; auto|exact Hb]] ] ] ]
      | solve [exists (result :: res), s'; split;
          [ rewrite count_ok_cons, Ho, <- app_assoc; reflexivity
          | cbn [length]; split; [lia|split; [intros _; rewrite (H2 eq_refl); reflexivity|discriminate]] ] ]
      | solve [exists (VDict [("success", VBool false); ("error", VStr (Loop.exn_str e))] :: res), s';
          split;
          [ rewrite <- app_assoc; reflexivity
          | cbn [length]; split; [lia|split; [intros _; rewrite (H2 eq_refl); reflexivity|discriminate]] ] ] ].
Qed.
(** C6: replaying a session whose [actions] is a non-empty list of dicts
    reports [success] exactly when the number of ok results equals the
    number of recorded actions, i.e. when every action was replayed and
    succeeded. Without [stop_on_error] every action is replayed; with it,
    either all succeed, or the results are an ok prefix followed by the
    first failure, and [success] is false. *)
Theorem replay_success_iff_all_succeeded sid d acts soe sp (s : RState) :
  dict_get d "actions" = Some (VList acts) -> acts <> [] -> Forall is_dict acts ->
  exists results s',
    replay sid (Some (VDict d)) sp soe s =
      (Ok (ReplayDone (Nat.eqb (count_ok results) (length acts)) sid (length acts)
                      (count_ok results) results), s') /\
    (Nat.eqb (count_ok results) (length acts) = true <->
       length results = length acts /\ Forall (fun r => result_ok r = true) results) /\
    (soe = false -> length results = length acts) /\
    (soe = true ->
       (Forall (fun r => result_ok r = true) results /\ length results = length acts) \/
       exists pre bad,
         results = pre ++ [bad] /\ Forall (fun r => result_ok r = true) pre /\
         result_ok bad = false /\ length results <= length acts /\
         Nat.eqb (count_ok results) (length acts) = false).
Proof.
  intros Hd Hne Hall.
  destruct (replay_loop_spec soe sp (length acts) acts 0 [] 0 s Hall)
    as (res & s' & E & H1 & H2 & H3).
  assert (Hiff : Nat.eqb (count_ok res) (length acts) = true <->
                 length res = length acts /\ Forall (fun r => result_ok r = true) res).
  { rewrite Nat.eqb_eq. pose proof (count_ok_le res). split.
    - intros Hc. assert (length res = length acts) by lia.
      split; [assumption|apply count_ok_full; lia].
    - intros [Hl Hf]. rewrite count_ok_all by exact Hf. exact Hl. }
  exists res, s'. split.
  - unfold Replay.replay. destruct d as [|kv d]; [discriminate|].
    cbn [truthy negb]. unfold bind, lift, ret. cbn [py_get]. rewrite Hd.
    destruct acts as [|a acts]; [congruence|]. cbn [truthy negb Loop.py_iter].
    rewrite E. reflexivity.
  - split; [exact Hiff|split; [exact H2|]].
    intros Hs. destruct (H3 Hs) as [Hok|(pre & bad & Hr & Hp & Hb)]; [left; exact Hok|right].
    exists pre, bad. split; [exact Hr|split; [exact Hp|split; [exact Hb|split; [exact H1|]]]].
    destruct (Nat.eqb (count_ok res) (length acts)) eqn:Heq; [|reflexivity].
    destruct (proj1 Hiff eq_refl) as [_ Hf]. rewrite Hr in Hf.
    apply Forall_app in Hf. destruct Hf as [_ Hf]. inversion Hf. congruence.
Qed.

(** *** Further properties of the replayer *)

Ltac rsimpl := cbn [rworld rtrace fst snd] in *.
Local Abbreviation execute_action :=
  (Replay.execute_action R replay_registry page_call run_registered).

Lemma guarded_status (body : Replay.RM R unit) (s : RState) :
  exists r s', Replay.guarded R body s = (Ok (VDict r), s') /\
    exists b, dict_get r "success" = Some (VBool b).
Proof.
  unfold Replay.guarded. destruct (body s) as [[u|e] s'];
    eexists _, _; (split; [reflexivity|]); eexists; reflexivity.
Qed.

(** [_execute_action] with a params dict and a hashable action name
    never raises, provided the registered actions return a result: its
    answer is always a dict with a boolean "success". An "extract" is
    skipped without touching the page. *)
Theorem execute_action_status name d (s : RState) :
  (match name with VList _ | VDict _ => False | _ => True end) ->
  (forall n p w, exists r w', run_registered n p w = (Ok r, w')) ->
  exists r s', execute_action name (VDict d) s = (Ok (VDict r), s') /\
    (exists b, dict_get r "success" = Some (VBool b)) /\
    (Loop.eq_str name "extract" = true ->
       s' = s /\ r = [("success", VBool true); ("skipped", VBool true)]).
Proof.
  intros Hname Hrun. unfold Replay.execute_action.
  destruct (Loop.eq_str name "navigate") eqn:E1;
    [destruct (guarded_status (let* url := lift (py_get (VDict d) "url" VNone) in
                               Replay.call R page_call "goto" [url]) s)
       as (r & s' & E & Hb);
     exists r, s'; split; [exact E|split; [exact Hb|]];
     destruct name; try discriminate; cbn in E1 |- *; apply String.eqb_eq in E1; subst;
     discriminate|].
  destruct (Loop.eq_str name "click") eqn:E2;
    [match goal with |- context [Replay.guarded R ?b s] =>
       destruct (guarded_status b s) as (r & s' & E & Hb) end;
     exists r, s'; split; [exact E|split; [exact Hb|]];
     destruct name; try discriminate; cbn in E2 |- *; apply String.eqb_eq in E2; subst;
     discriminate|].
  destruct (Loop.eq_str name "type_text") eqn:E3;
    [match goal with |- context [Replay.guarded R ?b s] =>
       destruct (guarded_status b s) as (r & s' & E & Hb) end;
     exists r, s'; split; [exact E|split; [exact Hb|]];
     destruct name; try discriminate; cbn in E3 |- *; apply String.eqb_eq in E3; subst;
     discriminate|].
  destruct (Loop.eq_str name "wait") eqn:E4;
    [match goal with |- context [Replay.guarded R ?b s] =>
       destruct (guarded_status b s) as (r & s' & E & Hb) end;
     exists r, s'; split; [exact E|split; [exact Hb|]];
     destruct name; try discriminate; cbn in E4 |- *; apply String.eqb_eq in E4; subst;
     discriminate|].
  destruct (Loop.eq_str name "extract") eqn:E5.
  - unfold ret. eexists _, _. split; [reflexivity|]. split; [eexists; reflexivity|auto].
  - unfold bind, lift, ret.
    destruct name as [| | | |n| |]; try contradiction;
      try (eexists _, _; split; [reflexivity|split; [eexists; reflexivity|discriminate]]).
    destruct (existsb (String.eqb n) replay_registry).
    + destruct (Hrun n d (rworld s)) as (r & w' & Er). rewrite Er.
      eexists _, _. split; [reflexivity|split; [eexists; reflexivity|discriminate]].
    + eexists _, _. split; [reflexivity|split; [eexists; reflexivity|discriminate]].
Qed.

Lemma execute_action_rtrace name params (s : RState) :
  rtrace (snd (execute_action name params s)) = rtrace s.
Proof.
  unfold Replay.execute_action, Replay.guarded, Replay.call, bind, lift, ret, throw.
  repeat (split_match; rsimpl); reflexivity.
Qed.

(** [action_log.get("action")] of a recorded action dict. *)
Definition action_name_of (a : value) : value :=
  match py_get a "action" VNone with Ok v => v | Raise _ => VNone end.

(** The console lines and waits of a replay that runs every action: the
    [[i/n] name] line of each action, then a wait when the speed is
    positive and the action is not the last one. *)
Fixpoint replay_events (sp : bool) (n i : nat) (names : list value) : list revent :=
  match names with
  | [] => []
  | a :: rest =>
      RPrintAction i a :: (if sp && Nat.ltb i (n - 1) then [RSleep] else []) ++
      replay_events sp n (S i) rest
  end.

Definition is_sleep (e : revent) : bool := match e with RSleep => true | _ => false end.

Lemma replay_events_sleeps sp n names : forall i,
  i + length names = n ->
  length (filter is_sleep (replay_events sp n i names)) =
    if sp then length names - 1 else 0.
Proof.
  induction names as [|a names IH]; intros i Hn; [destruct sp; reflexivity|].
  cbn [replay_events filter is_sleep]. rewrite filter_app.
  rewrite length_app, (IH (S i)) by (cbn in Hn; lia).
  cbn [length] in Hn |- *.
  destruct sp; cbn [andb]; [|reflexivity].
  destruct (Nat.ltb i (n - 1)) eqn:Hl.
  - apply Nat.ltb_lt in Hl. destruct names; cbn in *; lia.
  - apply Nat.ltb_ge in Hl. destruct names; cbn in *; lia.
Qed.

Lemma replay_loop_trace sp n acts : forall i results sc (s : RState),
  Forall is_dict acts ->
  rtrace (snd (replay_loop false sp n acts i results sc s)) =
    rtrace s ++ replay_events sp n i (map action_name_of acts).
Proof.
  induction acts as [|a acts IH]; intros i results sc s Hall.
  - cbn. rewrite app_nil_r. reflexivity.
  - inversion Hall as [|? ? [da ->] Hall']; subst.
    cbn [Replay.replay_loop map replay_events]. unfold bind at 1 2 3, lift, remit, modify.
    cbn [py_get]. cbv zeta. cbv beta iota. rsimpl.
    pose proof (execute_action_rtrace
                  (match dict_get da "action" with Some v => v | None => VNone end)
                  (match dict_get da "params" with Some v => v | None => VDict [] end)
                  (mkRS (rworld s) (rtrace s ++ [RPrintAction i
                     (match dict_get da "action" with Some v => v | None => VNone end)])))
      as Ht.
    destruct (execute_action _ _ _) as [[result|e] s1]; rsimpl;
      [destruct (result_ok result)|]; cbv beta iota;
      destruct (sp && Nat.ltb i (n - 1)); cbv beta iota;
      unfold Replay.remit, modify, ret, bind; cbv beta iota; rsimpl;
      rewrite IH by exact Hall'; rsimpl; rewrite Ht; unfold action_name_of; cbn [py_get];
      rewrite <- !app_assoc; reflexivity.
Qed.

(** Without [stop_on_error], replaying a session whose actions are dicts
    prints every action in order and waits between consecutive actions
    when the speed is positive, never after the last one: [n - 1] waits
    for [n] actions, none when the speed is not positive. *)
Theorem replay_trace sid d acts sp (s : RState) :
  dict_get d "actions" = Some (VList acts) -> acts <> [] -> Forall is_dict acts ->
  exists res s', replay sid (Some (VDict d)) sp false s = (Ok res, s') /\
    rtrace s' = rtrace s ++ replay_events sp (length acts) 0 (map action_name_of acts) /\
    length (filter is_sleep (rtrace s')) =
      length (filter is_sleep (rtrace s)) + (if sp then length acts - 1 else 0).
Proof.
  intros Hd Hne Hall.
  pose proof (replay_loop_trace sp (length acts) acts 0 [] 0 s Hall) as Ht.
  unfold Replay.replay. destruct d as [|kv d]; [discriminate|].
  cbn [truthy negb]. unfold bind, lift, ret. cbn [py_get]. rewrite Hd.
  destruct acts as [|a acts']; [congruence|]. cbn [truthy negb Loop.py_iter].
  destruct (replay_loop false sp _ _ 0 [] 0 s) as [[res|e] s'] eqn:E; cbn [snd] in Ht.
  - eexists _, _. split; [reflexivity|]. split; [exact Ht|].
    rewrite Ht, filter_app, length_app, replay_events_sleeps
      by (rewrite length_map; reflexivity).
    rewrite length_map. reflexivity.
  - exfalso. destruct (replay_loop_spec false sp (length (a :: acts')) (a :: acts') 0 [] 0 s Hall)
      as (r & s2 & E2 & _). congruence.
Qed.

Lemma replay_loop_non_dict soe sp n pre bad post : forall i results sc (s0 : RState),
  Forall is_dict pre -> (forall d', bad <> VDict d') ->
  let (o, s') := replay_loop soe sp n (pre ++ bad :: post) i results sc s0 in
  (o = Raise AttributeError /\
   rtrace s' = rtrace s0 ++ replay_events sp n i (map action_name_of pre)) \/
  (soe = true /\ exists res,
     o = Ok (results ++ res, sc + count_ok res) /\ length res <= length pre /\
     exists ok b, res = ok ++ [b] /\ Forall (fun r => result_ok r = true) ok /\
                  result_ok b = false).
Proof.
  induction pre as [|a pre IH]; intros i results sc s0 Hall Hbad.
  - cbn [app Replay.replay_loop map replay_events]. unfold bind, lift.
    destruct bad; try (left; cbn; rewrite app_nil_r; split; reflexivity).
    exfalso. eapply Hbad. reflexivity.
  - apply Forall_cons_iff in Hall. destruct Hall as [[da ->] Hall'].
    cbn [app Replay.replay_loop map replay_events]. unfold bind at 1 2 3, lift, remit, modify.
    cbn [py_get]. cbv zeta. cbv beta iota.
    match goal with
    | |- context [execute_action ?an ?pa ?st] =>
        pose proof (execute_action_rtrace an pa st) as Ht;
        destruct (execute_action an pa st) as [[result|e] s1]
    end; rsimpl;
      [destruct (result_ok result) eqn:Ho|];
      [| destruct soe | destruct soe].
    (* the action succeeded, or failed without [stop_on_error]: go on *)
    1,3,5: (destruct (sp && Nat.ltb i (n - 1)); (cbv beta iota;
      unfold Replay.remit, modify, ret, bind; cbv beta iota; rsimpl;
      match goal with
      | |- context [Replay.replay_loop _ _ _ _ _ _ _ _ (S ?j) ?r ?c ?st] =>
          pose proof (IH (S j) r c st Hall' Hbad) as IHj;
          destruct (Replay.replay_loop _ _ _ _ _ _ _ _ (S j) r c st) as [o s'];
          cbv beta iota; destruct IHj as [[H1 H2]|(Hs & res & H1 & H2 & ok & b & Hr & Hok & Hb)]
      end;
      [ left; split; [exact H1|]; rewrite H2; rsimpl; rewrite Ht;
        unfold action_name_of; cbn [py_get]; rewrite <- !app_assoc; reflexivity
      | right; split; [exact Hs|] ])).
    (* the failing action stops the replay *)
    all: lazymatch goal with |- exists _, _ => idtac | _ => (cbv beta iota; right; split; [reflexivity|];
      first [ exists [result]
            | exists [VDict [("success", VBool false); ("error", VStr (Loop.exn_str e))]] ];
      split; [unfold count_ok; cbn [filter]; rewrite ?Ho; cbn; rewrite Nat.add_0_r;
              reflexivity|];
      split; [cbn; lia|]; eexists [], _; split; [reflexivity|];
      split; [constructor|solve [auto | reflexivity]]) end.
    (* a later entry stops it *)
    all: try (exfalso; discriminate Hs).
    all: match goal with H1 : _ = Ok ((_ ++ [?r]) ++ ?res, _) |- _ => exists (r :: res) end;
      rewrite H1; (split; [rewrite <- app_assoc, count_ok_cons, ?Ho; cbn; f_equal; f_equal; lia|]);
      (split; [cbn [length] in *; lia|]);
      subst res; exists (result :: ok), b;
      (split; [reflexivity|split; [constructor; [exact Ho|exact Hok]|exact Hb]]).
Qed.

(** Replaying a session in which an action entry [bad] is not a dict,
    after dict entries [pre]: the [action_log.get] calls are outside the
    [try], so when replay reaches [bad] it raises [AttributeError] to its
    caller, after replaying the entries of [pre] in order, with their
    console lines and waits. Without [stop_on_error] replay always reaches
    [bad]; with it, replay either reaches [bad] in the same way or returns
    normally, with [success] false, after the first failing entry of [pre]
    (its results are an ok prefix of [pre] followed by that failure). *)
Theorem replay_non_dict_entry_raises sid d pre bad post sp soe (s : RState) :
  dict_get d "actions" = Some (VList (pre ++ bad :: post)) ->
  Forall is_dict pre -> (forall d', bad <> VDict d') ->
  let n := length (pre ++ bad :: post) in
  let out := replay sid (Some (VDict d)) sp soe s in
  (fst out = Raise AttributeError /\
   rtrace (snd out) = rtrace s ++ replay_events sp n 0 (map action_name_of pre)) \/
  (soe = true /\ exists results,
     fst out = Ok (ReplayDone false sid n (count_ok results) results) /\
     length results <= length pre /\
     exists ok b, results = ok ++ [b] /\ Forall (fun r => result_ok r = true) ok /\
                  result_ok b = false).
Proof.
  intros Hd Hall Hbad. cbv zeta.
  pose proof (replay_loop_non_dict soe sp (length (pre ++ bad :: post)) pre bad post 0 [] 0 s
                Hall Hbad) as Hl.
  unfold Replay.replay. destruct d as [|kv d]; [discriminate|].
  cbn [truthy negb]. unfold bind, lift, ret. cbn [py_get]. rewrite Hd.
  destruct (pre ++ bad :: post) as [|a acts'] eqn:Ea; [destruct pre; discriminate|].
  cbn [truthy negb Loop.py_iter].
  destruct (replay_loop soe sp (length (a :: acts')) (a :: acts') 0 [] 0 s) as [o s'].
  destruct Hl as [[H1 H2]|(Hs & res & H1 & H2 & Hb)]; subst o; cbn [fst snd].
  - left. split; [reflexivity|exact H2].
  - right. split; [exact Hs|]. exists res. cbn [app fst snd].
    split; [|split; [exact H2|exact Hb]].
    replace (Nat.eqb (0 + count_ok res) (length (a :: acts'))) with false; [reflexivity|].
    symmetry. apply Nat.eqb_neq. pose proof (count_ok_le res).
    rewrite <- Ea, length_app. cbn [length]. lia.
Qed.

End H.

(** ** The replayer on the demo world *)

Lemma replay_success_iff_all_succeeded_witness :
  exists results s',
    Replay.replay nat Demo.registry Demo.page_call Demo.run "session_0a1b2c3d"
      (Some (VDict Demo.replay_log)) true true Demo.replay_state =
      (Ok (ReplayDone (Nat.eqb (count_ok results) (length Demo.replay_actions))
             "session_0a1b2c3d" (length Demo.replay_actions) (count_ok results) results), s') /\
    (Nat.eqb (count_ok results) (length Demo.replay_actions) = true <->
       length results = length Demo.replay_actions /\
       Forall (fun r => result_ok r = true) results) /\
    (true = false -> length results = length Demo.replay_actions) /\
    (true = true ->
       (Forall (fun r => result_ok r = true) results /\
        length results = length Demo.replay_actions) \/
       exists pre bad,
         results = pre ++ [bad] /\ Forall (fun r => result_ok r = true) pre /\
         result_ok bad = false /\ length results <= length Demo.replay_actions /\
         Nat.eqb (count_ok results) (length Demo.replay_actions) = false).
Proof.
  apply (replay_success_iff_all_succeeded nat Demo.registry Demo.page_call Demo.run
           "session_0a1b2c3d" Demo.replay_log Demo.replay_actions true true
           Demo.replay_state).
  - reflexivity.
  - discriminate.
  - repeat (apply Forall_cons; [eexists; reflexivity|]). apply Forall_nil.
Defined.


Lemma execute_action_status_witness :
  exists r s',
    Replay.execute_action nat Demo.registry Demo.page_call Demo.run (VStr "click")
      (VDict [("selector", VStr "#apply")]) Demo.replay_state = (Ok (VDict r), s') /\
    (exists b, dict_get r "success" = Some (VBool b)) /\
    (Loop.eq_str (VStr "click") "extract" = true ->
       s' = Demo.replay_state /\ r = [("success", VBool true); ("skipped", VBool true)]).
Proof.
  apply (execute_action_status nat Demo.registry Demo.page_call Demo.run (VStr "click")
           [("selector", VStr "#apply")] Demo.replay_state).
  - exact I.
  - intros n p w. eexists; eexists; reflexivity.
Defined.

Lemma replay_trace_witness :
  exists res s',
    Replay.replay nat Demo.registry Demo.page_call Demo.run "session_0a1b2c3d"
      (Some (VDict Demo.replay_log)) true false Demo.replay_state = (Ok res, s') /\
    rtrace s' = rtrace Demo.replay_state ++
      replay_events true (length Demo.replay_actions) 0 (map action_name_of Demo.replay_actions) /\
    length (filter is_sleep (rtrace s')) =
      length (filter is_sleep (rtrace Demo.replay_state)) +
        (if true then length Demo.replay_actions - 1 else 0).
Proof.
  apply (replay_trace nat Demo.registry Demo.page_call Demo.run "session_0a1b2c3d"
           Demo.replay_log Demo.replay_actions true Demo.replay_state).
  - reflexivity.
  - discriminate.
  - repeat (apply Forall_cons; [eexists; reflexivity|]). apply Forall_nil.
Defined.

Lemma replay_non_dict_entry_raises_witness :
  let acts := [VDict [("action", VStr "wait")]; VStr "navigate"] in
  let out := Replay.replay nat Demo.registry Demo.page_call Demo.run "session_0a1b2c3d"
               (Some (VDict [("actions", VList acts)])) true true Demo.replay_state in
  (fst out = Raise AttributeError /\
   rtrace (snd out) = rtrace Demo.replay_state ++
     replay_events true (length acts) 0 (map action_name_of [VDict [("action", VStr "wait")]])) \/
  (true = true /\ exists results,
     fst out = Ok (ReplayDone false "session_0a1b2c3d" (length acts) (count_ok results) results) /\
     length results <= length [VDict [("action", VStr "wait")]] /\
     exists ok b, results = ok ++ [b] /\ Forall (fun r => result_ok r = true) ok /\
                  result_ok b = false).
Proof.
  apply (replay_non_dict_entry_raises nat Demo.registry Demo.page_call Demo.run
           "session_0a1b2c3d"
           [("actions", VList [VDict [("action", VStr "wait")]; VStr "navigate"])]
           [VDict [("action", VStr "wait")]] (VStr "navigate") [] true true Demo.replay_state).
  - reflexivity.
  - constructor; [eexists; reflexivity|constructor].
  - intros d' H. discriminate.
Defined.

End ReplayFacts.

(** ** Properties of the session log *)

Module LoggerFacts.

Import Logger.

Section ValueInd.
Variable P : value -> Prop.
Hypothesis HNone : P VNone.
Hypothesis HBool : forall b, P (VBool b).
Hypothesis HInt : forall z, P (VInt z).
Hypothesis HFloat : forall s, P (VFloat s).
Hypothesis HStr : forall s, P (VStr s).
Hypothesis HList : forall l, Forall P l -> P (VList l).
Hypothesis HDict : forall d, Forall (fun kv => P (snd kv)) d -> P (VDict d).

Fixpoint value_ind' (v : value) : P v :=
  match v with
  | VNone => HNone
  | VBool b => HBool b
  | VInt z => HInt z
  | VFloat s => HFloat s
  | VStr s => HStr s
  | VList l =>
      HList l ((fix go (l : list value) : Forall P l :=
                  match l with
                  | [] => Forall_nil P
                  | x :: l' => @Forall_cons _ P x l' (value_ind' x) (go l')
                  end) l)
  | VDict d =>
      HDict d ((fix go (d : list (string * value)) : Forall (fun kv => P (snd kv)) d :=
                  match d with
                  | [] => Forall_nil _
                  | (k, x) :: d' =>
                      @Forall_cons _ (fun kv => P (snd kv)) (k, x) d' (value_ind' x) (go d')
                  end) d)
  end.
End ValueInd.

(** [json.load] rebuilding an object's pairs into [acc]. *)
Fixpoint load_pairs (acc : dict) (l : list (string * json)) : dict :=
  match l with
  | [] => acc
  | (k, x) :: l' => load_pairs (dict_set acc k (json_load x)) l'
  end.

Lemma json_dump_dict d :
  json_dump (VDict d) = JObj (map (fun kv => (fst kv, json_dump (snd kv))) d).
Proof.
  induction d as [|[k x] d IH]; [reflexivity|].
  cbn in IH |- *. injection IH as IH. rewrite IH. reflexivity.
Qed.

Lemma json_load_obj_go l : forall acc,
  (fix go (acc : dict) (l : list (string * json)) : dict :=
     match l with
     | [] => acc
     | (k, x) :: l' => go (dict_set acc k (json_load x)) l'
     end) acc l = load_pairs acc l.
Proof. induction l as [|[k x] l IH]; intros acc; [reflexivity|]. cbn. apply IH. Qed.

Lemma json_load_obj l : json_load (JObj l) = VDict (load_pairs [] l).
Proof. cbn [json_load]. rewrite json_load_obj_go. reflexivity. Qed.

Lemma wf_dict_cons k x d :
  wf_value (VDict ((k, x) :: d)) = fresh_key k d && wf_value x && wf_value (VDict d).
Proof. reflexivity. Qed.

Lemma wf_list_cons x l : wf_value (VList (x :: l)) = wf_value x && wf_value (VList l).
Proof. reflexivity. Qed.

Lemma fresh_key_app k a b : fresh_key k (a ++ b) = fresh_key k a && fresh_key k b.
Proof.
  induction a as [|[k' v'] a IH]; [reflexivity|]. cbn. rewrite IH. apply andb_assoc.
Qed.

Lemma fresh_key_not_in k d : fresh_key k d = true -> forall k' v, In (k', v) d -> k' <> k.
Proof.
  induction d as [|[k2 v2] d IH]; intros H k' v Hin; [destruct Hin|].
  cbn in H. apply andb_true_iff in H as [H1 H2].
  destruct Hin as [Heq|Hin].
  - injection Heq as <- <-. intros ->. rewrite String.eqb_refl in H1. discriminate.
  - eapply IH; eauto.
Qed.

Lemma dict_set_fresh k v acc : fresh_key k acc = true -> dict_set acc k v = acc ++ [(k, v)].
Proof.
  induction acc as [|[k' v'] acc IH]; intros H; [reflexivity|].
  cbn in H |- *. apply andb_true_iff in H as [H1 H2].
  destruct (String.eqb k k'); [discriminate|]. rewrite IH by exact H2. reflexivity.
Qed.

Lemma dict_get_set_same {A} (d : list (string * A)) k v : dict_get (dict_set d k v) k = Some v.
Proof.
  induction d as [|[k' v'] d IH]; cbn; [rewrite String.eqb_refl; reflexivity|].
  destruct (String.eqb k k') eqn:E; cbn; rewrite ?E; [reflexivity|exact IH].
Qed.

Lemma load_pairs_dump d : forall acc,
  Forall (fun kv => wf_value (snd kv) = true -> json_load (json_dump (snd kv)) = snd kv) d ->
  wf_value (VDict d) = true ->
  (forall k v, In (k, v) d -> fresh_key k acc = true) ->
  load_pairs acc (map (fun kv => (fst kv, json_dump (snd kv))) d) = acc ++ d.
Proof.
  induction d as [|[k x] d IH]; intros acc Hp Hwf Hfr; cbn [map load_pairs fst snd].
  - rewrite app_nil_r. reflexivity.
  - inversion Hp as [|? ? Hx Hp']; subst.
    rewrite wf_dict_cons in Hwf. apply andb_true_iff in Hwf as [Hwf Hd].
    apply andb_true_iff in Hwf as [Hk Hwx].
    cbn [snd] in Hx. rewrite (Hx Hwx).
    rewrite dict_set_fresh by (apply (Hfr k x); left; reflexivity).
    rewrite IH; [rewrite <- app_assoc; reflexivity|exact Hp'|exact Hd|].
    intros k' v Hin. rewrite fresh_key_app, (Hfr k' v (or_intror Hin)). cbn.
    pose proof (fresh_key_not_in k d Hk k' v Hin) as Hne.
    apply String.eqb_neq in Hne. rewrite Hne. reflexivity.
Qed.

Lemma json_round_trip v : wf_value v = true -> json_load (json_dump v) = v.
Proof.
  induction v as [| | | | |l IH|d IH] using value_ind'; intros Hwf; try reflexivity.
  - cbn [json_dump json_load]. f_equal. rewrite map_map.
    induction IH as [|x l Hx _ IHl]; [reflexivity|].
    rewrite wf_list_cons in Hwf. apply andb_true_iff in Hwf as [Hwx Hwl].
    cbn [map]. rewrite (Hx Hwx), (IHl Hwl). reflexivity.
  - rewrite json_dump_dict, json_load_obj. f_equal.
    apply load_pairs_dump; [exact IH|exact Hwf|intros k x _; reflexivity].
Qed.

(** Both the params dict and the result of a log entry are well formed. *)
Definition entry_wf (e : LogEntry) : bool :=
  wf_value (VDict (le_params e)) && wf_value (le_result e).

Lemma wf_opt_str o : wf_value (opt_str o) = true.
Proof. destruct o; reflexivity. Qed.

Lemma wf_entry e : entry_wf e = true -> wf_value (entry_to_value e) = true.
Proof.
  unfold entry_wf, entry_to_value. intros H. apply andb_true_iff in H as [Hp Hr].
  rewrite !wf_dict_cons, !wf_opt_str, Hp, Hr. reflexivity.
Qed.

Lemma wf_entries es :
  Forall (fun e => entry_wf e = true) es -> wf_value (VList (map entry_to_value es)) = true.
Proof.
  induction 1 as [|e es He _ IH]; [reflexivity|].
  cbn [map]. rewrite wf_list_cons, (wf_entry e He), IH. reflexivity.
Qed.

Lemma wf_log_data elapsed sid lg succ err now :
  Forall (fun e => entry_wf e = true) (actions lg) ->
  wf_value (log_data elapsed sid lg succ err now) = true.
Proof.
  intros H. unfold log_data. rewrite !wf_dict_cons, !wf_opt_str, (wf_entries _ H).
  destruct (start_time lg); reflexivity.
Qed.

(** C7: after [end_session] has sealed an open session [sid], reading the
    log back with [get_log sid] yields exactly the document that was written:
    the [log_data] record, whose [action_count] is the number of logged
    actions and whose [actions] list is the logged entries, field for field
    (for entries whose params and results are JSON-representable). *)
Theorem get_log_round_trip elapsed succ err now (lg : ActionLogger) sid :
  session_id lg = Some sid ->
  Forall (fun e => entry_wf e = true) (actions lg) ->
  get_log sid (snd (end_session elapsed succ err now lg)) =
    Some (log_data elapsed sid lg succ err now) /\
  py_get (log_data elapsed sid lg succ err now) "action_count" VNone =
    Ok (VInt (Z.of_nat (length (actions lg)))) /\
  py_get (log_data elapsed sid lg succ err now) "actions" VNone =
    Ok (VList (map entry_to_value (actions lg))).
Proof.
  intros Hs Hw. unfold end_session. rewrite Hs. cbn [snd].
  unfold get_log, log_path. cbn [files logs_dir].
  rewrite dict_get_set_same, json_round_trip by (apply wf_log_data; exact Hw).
  split; [reflexivity|split; reflexivity].
Qed.

Lemma get_log_round_trip_witness :
  get_log "session_0a1b2c3d"
    (snd (end_session Demo.elapsed true None "2026-10-14T09:00:02" Demo.open_logger)) =
    Some (log_data Demo.elapsed "session_0a1b2c3d" Demo.open_logger true None
            "2026-10-14T09:00:02") /\
  py_get (log_data Demo.elapsed "session_0a1b2c3d" Demo.open_logger true None
            "2026-10-14T09:00:02") "action_count" VNone = Ok (VInt 1) /\
  py_get (log_data Demo.elapsed "session_0a1b2c3d" Demo.open_logger true None
            "2026-10-14T09:00:02") "actions" VNone =
    Ok (VList (map entry_to_value (actions Demo.open_logger))).
Proof.
  apply (get_log_round_trip Demo.elapsed true None "2026-10-14T09:00:02"
           Demo.open_logger "session_0a1b2c3d").
  - reflexivity.
  - apply Forall_cons; [vm_compute; reflexivity|apply Forall_nil].
Defined.

End LoggerFacts.

(** ** Actions: parameter validation, wait and navigate *)

Module ActionFacts.
Import Actions.

Lemma starts_with_app_l p a s : starts_with p a = true -> starts_with p (a ++ s) = true.
Proof.
  revert a; induction p as [|c p IH]; intros [|c' a] H; cbn in *; try discriminate; auto.
  apply andb_true_iff in H as [H1 H2]. rewrite H1, (IH a H2). reflexivity.
Qed.

Lemma starts_with_self p s : starts_with p (p ++ s) = true.
Proof. induction p as [|c p IH]; cbn; [reflexivity|rewrite Ascii.eqb_refl, IH; reflexivity]. Qed.

Lemma contains_app_r n a s : contains n s = true -> contains n (a ++ s) = true.
Proof.
  induction a as [|c a IH]; intros H; cbn [append]; [exact H|].
  cbn [contains]. rewrite (IH H), orb_true_r. reflexivity.
Qed.

Lemma contains_starts n s : starts_with n s = true -> contains n s = true.
Proof. intros H. destruct s; cbn [contains]; rewrite H; reflexivity. Qed.

Lemma contains_cons_self p s : contains p (p ++ s) = true.
Proof. apply contains_starts, starts_with_self. Qed.

Lemma app_empty_r s : (s ++ "")%string = s.
Proof. induction s as [|c s IH]; cbn; [reflexivity|now rewrite IH]. Qed.

Lemma contains_join p l : In p l -> contains p (join_comma l) = true.
Proof.
  induction l as [|x l IH]; intros H; [destruct H|].
  destruct H as [<-|H].
  - destruct l as [|y l].
    + cbn [join_comma]. apply contains_starts.
      rewrite <- (app_empty_r x) at 2. apply starts_with_self.
    + cbn [join_comma]. apply contains_cons_self.
  - destruct l as [|y l]; [destruct H|].
    cbn [join_comma] in *. apply contains_app_r. apply (contains_app_r p ", "). auto.
Qed.

Lemma filter_nil_iff {X} (f : X -> bool) l :
  filter f l = [] <-> forall x, In x l -> f x = false.
Proof.
  induction l as [|x l IH]; cbn; [split; [intros _ y []|reflexivity]|].
  destruct (f x) eqn:E; split.
  - discriminate.
  - intros H. rewrite (H x (or_introl eq_refl)) in E. discriminate.
  - intros H y [<-|Hy]; [exact E|]. apply IH; auto.
  - intros H. apply IH. intros y Hy. apply H. auto.
Qed.

(** [validate_params] accepts the params exactly when no required name is
    missing (absent or [None]); when one is missing, the error message
    names it. *)
Theorem validate_params_spec required provided :
  (validate_params required provided = None <->
     forall p, In p required -> is_missing provided p = false) /\
  (forall p, In p required -> is_missing provided p = true ->
     exists msg, validate_params required provided = Some msg /\ contains p msg = true).
Proof.
  unfold validate_params. split.
  - rewrite <- filter_nil_iff. destruct (filter _ _); split; congruence.
  - intros p Hin Hm.
    assert (Hf : In p (filter (is_missing provided) required)) by (apply filter_In; auto).
    destruct (filter _ _) as [|x l] eqn:E; [destruct Hf|].
    eexists; split; [reflexivity|].
    apply (contains_app_r p "Missing required parameters: "), contains_join, Hf.
Qed.

Section Page.
Variable A : Type.
Variable page_call : string -> list value -> A -> exc unit * A.
Variable goto : value -> value -> value -> A -> exc (option value) * A.

Local Abbreviation wait_execute := (Actions.wait_execute A page_call).
Local Abbreviation navigate_execute := (Actions.navigate_execute A goto).

(** The page calls [WaitAction.execute] makes, in order, on the branch its
    arguments select; [Raise] when [duration / 1000] fails before any. *)
Definition wait_calls (selector timeout state duration wait_for : value)
    : exc (list (string * list value)) :=
  if negb (truthy duration) && negb (truthy wait_for) && negb (truthy selector) then
    Ok [("wait_for_load_state", [VStr "domcontentloaded"; timeout]); ("sleep", [VInt 1000])]
  else if truthy duration then
    match Loop.py_div_ok duration with
    | Ok _ => Ok [("sleep", [duration])]
    | Raise e => Raise e
    end
  else if truthy wait_for then Ok [("wait_for_load_state", [wait_for; timeout])]
  else Ok [("wait_for_selector", [selector; timeout; state])].

(** Making the page calls [calls] in order, up to the first that raises. *)
Fixpoint run_calls (calls : list (string * list value)) (s : A) : exc unit * A :=
  match calls with
  | [] => (Ok tt, s)
  | (m, args) :: rest =>
      match page_call m args s with
      | (Ok _, s1) => run_calls rest s1
      | (Raise e, s1) => (Raise e, s1)
      end
  end.


(** [NavigateAction.execute] never raises. Without a url ([None]) it fails
    with "Missing required parameters: url" and never calls the page;
    otherwise it calls [page.goto] once and succeeds exactly when [goto]
    returns. *)
Theorem navigate_requires_url url wait_until timeout (s : A) :
  exists r s', navigate_execute url wait_until timeout s = (Ok r, s') /\
    (url = VNone ->
       r = mkResult false (Some "navigate") VNone
             (Some "Missing required parameters: url") [] /\ s' = s) /\
    (url <> VNone ->
       s' = snd (goto url wait_until timeout s) /\
       (success r = true <-> exists st, fst (goto url wait_until timeout s) = Ok st)).
Proof.
  destruct url; unfold Actions.navigate_execute, catch_result, bind, ret; cbn.
  { eexists _, _. split; [reflexivity|]. split; [auto|]. intros []; reflexivity. }
  all: match goal with |- context [goto ?a ?b ?c ?d] => destruct (goto a b c d) as [[st|e] s'] eqn:Eg end;
    eexists _, _; (split; [reflexivity|]);
    (split; [discriminate|intros _; cbn]);
    (split; [reflexivity|]); split;
    solve [ reflexivity | intros _; eexists; reflexivity
          | cbn; discriminate | intros [? H]; discriminate ].
Qed.

End Page.

End ActionFacts.

(** ** More on the session logger *)

Module LoggerExtra.
Import Logger LoggerFacts.

(** Logging the entries [es] in order, as [log_action] calls. *)
Definition log_all (es : list LogEntry) (lg : ActionLogger) : ActionLogger :=
  fold_left (fun acc e => log_action (le_action e) (le_params e) (le_result e)
                            (le_success e) (le_error e) (le_timestamp e) acc) es lg.

Lemma log_all_fields es : forall lg,
  logs_dir (log_all es lg) = logs_dir lg /\ session_id (log_all es lg) = session_id lg /\
  goal (log_all es lg) = goal lg /\ start_time (log_all es lg) = start_time lg /\
  files (log_all es lg) = files lg /\ actions (log_all es lg) = actions lg ++ es.
Proof.
  induction es as [|e es IH]; intros lg.
  - cbn. rewrite app_nil_r. repeat split.
  - change (log_all (e :: es) lg)
      with (log_all es (log_action (le_action e) (le_params e) (le_result e)
                          (le_success e) (le_error e) (le_timestamp e) lg)).
    destruct (IH (log_action (le_action e) (le_params e) (le_result e) (le_success e)
                  (le_error e) (le_timestamp e) lg)) as (H1 & H2 & H3 & H4 & H5 & H6).
    rewrite H1, H2, H3, H4, H5, H6. cbn. rewrite <- app_assoc.
    destruct e; repeat split; reflexivity.
Qed.

Lemma end_session_closes elapsed succ err now (lg : ActionLogger) :
  session_id (snd (end_session elapsed succ err now lg)) = None.
Proof.
  unfold end_session. destruct (session_id lg) eqn:E; [reflexivity|exact E].
Qed.

(** After [end_session] the logger has no session. Logging any number of
    further actions ([log_action] still appends them) and ending again
    returns the empty path and leaves the logger, and so the files, as
    they were. *)
Theorem closed_session_writes_nothing elapsed succ err now (lg : ActionLogger)
    es succ2 err2 now2 :
  let lg1 := log_all es (snd (end_session elapsed succ err now lg)) in
  end_session elapsed succ2 err2 now2 lg1 = ("", lg1) /\
  files lg1 = files (snd (end_session elapsed succ err now lg)) /\
  actions lg1 = actions (snd (end_session elapsed succ err now lg)) ++ es.
Proof.
  cbv zeta.
  destruct (log_all_fields es (snd (end_session elapsed succ err now lg)))
    as (_ & H2 & _ & _ & H5 & H6).
  unfold end_session at 1. rewrite H2, end_session_closes.
  split; [reflexivity|split; assumption].
Qed.

(** A session started with [uid], in which the entries [es] are logged and
    which is then ended, is read back by [get_log] with the goal, start and
    end times, duration, outcome, the action count [length es] and every
    entry in logging order. *)
Theorem session_file_lists_logged_entries elapsed g uid t0 es succ err now
    (lg : ActionLogger) :
  Forall (fun e => entry_wf e = true) es ->
  let sid := ("session_" ++ uid)%string in
  let lg1 := log_all es (snd (start_session g uid t0 lg)) in
  get_log sid (snd (end_session elapsed succ err now lg1)) =
    Some (VDict [("session_id", VStr sid);
                 ("goal", VStr g);
                 ("start_time", VStr t0);
                 ("end_time", VStr now);
                 ("duration_seconds", VFloat (elapsed t0 now));
                 ("success", VBool succ);
                 ("error", opt_str err);
                 ("action_count", VInt (Z.of_nat (length es)));
                 ("actions", VList (map entry_to_value es))]).
Proof.
  intros Hw. cbv zeta.
  set (lg0 := snd (start_session g uid t0 lg)).
  destruct (log_all_fields es lg0) as (H1 & H2 & H3 & H4 & H5 & H6).
  assert (Hs : session_id (log_all es lg0) = Some ("session_" ++ uid)%string)
    by (rewrite H2; reflexivity).
  unfold end_session. rewrite Hs. cbn [snd].
  unfold get_log, log_path. cbn [files logs_dir].
  rewrite dict_get_set_same, json_round_trip.
  - unfold log_data. rewrite H3, H4, H6. reflexivity.
  - apply wf_log_data. rewrite H6. exact Hw.
Qed.

Lemma session_file_lists_logged_entries_witness :
  let sid := ("session_" ++ "0a1b2c3d")%string in
  let lg1 := log_all [mkEntry (Some "extract") [("selector", VStr ".job")]
                        (VList [VStr "Engineer"]) true None "2026-10-14T09:00:01"]
               (snd (start_session "find jobs" "0a1b2c3d" "2026-10-14T09:00:00"
                       (init "./logs"))) in
  get_log sid (snd (end_session Demo.elapsed true None "2026-10-14T09:00:02" lg1)) =
    Some (VDict [("session_id", VStr sid);
                 ("goal", VStr "find jobs");
                 ("start_time", VStr "2026-10-14T09:00:00");
                 ("end_time", VStr "2026-10-14T09:00:02");
                 ("duration_seconds",
                    VFloat (Demo.elapsed "2026-10-14T09:00:00" "2026-10-14T09:00:02"));
                 ("success", VBool true);
                 ("error", opt_str None);
                 ("action_count",
                    VInt (Z.of_nat (length [mkEntry (Some "extract") [("selector", VStr ".job")]
                                              (VList [VStr "Engineer"]) true None
                                              "2026-10-14T09:00:01"])));
                 ("actions", VList (map entry_to_value
                                      [mkEntry (Some "extract") [("selector", VStr ".job")]
                                         (VList [VStr "Engineer"]) true None
                                         "2026-10-14T09:00:01"]))]).
Proof.
  apply (session_file_lists_logged_entries Demo.elapsed "find jobs" "0a1b2c3d"
           "2026-10-14T09:00:00"
           [mkEntry (Some "extract") [("selector", VStr ".job")]
              (VList [VStr "Engineer"]) true None "2026-10-14T09:00:01"]
           true None "2026-10-14T09:00:02" (init "./logs")).
  apply Forall_cons; [vm_compute; reflexivity|apply Forall_nil].
Defined.

End LoggerExtra.
